(** * CitySample editor scripts: a shallow embedding

    The repository holds three editor-automation scripts,
    [OverReducedFinder.py], [TrianglesListMaker.py] and [percenttriangles.py].
    They read and write the LOD0 reduction percentage of static meshes through
    chains of [try: ... except Exception: pass] blocks, one block per access
    path the host may or may not offer.

    The host (the editor's object model) is embedded as a record of what each
    host call answers: a value, or a raised exception.  The scripts become
    functions in a small state-and-exception monad over that record, which
    also keeps the list of host calls made so far. *)

From Stdlib Require Import ZArith List String Ascii Bool Lia.
From Stdlib Require Import Floats.PrimFloat.
Import ListNotations.

Set Implicit Arguments.

(** Decimal literals are read as Python reads them: rounded to the nearest
    binary64 value. *)
Set Warnings "-inexact-float".
Open Scope string_scope.

(** ** Python exceptions

    Every handler in the scripts is [except Exception], apart from one
    [except AttributeError] in [percenttriangles.ensure_nanite_disabled]; two
    classes of exception are therefore enough.  [OtherException] stands for
    any subclass of [Exception] that is not an [AttributeError].  What is not
    an [Exception] ([KeyboardInterrupt], [SystemExit]) is not modelled: host
    calls raise subclasses of [Exception] only. *)

Inductive exn : Type :=
| AttributeError
| OtherException.

Inductive result (A : Type) : Type :=
| Return (a : A)
| Raise (e : exn).

Arguments Return {A} a.
Arguments Raise {A} e.

(** ** The host object model

    Python's [float] is IEEE binary64, as is [PrimFloat.float]; Python's [int]
    is unbounded, hence [Z].  A falsy container ([None] or an empty array) is
    the empty list; a falsy struct ([None]) is [None]. *)

(** [FMeshReductionSettings] as Python sees it: what
    [float(red.percent_triangles)] answers and whether
    [red.set_editor_property("percent_triangles", v)] is accepted. *)
Record ReductionSettings : Type := {
  percent_triangles : result float;
  percent_triangles_settable : bool
}.

(** One entry of [lods] or of [source_models]. *)
Record SourceModel : Type := {
  reduction_settings : result ReductionSettings;
  reduction_settings_settable : bool
}.

(** [nanite_settings]: [enabled] is [None] when the struct has no such
    attribute, so that [getattr(s, "enabled", False)] takes its default. *)
Record NaniteSettings : Type := {
  enabled : option bool;
  enabled_settable : bool
}.

(** [render_data.lods[i]]: [None] when the entry has no [get_num_triangles]. *)
Record RenderLOD : Type := {
  lod_get_num_triangles : option (result Z)
}.

(** [render_data]: [None] when it has no attribute [lods]. *)
Record RenderData : Type := {
  render_lods : option (list RenderLOD)
}.

(** A static mesh.  [obj_name] and [obj_path_name] are what [get_name()] and
    [get_path_name()] answer: a string, or a raised exception, as for any
    other host call; the scripts call both outside every [try].  The last
    group of fields is what the editor subsystem and the asset libraries
    answer when called on this mesh. *)
Record StaticMesh : Type := {
  obj_name : result string;
  obj_path_name : result string;
  has_get_editor_property : bool;
  lods : result (list SourceModel);
  lods_settable : bool;
  source_models : result (list SourceModel);
  source_models_settable : bool;
  nanite_settings : result (option NaniteSettings);
  nanite_settings_settable : bool;
  render_data : result (option RenderData);
  get_num_triangles : option (result Z);
  is_nanite_enabled : result bool;
  set_nanite_enabled_raises : option exn;
  build : option (option exn);
  outer : result string;
  lod_reduction_settings : result (option ReductionSettings);
  lod_reduction_settings_settable : bool;
  rebuild_lods_raises : option exn;
  build_static_mesh_raises : option exn;
  save_loaded_asset_raises : option exn;
  save_packages_raises : option exn
}.

(** [StaticMeshEditorSubsystem]: which build methods [hasattr] finds. *)
Record Subsystem : Type := {
  has_rebuild_lods : bool;
  has_build_static_mesh : bool
}.

Definition AssetRef : Type := nat.

(** An entry of the asset registry: [get_asset()] raises, or loads an object
    that is a static mesh ([Some]) or something else ([None]). *)
Record AssetData : Type := {
  asset_name : string;
  get_asset : result (option AssetRef)
}.

(** The [unreal] module: what [get_editor_subsystem] answers ([None] is a
    legal answer), whether [EditorLoadingAndSavingUtils] exists, whether
    [unreal.log] raises, and what the asset registry answers when it is asked
    for the static meshes under the search paths: the entries, or the
    exception one of [get_asset_registry()], [ARFilter(...)] and
    [registry.get_assets(filter)] raises. *)
Record Unreal : Type := {
  editor_subsystem : result (option Subsystem);
  has_EditorLoadingAndSavingUtils : bool;
  log_raises : option exn;
  registry_assets : result (list AssetData)
}.

(** A line handed to [unreal.log]: the text, or a warning that interpolates
    an exception. *)
Inductive logline : Type :=
| Line (text : string)
| Warning (what : string) (mesh : string) (e : exn).

(** Host calls, recorded in the order they are made (most recent first). *)
Inductive event : Type :=
| EvGetProperty (sm : AssetRef) (prop : string)
| EvSetProperty (sm : AssetRef) (prop : string)
| EvStructGet (sm : AssetRef) (prop : string)
| EvStructSet (sm : AssetRef) (prop : string)
| EvMethod (sm : AssetRef) (method : string)
| EvGetEditorSubsystem
| EvSubsystemCall (sm : AssetRef) (method : string)
| EvLibraryCall (sm : AssetRef) (fn : string)
| EvLog (l : logline).

Record World : Type := {
  objects : AssetRef -> StaticMesh;
  unreal : Unreal;
  trace : list event
}.

(** ** The monad *)

Definition M (A : Type) : Type := World -> result A * World.

Definition ret {A} (a : A) : M A := fun w => (Return a, w).

Definition raise {A} (e : exn) : M A := fun w => (Raise e, w).

Definition bind {A B} (m : M A) (k : A -> M B) : M B :=
  fun w =>
    match m w with
    | (Return a, w') => k a w'
    | (Raise e, w') => (Raise e, w')
    end.

Notation "x <- m ;; k" := (bind m (fun x => k))
  (at level 61, m at next level, right associativity).
Notation "m ;;; k" := (bind m (fun _ => k))
  (at level 61, right associativity).

(** [try: body / except <classes>: handler] *)
Definition try_except {A} (body : M A) (handler : exn -> M A) : M A :=
  fun w =>
    match body w with
    | (Return a, w') => (Return a, w')
    | (Raise e, w') => handler e w'
    end.

Definition lift {A} (r : result A) : M A := fun w => (r, w).

Definition emit (e : event) : M unit :=
  fun w => (Return tt,
            {| objects := objects w; unreal := unreal w; trace := e :: trace w |}).

Definition the_object (sm : AssetRef) : M StaticMesh :=
  fun w => (Return (objects w sm), w).

Definition the_unreal : M Unreal := fun w => (Return (unreal w), w).

Definition store_object (sm : AssetRef) (o : StaticMesh) : M unit :=
  fun w => (Return tt,
            {| objects := fun r => if Nat.eqb r sm then o else objects w r;
               unreal := unreal w;
               trace := trace w |}).

(** The body of one [try] block that may [return v] early: [Some v] is the
    early return, [None] is falling off the end of the block. *)
Abbreviation strategy A := (M (option A)) (only parsing).

(** [try: body / except Exception: pass] *)
Definition attempt {A} (body : strategy A) : strategy A :=
  try_except body (fun _ => ret None).

(** Run [m]; if it returned [v], the function returns [v], else go on. *)
Definition or_else {A} (m : strategy A) (k : M (option A)) : M (option A) :=
  r <- m ;;
  match r with
  | Some v => ret (Some v)
  | None => k
  end.

(** ** Host calls

    Every host call answers with a value or raises.  The calls to the
    reduction, Nanite, build, save and logging interfaces record an [event]
    before they answer; [get_name()], [get_path_name()] and the registry
    enumeration only answer.  A getter hands back a copy of what the host
    holds: the scripts change the copy and write it back with a setter, and
    the host changes only when the setter is accepted, and then holds what
    it was given.  What a build or a save does to the geometry or to the
    files of an asset is not part of the model: these calls are recorded,
    and return or raise. *)

Definition raises (r : option exn) : M unit :=
  match r with
  | None => ret tt
  | Some e => raise e
  end.

(** [static_mesh.get_name()] and [static_mesh.get_path_name()] *)
Definition get_name (sm : AssetRef) : M string :=
  o <- the_object sm ;; lift (obj_name o).

Definition get_path_name (sm : AssetRef) : M string :=
  o <- the_object sm ;; lift (obj_path_name o).

(** [registry = get_asset_registry(); registry.get_assets(ARFilter(...))] *)
Definition get_assets : M (list AssetData) :=
  u <- the_unreal ;; lift (registry_assets u).

(** [static_mesh.get_editor_property(prop)] *)
Definition get_editor_property {A} (sm : AssetRef) (prop : string)
    (field : StaticMesh -> result A) : M A :=
  emit (EvGetProperty sm prop) ;;;
  o <- the_object sm ;;
  if has_get_editor_property o then lift (field o) else raise AttributeError.

(** [static_mesh.set_editor_property(prop, v)] *)
Definition set_editor_property (sm : AssetRef) (prop : string)
    (settable : StaticMesh -> bool) (update : StaticMesh -> StaticMesh) : M unit :=
  emit (EvSetProperty sm prop) ;;;
  o <- the_object sm ;;
  if settable o then store_object sm (update o) else raise OtherException.

Definition with_lods (o : StaticMesh) (l : list SourceModel) : StaticMesh :=
  {| obj_name := obj_name o; obj_path_name := obj_path_name o;
     has_get_editor_property := has_get_editor_property o;
     lods := Return l; lods_settable := lods_settable o;
     source_models := source_models o;
     source_models_settable := source_models_settable o;
     nanite_settings := nanite_settings o;
     nanite_settings_settable := nanite_settings_settable o;
     render_data := render_data o;
     get_num_triangles := get_num_triangles o;
     is_nanite_enabled := is_nanite_enabled o;
     set_nanite_enabled_raises := set_nanite_enabled_raises o;
     build := build o; outer := outer o;
     lod_reduction_settings := lod_reduction_settings o;
     lod_reduction_settings_settable := lod_reduction_settings_settable o;
     rebuild_lods_raises := rebuild_lods_raises o;
     build_static_mesh_raises := build_static_mesh_raises o;
     save_loaded_asset_raises := save_loaded_asset_raises o;
     save_packages_raises := save_packages_raises o |}.

Definition with_source_models (o : StaticMesh) (l : list SourceModel) : StaticMesh :=
  {| obj_name := obj_name o; obj_path_name := obj_path_name o;
     has_get_editor_property := has_get_editor_property o;
     lods := lods o; lods_settable := lods_settable o;
     source_models := Return l;
     source_models_settable := source_models_settable o;
     nanite_settings := nanite_settings o;
     nanite_settings_settable := nanite_settings_settable o;
     render_data := render_data o;
     get_num_triangles := get_num_triangles o;
     is_nanite_enabled := is_nanite_enabled o;
     set_nanite_enabled_raises := set_nanite_enabled_raises o;
     build := build o; outer := outer o;
     lod_reduction_settings := lod_reduction_settings o;
     lod_reduction_settings_settable := lod_reduction_settings_settable o;
     rebuild_lods_raises := rebuild_lods_raises o;
     build_static_mesh_raises := build_static_mesh_raises o;
     save_loaded_asset_raises := save_loaded_asset_raises o;
     save_packages_raises := save_packages_raises o |}.

Definition with_nanite_settings (o : StaticMesh) (s : NaniteSettings) : StaticMesh :=
  {| obj_name := obj_name o; obj_path_name := obj_path_name o;
     has_get_editor_property := has_get_editor_property o;
     lods := lods o; lods_settable := lods_settable o;
     source_models := source_models o;
     source_models_settable := source_models_settable o;
     nanite_settings := Return (Some s);
     nanite_settings_settable := nanite_settings_settable o;
     render_data := render_data o;
     get_num_triangles := get_num_triangles o;
     is_nanite_enabled := is_nanite_enabled o;
     set_nanite_enabled_raises := set_nanite_enabled_raises o;
     build := build o; outer := outer o;
     lod_reduction_settings := lod_reduction_settings o;
     lod_reduction_settings_settable := lod_reduction_settings_settable o;
     rebuild_lods_raises := rebuild_lods_raises o;
     build_static_mesh_raises := build_static_mesh_raises o;
     save_loaded_asset_raises := save_loaded_asset_raises o;
     save_packages_raises := save_packages_raises o |}.

Definition with_is_nanite_enabled (o : StaticMesh) (b : bool) : StaticMesh :=
  {| obj_name := obj_name o; obj_path_name := obj_path_name o;
     has_get_editor_property := has_get_editor_property o;
     lods := lods o; lods_settable := lods_settable o;
     source_models := source_models o;
     source_models_settable := source_models_settable o;
     nanite_settings := nanite_settings o;
     nanite_settings_settable := nanite_settings_settable o;
     render_data := render_data o;
     get_num_triangles := get_num_triangles o;
     is_nanite_enabled := Return b;
     set_nanite_enabled_raises := set_nanite_enabled_raises o;
     build := build o; outer := outer o;
     lod_reduction_settings := lod_reduction_settings o;
     lod_reduction_settings_settable := lod_reduction_settings_settable o;
     rebuild_lods_raises := rebuild_lods_raises o;
     build_static_mesh_raises := build_static_mesh_raises o;
     save_loaded_asset_raises := save_loaded_asset_raises o;
     save_packages_raises := save_packages_raises o |}.

Definition with_lod_reduction_settings (o : StaticMesh) (s : ReductionSettings)
    : StaticMesh :=
  {| obj_name := obj_name o; obj_path_name := obj_path_name o;
     has_get_editor_property := has_get_editor_property o;
     lods := lods o; lods_settable := lods_settable o;
     source_models := source_models o;
     source_models_settable := source_models_settable o;
     nanite_settings := nanite_settings o;
     nanite_settings_settable := nanite_settings_settable o;
     render_data := render_data o;
     get_num_triangles := get_num_triangles o;
     is_nanite_enabled := is_nanite_enabled o;
     set_nanite_enabled_raises := set_nanite_enabled_raises o;
     build := build o; outer := outer o;
     lod_reduction_settings := Return (Some s);
     lod_reduction_settings_settable := lod_reduction_settings_settable o;
     rebuild_lods_raises := rebuild_lods_raises o;
     build_static_mesh_raises := build_static_mesh_raises o;
     save_loaded_asset_raises := save_loaded_asset_raises o;
     save_packages_raises := save_packages_raises o |}.

(** [entry.get_editor_property("reduction_settings")] *)
Definition get_reduction_settings (sm : AssetRef) (entry : SourceModel)
    : M ReductionSettings :=
  emit (EvStructGet sm "reduction_settings") ;;;
  lift (reduction_settings entry).

(** [float(red.percent_triangles)] *)
Definition float_percent_triangles (sm : AssetRef) (red : ReductionSettings)
    : M float :=
  emit (EvStructGet sm "percent_triangles") ;;;
  lift (percent_triangles red).

(** [red.set_editor_property("percent_triangles", value_raw)]: [red] is
    changed in place, the new struct is what the name [red] denotes after. *)
Definition set_percent_triangles (sm : AssetRef) (red : ReductionSettings)
    (value_raw : float) : M ReductionSettings :=
  emit (EvStructSet sm "percent_triangles") ;;;
  if percent_triangles_settable red
  then ret {| percent_triangles := Return value_raw;
              percent_triangles_settable := true |}
  else raise OtherException.

(** [entry.set_editor_property("reduction_settings", red)] *)
Definition set_reduction_settings (sm : AssetRef) (entry : SourceModel)
    (red : ReductionSettings) : M SourceModel :=
  emit (EvStructSet sm "reduction_settings") ;;;
  if reduction_settings_settable entry
  then ret {| reduction_settings := Return red;
              reduction_settings_settable := true |}
  else raise OtherException.

(** [unreal.get_editor_subsystem(unreal.StaticMeshEditorSubsystem)] *)
Definition get_editor_subsystem : M (option Subsystem) :=
  emit EvGetEditorSubsystem ;;;
  u <- the_unreal ;;
  lift (editor_subsystem u).

(** [smes.get_lod_reduction_settings(static_mesh, 0)]; on [smes = None] the
    attribute lookup raises before any call is made. *)
Definition get_lod_reduction_settings (smes : option Subsystem) (sm : AssetRef)
    : M (option ReductionSettings) :=
  match smes with
  | None => raise AttributeError
  | Some _ =>
      emit (EvSubsystemCall sm "get_lod_reduction_settings") ;;;
      o <- the_object sm ;;
      lift (lod_reduction_settings o)
  end.

(** [smes.set_lod_reduction_settings(static_mesh, 0, settings)] *)
Definition set_lod_reduction_settings (smes : option Subsystem) (sm : AssetRef)
    (settings : ReductionSettings) : M unit :=
  match smes with
  | None => raise AttributeError
  | Some _ =>
      emit (EvSubsystemCall sm "set_lod_reduction_settings") ;;;
      o <- the_object sm ;;
      if lod_reduction_settings_settable o
      then store_object sm (with_lod_reduction_settings o settings)
      else raise OtherException
  end.

(** [unreal.log(line)] *)
Definition unreal_log (l : logline) : M unit :=
  emit (EvLog l) ;;;
  u <- the_unreal ;;
  raises (log_raises u).

(** ** The three access paths of the reduction percentage

    The bodies of the three [try] blocks of [get_percent_triangles_lod0]; the
    three scripts carry the same text. *)

Definition read_via_lods (sm : AssetRef) : strategy float :=
  lods <- get_editor_property sm "lods" lods ;;
  match lods with
  | lod0 :: _ =>
      red <- get_reduction_settings sm lod0 ;;
      v <- float_percent_triangles sm red ;;
      ret (Some v)
  | [] => ret None
  end.

Definition read_via_source_models (sm : AssetRef) : strategy float :=
  source_models <- get_editor_property sm "source_models" source_models ;;
  match source_models with
  | sm0 :: _ =>
      red <- get_reduction_settings sm sm0 ;;
      v <- float_percent_triangles sm red ;;
      ret (Some v)
  | [] => ret None
  end.

Definition read_via_subsystem (sm : AssetRef) : strategy float :=
  smes <- get_editor_subsystem ;;
  settings <- get_lod_reduction_settings smes sm ;;
  match settings with
  | Some s =>
      v <- float_percent_triangles sm s ;;
      ret (Some v)
  | None => ret None
  end.

(** The bodies of the three [try] blocks of [set_percent_triangles_lod0];
    [Some true] is the block's [return True]. *)

Definition write_via_lods (sm : AssetRef) (value_raw : float) : strategy bool :=
  lods <- get_editor_property sm "lods" lods ;;
  match lods with
  | lod0 :: rest =>
      red <- get_reduction_settings sm lod0 ;;
      red <- set_percent_triangles sm red value_raw ;;
      lod0 <- set_reduction_settings sm lod0 red ;;
      set_editor_property sm "lods" lods_settable
        (fun o => with_lods o (lod0 :: rest)) ;;;
      ret (Some true)
  | [] => ret None
  end.

Definition write_via_source_models (sm : AssetRef) (value_raw : float)
    : strategy bool :=
  source_models <- get_editor_property sm "source_models" source_models ;;
  match source_models with
  | sm0 :: rest =>
      red <- get_reduction_settings sm sm0 ;;
      red <- set_percent_triangles sm red value_raw ;;
      sm0 <- set_reduction_settings sm sm0 red ;;
      set_editor_property sm "source_models" source_models_settable
        (fun o => with_source_models o (sm0 :: rest)) ;;;
      ret (Some true)
  | [] => ret None
  end.

Definition write_via_subsystem (sm : AssetRef) (value_raw : float)
    : strategy bool :=
  smes <- get_editor_subsystem ;;
  settings <- get_lod_reduction_settings smes sm ;;
  match settings with
  | Some s =>
      s <- set_percent_triangles sm s value_raw ;;
      set_lod_reduction_settings smes sm s ;;;
      ret (Some true)
  | None => ret None
  end.

(** Run [m]; if it returned [v], the function returns [v], else go on with
    the rest of the function body. *)
Definition or_return {A} (m : strategy A) (k : M A) : M A :=
  r <- m ;;
  match r with
  | Some v => ret v
  | None => k
  end.

(** [m], with a raised exception handed back as a value: used where the local
    variables assigned before the [raise] are read by the handler. *)
Definition reify {A} (m : M A) : M (A + exn) :=
  try_except (a <- m ;; ret (inl a)) (fun e => ret (inr e)).

(** [static_mesh.get_num_triangles(0)], given the method exists *)
Definition call_get_num_triangles (sm : AssetRef) (answer : result Z) : M Z :=
  emit (EvMethod sm "get_num_triangles") ;;;
  lift answer.

(** [bool(static_mesh.is_nanite_enabled())] *)
Definition call_is_nanite_enabled (sm : AssetRef) : M bool :=
  emit (EvMethod sm "is_nanite_enabled") ;;;
  o <- the_object sm ;;
  lift (is_nanite_enabled o).

(** [static_mesh.set_nanite_enabled(b)] *)
Definition call_set_nanite_enabled (sm : AssetRef) (b : bool) : M unit :=
  emit (EvMethod sm "set_nanite_enabled") ;;;
  o <- the_object sm ;;
  raises (set_nanite_enabled_raises o) ;;;
  store_object sm (with_is_nanite_enabled o b).

(** [bool(getattr(nanite_settings, "enabled", False))] *)
Definition getattr_enabled (s : NaniteSettings) : bool :=
  match enabled s with
  | Some b => b
  | None => false
  end.

(** [setattr(nanite_settings, "enabled", b)] *)
Definition setattr_enabled (sm : AssetRef) (s : NaniteSettings) (b : bool)
    : M NaniteSettings :=
  emit (EvStructSet sm "enabled") ;;;
  if enabled_settable s
  then ret {| enabled := Some b; enabled_settable := true |}
  else raise AttributeError.

(** [smes.rebuild_lods(static_mesh)] and [smes.build_static_mesh(static_mesh)] *)
Definition call_rebuild_lods (sm : AssetRef) : M unit :=
  emit (EvSubsystemCall sm "rebuild_lods") ;;;
  o <- the_object sm ;;
  raises (rebuild_lods_raises o).

Definition call_build_static_mesh (sm : AssetRef) : M unit :=
  emit (EvSubsystemCall sm "build_static_mesh") ;;;
  o <- the_object sm ;;
  raises (build_static_mesh_raises o).

(** [static_mesh.build()], given the method exists *)
Definition call_build (sm : AssetRef) (answer : option exn) : M unit :=
  emit (EvMethod sm "build") ;;;
  raises answer.

(** [static_mesh.get_outer()] *)
Definition get_outer (sm : AssetRef) : M string :=
  emit (EvMethod sm "get_outer") ;;;
  o <- the_object sm ;;
  lift (outer o).

(** [unreal.EditorAssetLibrary.save_loaded_asset(static_mesh)]; the scripts
    drop what it returns. *)
Definition save_loaded_asset (sm : AssetRef) : M unit :=
  emit (EvLibraryCall sm "save_loaded_asset") ;;;
  o <- the_object sm ;;
  raises (save_loaded_asset_raises o).

(** [unreal.EditorLoadingAndSavingUtils.save_packages([package], only_dirty=True)] *)
Definition save_packages (sm : AssetRef) (package : string) : M unit :=
  emit (EvLibraryCall sm "save_packages") ;;;
  o <- the_object sm ;;
  raises (save_packages_raises o).

(** [hasattr(smes, 'rebuild_lods')] and [hasattr(smes, 'build_static_mesh')];
    [smes] may be [None]. *)
Definition hasattr_rebuild_lods (smes : option Subsystem) : bool :=
  match smes with
  | Some s => has_rebuild_lods s
  | None => false
  end.

Definition hasattr_build_static_mesh (smes : option Subsystem) : bool :=
  match smes with
  | Some s => has_build_static_mesh s
  | None => false
  end.

(** ** Strings

    A Python [str] is held as its UTF-8 bytes.  [str.lower] is a builtin that
    follows the Unicode case tables: the scripts' code is embedded over any
    function [str_lower] (a section variable where it is used), and the
    properties proved hold whatever it is.  [ascii_lower] is [str.lower] on
    ASCII text; it stands for the builtin where a sample host, whose names are
    ASCII, is run. *)

Definition lower_ascii (c : ascii) : ascii :=
  let n := nat_of_ascii c in
  if (65 <=? n)%nat && (n <=? 90)%nat then ascii_of_nat (n + 32) else c.

Fixpoint ascii_lower (s : string) : string :=
  match s with
  | EmptyString => EmptyString
  | String c s' => String (lower_ascii c) (ascii_lower s')
  end.

(** [needle in hay]: a substring of bytes, which on UTF-8 text is a substring
    of characters. *)
Fixpoint contains (needle hay : string) : bool :=
  if prefix needle hay then true
  else match hay with
       | EmptyString => false
       | String _ hay' => contains needle hay'
       end.

(** ** Text the scripts share

    [get_percent_triangles_lod0] is the same function in the three scripts;
    [get_lod0_triangle_count] and [iter_static_meshes] are the same in
    [OverReducedFinder.py] and [TrianglesListMaker.py]. *)

Module Shared.

Definition get_percent_triangles_lod0 (static_mesh : AssetRef)
    : M (option float) :=
  or_else (attempt (read_via_lods static_mesh))
 (or_else (attempt (read_via_source_models static_mesh))
 (or_else (attempt (read_via_subsystem static_mesh))
 (ret None))).

(** First [try] block of [get_lod0_triangle_count]. *)
Definition count_via_mesh (static_mesh : AssetRef) : strategy Z :=
  o <- the_object static_mesh ;;
  match get_num_triangles o with
  | Some answer =>
      n <- call_get_num_triangles static_mesh answer ;;
      ret (Some n)
  | None => ret None
  end.

(** Second [try] block of [get_lod0_triangle_count]. *)
Definition count_via_render_data (static_mesh : AssetRef) : strategy Z :=
  o <- the_object static_mesh ;;
  render_data <-
    (if has_get_editor_property o
     then get_editor_property static_mesh "render_data" render_data
     else ret None) ;;
  match render_data with
  | Some rd =>
      match render_lods rd with
      | Some (lod0 :: _) =>
          match lod_get_num_triangles lod0 with
          | Some answer => n <- lift answer ;; ret (Some n)
          | None => ret None
          end
      | _ => ret None
      end
  | None => ret None
  end.

Definition get_lod0_triangle_count (static_mesh : AssetRef) : M Z :=
  or_return (attempt (count_via_mesh static_mesh))
 (or_return (attempt (count_via_render_data static_mesh))
 (ret (-1)%Z)).

(** One step of the generator [iter_static_meshes]: the next registry
    entry yields a mesh, or is passed over. *)
Definition load_static_mesh (a : AssetData) : M (option AssetRef) :=
  try_except (lift (get_asset a)) (fun _ => ret None).

(** The loop of the generator, run by the [for] statement that consumes it:
    [for a in assets: ... yield sm], each [sm] going through the loop body. *)
Fixpoint for_assets {R} (assets : list AssetData)
    (body : AssetRef -> R -> M R) (results : R) : M R :=
  match assets with
  | [] => ret results
  | a :: rest =>
      sm <- load_static_mesh a ;;
      match sm with
      | Some sm =>
          results <- body sm results ;;
          for_assets rest body results
      | None => for_assets rest body results
      end
  end.

(** [for sm in iter_static_meshes(): results = body(sm, results)]: the
    registry is asked once, outside any [try], when the loop starts. *)
Definition for_static_meshes {R} (body : AssetRef -> R -> M R) (results : R)
    : M R :=
  assets <- get_assets ;;
  for_assets assets body results.

(** The three [try] blocks of [set_percent_triangles_lod0], shared by
    [OverReducedFinder.py] and [percenttriangles.py]; [k] is what follows the
    last block. *)
Definition set_percent_triangles_lod0_then (static_mesh : AssetRef)
    (value_raw : float) (k : M bool) : M bool :=
  or_return (attempt (write_via_lods static_mesh value_raw))
 (or_return (attempt (write_via_source_models static_mesh value_raw))
 (or_return (attempt (write_via_subsystem static_mesh value_raw))
  k)).

End Shared.

(** ** OverReducedFinder.py *)

Module OverReducedFinder.

Definition REDUCTION_THRESHOLD_UI : float := 9.0.
Definition TRIANGLE_THRESHOLD : Z := 500.
Definition BUILDING_TOKEN : string := "Building".
Definition TARGET_PERCENT_RAW : float := 1.0.
Definition REDUCTION_THRESHOLD_RAW : float := REDUCTION_THRESHOLD_UI / 100.0.

Record MeshInfo : Type := {
  name : string;
  package_path : string;
  triangle_count : Z;
  percent_raw_before : float;
  asset : AssetRef;
  action : string;
  percent_raw_after : option float
}.

Definition get_percent_triangles_lod0 : AssetRef -> M (option float) :=
  Shared.get_percent_triangles_lod0.

Definition get_lod0_triangle_count : AssetRef -> M Z :=
  Shared.get_lod0_triangle_count.

Definition set_percent_triangles_lod0 (static_mesh : AssetRef)
    (value_raw : float) : M bool :=
  Shared.set_percent_triangles_lod0_then static_mesh value_raw (ret false).

Definition build_and_save (static_mesh : AssetRef) : M bool :=
  smes <- get_editor_subsystem ;;
  build_ok <-
    try_except
      (if hasattr_rebuild_lods smes
       then call_rebuild_lods static_mesh ;;; ret true
       else ret false)
      (fun _ => ret false) ;;
  build_ok <-
    (if negb build_ok
     then try_except
            (if hasattr_build_static_mesh smes
             then call_build_static_mesh static_mesh ;;; ret true
             else ret build_ok)
            (fun _ => ret build_ok)
     else ret build_ok) ;;
  build_ok <-
    (if negb build_ok
     then try_except
            (o <- the_object static_mesh ;;
             match build o with
             | Some answer => call_build static_mesh answer ;;; ret true
             | None => ret build_ok
             end)
            (fun _ => ret build_ok)
     else ret build_ok) ;;
  save_ok <-
    try_except (save_loaded_asset static_mesh ;;; ret true)
               (fun _ => ret false) ;;
  save_ok <-
    (if negb save_ok
     then try_except
            (package <- get_outer static_mesh ;;
             u <- the_unreal ;;
             if has_EditorLoadingAndSavingUtils u
             then save_packages static_mesh package ;;; ret true
             else ret save_ok)
            (fun _ => ret save_ok)
     else ret save_ok) ;;
  ret (build_ok && save_ok).

Definition is_over_reduced (percent_raw : option float)
    (reduction_threshold_raw : float) : bool :=
  match percent_raw with
  | None => false
  | Some p => (p <? reduction_threshold_raw)%float
  end.

Section Builtins.

(** The builtin [str.lower]. *)
Variable str_lower : string -> string.

Definition has_building_token (package_path token : string) : bool :=
  contains (str_lower token) (str_lower package_path).

(** The body of the [for] loop of [collect_candidates]. *)
Definition collect_one (reduction_threshold_raw : float) (tri_threshold : Z)
    (building_token : string) (sm : AssetRef) (results : list MeshInfo)
    : M (list MeshInfo) :=
  name <- get_name sm ;;
  package_path <- get_path_name sm ;;
  if negb (has_building_token package_path building_token) then ret results
  else
    tri_count <- get_lod0_triangle_count sm ;;
    pct_raw <- get_percent_triangles_lod0 sm ;;
    if (tri_count <? 0)%Z then ret results
    else if is_over_reduced pct_raw reduction_threshold_raw
            && (tri_count <? tri_threshold)%Z
    then ret (results ++
              [{| name := name;
                  package_path := package_path;
                  triangle_count := tri_count;
                  percent_raw_before :=
                    match pct_raw with Some p => p | None => 0.0%float end;
                  asset := sm;
                  action := "FOUND";
                  percent_raw_after := None |}])%list
    else ret results.

Definition collect_candidates (reduction_threshold_raw : float)
    (tri_threshold : Z) (building_token : string) : M (list MeshInfo) :=
  Shared.for_static_meshes
    (collect_one reduction_threshold_raw tri_threshold building_token) [].

End Builtins.

Definition set_action (m : MeshInfo) (a : string) : MeshInfo :=
  {| name := name m; package_path := package_path m;
     triangle_count := triangle_count m;
     percent_raw_before := percent_raw_before m;
     asset := asset m; action := a;
     percent_raw_after := percent_raw_after m |}.

Definition set_percent_raw_after (m : MeshInfo) (p : float) : MeshInfo :=
  {| name := name m; package_path := package_path m;
     triangle_count := triangle_count m;
     percent_raw_before := percent_raw_before m;
     asset := asset m; action := action m;
     percent_raw_after := Some p |}.

(** [process_mesh] changes the record in place; here it returns the record
    as it is left, next to the function's own result. *)
Definition process_mesh (mesh_info : MeshInfo) (dry_run : bool)
    : M (bool * MeshInfo) :=
  if dry_run then
    ret (true,
         set_percent_raw_after (set_action mesh_info "DRY-RUN")
                               TARGET_PERCENT_RAW)
  else
    ok <- set_percent_triangles_lod0 (asset mesh_info) TARGET_PERCENT_RAW ;;
    if ok then
      saved <- build_and_save (asset mesh_info) ;;
      if saved then
        ret (true,
             set_percent_raw_after (set_action mesh_info "FIXED")
                                   TARGET_PERCENT_RAW)
      else ret (false, set_action mesh_info "SAVE-FAIL")
    else ret (false, set_action mesh_info "SET-FAIL").

End OverReducedFinder.

(** ** TrianglesListMaker.py *)

Module TrianglesListMaker.

Definition TRIANGLE_THRESHOLD : Z := 50000.
Definition UNREDUCED_MIN_RAW : float := 0.99.
Definition EPS_RAW : float := 0.0005.

Record MeshInfo : Type := {
  name : string;
  package_path : string;
  triangle_count : Z;
  percent_raw : float;
  nanite_enabled : bool;
  asset : AssetRef
}.

Definition get_percent_triangles_lod0 : AssetRef -> M (option float) :=
  Shared.get_percent_triangles_lod0.

Definition get_lod0_triangle_count : AssetRef -> M Z :=
  Shared.get_lod0_triangle_count.

Definition is_unreduced (percent_raw : option float) (min_raw : float) : bool :=
  match percent_raw with
  | None => false
  | Some p => (min_raw <=? p + EPS_RAW)%float
  end.

(** The [try] statement of [collect_candidates] that reads the Nanite flag. *)
Definition read_nanite_state (sm : AssetRef) : M bool :=
  try_except (call_is_nanite_enabled sm)
    (fun _ =>
       try_except
         (nanite_settings <-
            get_editor_property sm "nanite_settings" nanite_settings ;;
          match nanite_settings with
          | Some s => ret (getattr_enabled s)
          | None => ret false
          end)
         (fun _ => ret false)).

(** The body of the [for] loop of [collect_candidates]. *)
Definition collect_one (tri_threshold : Z) (unreduced_min_raw : float)
    (sm : AssetRef) (results : list MeshInfo) : M (list MeshInfo) :=
  name <- get_name sm ;;
  tri_count <- get_lod0_triangle_count sm ;;
  pct_raw <- get_percent_triangles_lod0 sm ;;
  nanite_state <- read_nanite_state sm ;;
  if (tri_count <? 0)%Z || (tri_count <? tri_threshold)%Z then ret results
  else if is_unreduced pct_raw unreduced_min_raw
  then
    package_path <- get_path_name sm ;;
    ret (results ++
         [{| name := name;
             package_path := package_path;
             triangle_count := tri_count;
             percent_raw :=
               match pct_raw with Some p => p | None => 1.0%float end;
             nanite_enabled := nanite_state;
             asset := sm |}])%list
  else ret results.

Definition collect_candidates (tri_threshold : Z) (unreduced_min_raw : float)
    : M (list MeshInfo) :=
  Shared.for_static_meshes (collect_one tri_threshold unreduced_min_raw) [].

End TrianglesListMaker.

(** ** percenttriangles.py *)

Module percenttriangles.

Definition NAME_TOKEN : string := "_veh".
Definition TARGET_PERCENT_UI : float := 10.0.
Definition ONLY_WHEN_EQUALS_UI : float := 100.0.
Definition EPS_RAW : float := 0.001.
Definition TARGET_PERCENT_RAW : float := TARGET_PERCENT_UI / 100.0.
Definition ONLY_WHEN_EQUALS_RAW : float := ONLY_WHEN_EQUALS_UI / 100.0.
Definition TRIANGLE_CUTOFF : Z := 0.
Definition APPLY_IF_PERCENT_EQ_FULL : bool := true.
Definition SKIP_IF_ALREADY_BELOW_TARGET : bool := true.

Definition _log (msg : string) : M unit :=
  unreal_log (Line ("[percenttriangles] " ++ msg)).

(** [_log(f"Warning: <what> {static_mesh.get_name()}: {e}")] *)
Definition _log_warning (what : string) (static_mesh : AssetRef) (e : exn)
    : M unit :=
  name <- get_name static_mesh ;;
  unreal_log (Warning what name e).

Definition get_percent_triangles_lod0 : AssetRef -> M (option float) :=
  Shared.get_percent_triangles_lod0.

Definition set_percent_triangles_lod0 (static_mesh : AssetRef)
    (value_raw : float) : M bool :=
  Shared.set_percent_triangles_lod0_then static_mesh value_raw
    (name <- get_name static_mesh ;;
     _log ("Failed to set percent triangles on " ++ name
           ++ ": no writable path") ;;;
     ret false).

(** The fallback path of [ensure_nanite_disabled], entered with the local
    variables as the first [try] block left them. *)
Definition nanite_fallback (static_mesh : AssetRef)
    (was_enabled is_enabled_after changed : bool) : M (bool * bool * bool) :=
  r <- reify (get_editor_property static_mesh "nanite_settings"
                                  nanite_settings) ;;
  match r with
  | inr _ => ret (was_enabled, is_enabled_after, changed)
  | inl None => ret (was_enabled, is_enabled_after, changed)
  | inl (Some s) =>
      let was_enabled := getattr_enabled s in
      if was_enabled then
        r <- reify (s' <- setattr_enabled static_mesh s false ;;
                    set_editor_property static_mesh "nanite_settings"
                      nanite_settings_settable
                      (fun o => with_nanite_settings o s') ;;;
                    ret s') ;;
        match r with
        | inr _ => ret (was_enabled, is_enabled_after, changed)
        | inl s' => ret (was_enabled, getattr_enabled s', true)
        end
      else ret (was_enabled, getattr_enabled s, changed)
  end.

Definition ensure_nanite_disabled (static_mesh : AssetRef)
    : M (bool * bool * bool) :=
  let handler was_enabled is_enabled_after changed (e : exn) :=
    match e with
    | AttributeError =>
        nanite_fallback static_mesh was_enabled is_enabled_after changed
    | OtherException => raise OtherException
    end in
  r <- reify (call_is_nanite_enabled static_mesh) ;;
  match r with
  | inr e => handler false false false e
  | inl was_enabled =>
      r <- reify (if was_enabled
                  then call_set_nanite_enabled static_mesh false ;;; ret true
                  else ret false) ;;
      match r with
      | inr e => handler was_enabled false false e
      | inl changed =>
          r <- reify (call_is_nanite_enabled static_mesh) ;;
          match r with
          | inr e => handler was_enabled false changed e
          | inl is_enabled_after =>
              ret (was_enabled, is_enabled_after, changed)
          end
      end
  end.

(** [build_and_save] returns nothing: every failure is logged as a warning. *)
Definition build_and_save (static_mesh : AssetRef) : M unit :=
  smes <- get_editor_subsystem ;;
  build_ok <-
    try_except
      (if hasattr_rebuild_lods smes
       then call_rebuild_lods static_mesh ;;; ret true
       else ret false)
      (fun e =>
         _log_warning "rebuild_lods failed on" static_mesh e ;;; ret false) ;;
  build_ok <-
    (if negb build_ok
     then try_except
            (if hasattr_build_static_mesh smes
             then call_build_static_mesh static_mesh ;;; ret true
             else ret build_ok)
            (fun e =>
               _log_warning "build_static_mesh failed on" static_mesh e ;;;
               ret build_ok)
     else ret build_ok) ;;
  build_ok <-
    (if negb build_ok
     then try_except
            (o <- the_object static_mesh ;;
             match build o with
             | Some answer => call_build static_mesh answer ;;; ret true
             | None => ret build_ok
             end)
            (fun e =>
               _log_warning "static_mesh.build() failed on" static_mesh e ;;;
               ret build_ok)
     else ret build_ok) ;;
  (if negb build_ok
   then name <- get_name static_mesh ;;
        _log ("Warning: No LOD rebuild method succeeded for " ++ name
              ++ " (may still save with new settings)")
   else ret tt) ;;;
  package <- get_outer static_mesh ;;
  try_except (save_loaded_asset static_mesh)
    (fun e => _log_warning "save_loaded_asset failed for" static_mesh e) ;;;
  try_except
    (u <- the_unreal ;;
     if has_EditorLoadingAndSavingUtils u
     then save_packages static_mesh package
     else ret tt)
    (fun e => _log_warning "save_packages fallback failed for" static_mesh e).

(** The second component of what [process_mesh] returns: the f-string is
    kept as its template ([kind]) and the values it interpolates. *)
Inductive kind : Type :=
| CouldNotRead
| AlreadyAtTarget
| SkippedTriangles
| SkippedPercent
| WouldChange
| Changed
| FailedToApply.

Record message : Type := {
  msg_kind : kind;
  msg_name : string;
  msg_percent_raw : option float;
  msg_tri_count : option Z;
  msg_nanite : option (bool * bool * bool)
}.

(** The [try] block of [process_mesh] that reads the triangle count. *)
Definition read_tri_count (static_mesh : AssetRef) : M Z :=
  try_except
    (o <- the_object static_mesh ;;
     match get_num_triangles o with
     | Some answer => call_get_num_triangles static_mesh answer
     | None => ret (-1)%Z
     end)
    (fun _ => ret (-1)%Z).

Definition process_mesh (static_mesh : AssetRef) (dry_run : bool)
    : M (bool * message) :=
  name <- get_name static_mesh ;;
  percent_raw <- get_percent_triangles_lod0 static_mesh ;;
  match percent_raw with
  | None => ret (false, Build_message CouldNotRead name None None None)
  | Some percent_raw =>
      tri_count <- read_tri_count static_mesh ;;
      nanite <- ensure_nanite_disabled static_mesh ;;
      if SKIP_IF_ALREADY_BELOW_TARGET
         && (abs (percent_raw - TARGET_PERCENT_RAW) <=? EPS_RAW)%float
      then ret (false, Build_message AlreadyAtTarget name (Some percent_raw)
                                     None None)
      else if (0 <? TRIANGLE_CUTOFF)%Z && (0 <=? tri_count)%Z
              && (tri_count <=? TRIANGLE_CUTOFF)%Z
      then ret (false, Build_message SkippedTriangles name None
                                     (Some tri_count) None)
      else if APPLY_IF_PERCENT_EQ_FULL
              && (EPS_RAW <? abs (percent_raw - ONLY_WHEN_EQUALS_RAW))%float
      then ret (false, Build_message SkippedPercent name (Some percent_raw)
                                     None None)
      else if dry_run
      then ret (true, Build_message WouldChange name (Some percent_raw)
                                    (Some tri_count) (Some nanite))
      else
        ok <- set_percent_triangles_lod0 static_mesh TARGET_PERCENT_RAW ;;
        if ok then
          build_and_save static_mesh ;;;
          ret (true, Build_message Changed name (Some percent_raw)
                                   (Some tri_count) (Some nanite))
        else ret (false, Build_message FailedToApply name (Some percent_raw)
                                       None None)
  end.

End percenttriangles.

(** ** The accessor's contract, as the specification words it

    [Read] and [Write] try an ordered list of strategies: the first one that
    completes without raising and hands back a value ends the chain.
    [otherwise] is what [Write] does once every strategy has been tried.
    [Fallback] is the same chain at any result type: [Write] is its instance
    at [bool], and [get_lod0_triangle_count] its instance at [Z]. *)

Fixpoint Read {A} (chain : list (strategy A)) : M (option A) :=
  match chain with
  | [] => ret None
  | s :: rest => or_else (attempt s) (Read rest)
  end.

Fixpoint Fallback {A} (chain : list (strategy A)) (otherwise : M A) : M A :=
  match chain with
  | [] => otherwise
  | s :: rest => or_return (attempt s) (Fallback rest otherwise)
  end.

Abbreviation Write := (@Fallback bool).

Definition read_strategies (sm : AssetRef) : list (strategy float) :=
  [read_via_lods sm; read_via_source_models sm; read_via_subsystem sm].

Definition write_strategies (sm : AssetRef) (value_raw : float)
    : list (strategy bool) :=
  [write_via_lods sm value_raw; write_via_source_models sm value_raw;
   write_via_subsystem sm value_raw].

(** What one strategy does when run in [w]: it raises, it completes without a
    value (its container is absent), or it completes with a value. *)
Inductive outcome (A : Type) : Type :=
| Raised
| Absent
| Present (v : A).

Arguments Raised {A}.
Arguments Absent {A}.
Arguments Present {A} v.

Definition outcome_of {A} (s : strategy A) (w : World) : outcome A :=
  match fst (s w) with
  | Raise _ => Raised
  | Return None => Absent
  | Return (Some v) => Present v
  end.

(** [OverReducedFinder.set_percent_triangles_lod0] is the chain followed by
    [return False]; [percenttriangles.set_percent_triangles_lod0] logs first. *)
Definition log_no_writable_path (sm : AssetRef) : M bool :=
  name <- get_name sm ;;
  percenttriangles._log ("Failed to set percent triangles on " ++ name
                         ++ ": no writable path") ;;;
  ret false.

(** What a chain hands back, given what each of its strategies does. *)
Fixpoint chain_result {A} (outs : list (outcome A)) : option A :=
  match outs with
  | [] => None
  | Present v :: _ => Some v
  | _ :: rest => chain_result rest
  end.

Definition outcomes {A} (chain : list (strategy A)) (w : World)
    : list (outcome A) :=
  map (fun s => outcome_of s w) chain.

(** The one call that reads the reduction percentage. *)
Definition reads_percent_triangles (e : event) : bool :=
  match e with
  | EvStructGet _ prop => String.eqb prop "percent_triangles"
  | _ => false
  end.

Definition is_log (e : event) : bool :=
  match e with
  | EvLog _ => true
  | _ => false
  end.

Definition not_percent_read (e : event) : bool :=
  negb (reads_percent_triangles e).

(** [OverReducedFinder.process_mesh] assigns to the record only after its
    last host call has returned: when a call raises, the record is as it
    was. *)
Definition record_after (mesh_info : OverReducedFinder.MeshInfo)
    (r : result (bool * OverReducedFinder.MeshInfo))
    : OverReducedFinder.MeshInfo :=
  match r with
  | Return (_, m) => m
  | Raise _ => mesh_info
  end.

Definition count_strategies (sm : AssetRef) : list (strategy Z) :=
  [Shared.count_via_mesh sm; Shared.count_via_render_data sm].

(** A record of [OverReducedFinder.collect_candidates] is sound for the host
    [w] when its triangle count is known and its ratio is the one a read of
    its asset returns. *)
Definition ORF_sound (w : World) (m : OverReducedFinder.MeshInfo) : Prop :=
  (0 <= OverReducedFinder.triangle_count m)%Z
  /\ fst (OverReducedFinder.get_percent_triangles_lod0
            (OverReducedFinder.asset m) w)
     = Return (Some (OverReducedFinder.percent_raw_before m)).

Definition TLM_sound (w : World) (m : TrianglesListMaker.MeshInfo) : Prop :=
  (0 <= TrianglesListMaker.triangle_count m)%Z
  /\ fst (TrianglesListMaker.get_percent_triangles_lod0
            (TrianglesListMaker.asset m) w)
     = Return (Some (TrianglesListMaker.percent_raw m)).

(** ** Sample hosts *)

Definition settings_of (p : float) : ReductionSettings :=
  {| percent_triangles := Return p; percent_triangles_settable := true |}.

Definition entry_of (p : float) : SourceModel :=
  {| reduction_settings := Return (settings_of p);
     reduction_settings_settable := true |}.

(** A mesh on which every access path raises. *)
Definition closed_mesh : StaticMesh :=
  {| obj_name := Return "SM_Building_A";
     obj_path_name := Return "/Game/City/Building/SM_Building_A";
     has_get_editor_property := true;
     lods := Raise OtherException; lods_settable := true;
     source_models := Raise OtherException; source_models_settable := true;
     nanite_settings := Raise OtherException;
     nanite_settings_settable := true;
     render_data := Raise OtherException;
     get_num_triangles := None;
     is_nanite_enabled := Raise AttributeError;
     set_nanite_enabled_raises := Some AttributeError;
     build := None;
     outer := Return "/Game/City/Building/SM_Building_A";
     lod_reduction_settings := Raise OtherException;
     lod_reduction_settings_settable := true;
     rebuild_lods_raises := None;
     build_static_mesh_raises := None;
     save_loaded_asset_raises := None;
     save_packages_raises := None |}.

Definition editor : Unreal :=
  {| editor_subsystem :=
       Return (Some {| has_rebuild_lods := true; has_build_static_mesh := true |});
     has_EditorLoadingAndSavingUtils := true;
     log_raises := None;
     registry_assets :=
       Return [{| asset_name := "SM_Building_A";
                  get_asset := Return (Some 0) |}] |}.

Definition world_of (m : StaticMesh) : World :=
  {| objects := fun _ => m; unreal := editor; trace := [] |}.

(** Strategies = [raises, returns 0.10, returns 0.25]. *)
Definition mesh_raises_010_025 : StaticMesh :=
  with_lod_reduction_settings
    (with_source_models closed_mesh [entry_of 0.10]) (settings_of 0.25).

(** Every container is there and empty: no strategy raises, none succeeds. *)
Definition mesh_all_absent : StaticMesh :=
  {| obj_name := Return "SM_Building_A";
     obj_path_name := Return "/Game/City/Building/SM_Building_A";
     has_get_editor_property := true;
     lods := Return []; lods_settable := true;
     source_models := Return []; source_models_settable := true;
     nanite_settings := Return None;
     nanite_settings_settable := true;
     render_data := Return None;
     get_num_triangles := None;
     is_nanite_enabled := Raise AttributeError;
     set_nanite_enabled_raises := Some AttributeError;
     build := None;
     outer := Return "/Game/City/Building/SM_Building_A";
     lod_reduction_settings := Return None;
     lod_reduction_settings_settable := true;
     rebuild_lods_raises := None;
     build_static_mesh_raises := None;
     save_loaded_asset_raises := None;
     save_packages_raises := None |}.

Definition with_get_num_triangles (o : StaticMesh) (a : option (result Z))
    : StaticMesh :=
  {| obj_name := obj_name o; obj_path_name := obj_path_name o;
     has_get_editor_property := has_get_editor_property o;
     lods := lods o; lods_settable := lods_settable o;
     source_models := source_models o;
     source_models_settable := source_models_settable o;
     nanite_settings := nanite_settings o;
     nanite_settings_settable := nanite_settings_settable o;
     render_data := render_data o;
     get_num_triangles := a;
     is_nanite_enabled := is_nanite_enabled o;
     set_nanite_enabled_raises := set_nanite_enabled_raises o;
     build := build o; outer := outer o;
     lod_reduction_settings := lod_reduction_settings o;
     lod_reduction_settings_settable := lod_reduction_settings_settable o;
     rebuild_lods_raises := rebuild_lods_raises o;
     build_static_mesh_raises := build_static_mesh_raises o;
     save_loaded_asset_raises := save_loaded_asset_raises o;
     save_packages_raises := save_packages_raises o |}.

(** 120 triangles, and no path to the reduction ratio. *)
Definition mesh_unreadable : StaticMesh :=
  with_get_num_triangles closed_mesh (Some (Return 120%Z)).

(** 120 triangles at 5%: an over-reduced building. *)
Definition mesh_over_reduced : StaticMesh :=
  with_get_num_triangles (with_source_models closed_mesh [entry_of 0.05])
                         (Some (Return 120%Z)).

(** 80000 triangles at 100%: a mesh no script has reduced yet. *)
Definition mesh_unreduced : StaticMesh :=
  with_get_num_triangles (with_source_models closed_mesh [entry_of 1.0])
                         (Some (Return 80000%Z)).

(** 80000 triangles, and no path to the reduction ratio. *)
Definition mesh_big_unreadable : StaticMesh :=
  with_get_num_triangles closed_mesh (Some (Return 80000%Z)).

(** A mesh with every access path open: [source_models] holds one entry at
    ratio [p], the mesh has [n] triangles and the Nanite methods exist. *)
Definition open_mesh (p : float) (n : Z) (nanite : bool) : StaticMesh :=
  {| obj_name := Return "SM_veh_Car";
     obj_path_name := Return "/Game/City/Vehicles/SM_veh_Car";
     has_get_editor_property := true;
     lods := Raise OtherException; lods_settable := true;
     source_models := Return [entry_of p]; source_models_settable := true;
     nanite_settings := Return None;
     nanite_settings_settable := true;
     render_data := Return None;
     get_num_triangles := Some (Return n);
     is_nanite_enabled := Return nanite;
     set_nanite_enabled_raises := None;
     build := None;
     outer := Return "/Game/City/Vehicles/SM_veh_Car";
     lod_reduction_settings := Return (Some (settings_of p));
     lod_reduction_settings_settable := true;
     rebuild_lods_raises := None;
     build_static_mesh_raises := None;
     save_loaded_asset_raises := None;
     save_packages_raises := None |}.

(** The two skip tests of [percenttriangles.process_mesh] that look at the
    ratio (the triangle test is off: [TRIANGLE_CUTOFF] is 0). *)
Definition already_at_target (percent_raw : float) : bool :=
  percenttriangles.SKIP_IF_ALREADY_BELOW_TARGET
  && (abs (percent_raw - percenttriangles.TARGET_PERCENT_RAW)
      <=? percenttriangles.EPS_RAW)%float.

Definition not_full_resolution (percent_raw : float) : bool :=
  percenttriangles.APPLY_IF_PERCENT_EQ_FULL
  && (percenttriangles.EPS_RAW
      <? abs (percent_raw - percenttriangles.ONLY_WHEN_EQUALS_RAW))%float.

Definition skipped (percent_raw : float) : bool :=
  already_at_target percent_raw || not_full_resolution percent_raw.

(** What [percenttriangles.process_mesh] does once it holds the name, the
    ratio, the triangle count and the answer of [ensure_nanite_disabled]. *)
Definition decide (static_mesh : AssetRef) (dry_run : bool) (name : string)
    (percent_raw : float) (tri_count : Z) (nanite : bool * bool * bool)
    : M (bool * percenttriangles.message) :=
  if already_at_target percent_raw
  then ret (false, percenttriangles.Build_message
                     percenttriangles.AlreadyAtTarget name (Some percent_raw)
                     None None)
  else if not_full_resolution percent_raw
  then ret (false, percenttriangles.Build_message
                     percenttriangles.SkippedPercent name (Some percent_raw)
                     None None)
  else if dry_run
  then ret (true, percenttriangles.Build_message
                    percenttriangles.WouldChange name (Some percent_raw)
                    (Some tri_count) (Some nanite))
  else
    ok <- percenttriangles.set_percent_triangles_lod0 static_mesh
            percenttriangles.TARGET_PERCENT_RAW ;;
    if ok then
      percenttriangles.build_and_save static_mesh ;;;
      ret (true, percenttriangles.Build_message
                   percenttriangles.Changed name (Some percent_raw)
                   (Some tri_count) (Some nanite))
    else ret (false, percenttriangles.Build_message
                       percenttriangles.FailedToApply name (Some percent_raw)
                       None None).

(** ** Frames

    What the writes of the reduction ratio and of the Nanite flag leave alone.
    [same_services]: the fields the build and save calls look at.
    [same_reduction_view]: the fields the three write strategies look at. *)

Definition same_services (o o' : StaticMesh) : Prop :=
  obj_name o' = obj_name o
  /\ outer o' = outer o
  /\ build o' = build o
  /\ rebuild_lods_raises o' = rebuild_lods_raises o
  /\ build_static_mesh_raises o' = build_static_mesh_raises o
  /\ save_loaded_asset_raises o' = save_loaded_asset_raises o
  /\ save_packages_raises o' = save_packages_raises o.

Definition same_reduction_view (o o' : StaticMesh) : Prop :=
  has_get_editor_property o' = has_get_editor_property o
  /\ lods o' = lods o
  /\ lods_settable o' = lods_settable o
  /\ source_models o' = source_models o
  /\ source_models_settable o' = source_models_settable o
  /\ lod_reduction_settings o' = lod_reduction_settings o
  /\ lod_reduction_settings_settable o' = lod_reduction_settings_settable o.

(** [keeps R m]: [m] leaves the [unreal] module alone and takes every object
    to one related to it by [R]. *)
Definition keeps (R : StaticMesh -> StaticMesh -> Prop) {A} (m : M A) : Prop :=
  forall w, unreal (snd (m w)) = unreal w
            /\ forall r, R (objects w r) (objects (snd (m w)) r).

Definition with_save_raises (o : StaticMesh) (e1 e2 : option exn) : StaticMesh :=
  {| obj_name := obj_name o; obj_path_name := obj_path_name o;
     has_get_editor_property := has_get_editor_property o;
     lods := lods o; lods_settable := lods_settable o;
     source_models := source_models o;
     source_models_settable := source_models_settable o;
     nanite_settings := nanite_settings o;
     nanite_settings_settable := nanite_settings_settable o;
     render_data := render_data o;
     get_num_triangles := get_num_triangles o;
     is_nanite_enabled := is_nanite_enabled o;
     set_nanite_enabled_raises := set_nanite_enabled_raises o;
     build := build o; outer := outer o;
     lod_reduction_settings := lod_reduction_settings o;
     lod_reduction_settings_settable := lod_reduction_settings_settable o;
     rebuild_lods_raises := rebuild_lods_raises o;
     build_static_mesh_raises := build_static_mesh_raises o;
     save_loaded_asset_raises := e1;
     save_packages_raises := e2 |}.

(** A mesh at 100% that can be written and rebuilt, and cannot be saved:
    both save calls raise. *)
Definition mesh_save_fails : StaticMesh :=
  with_save_raises (open_mesh 1.0 80000 false)
                   (Some OtherException) (Some OtherException).

(** The record a scan would hold for the mesh of a sample host. *)
Definition sample_record : OverReducedFinder.MeshInfo :=
  {| OverReducedFinder.name := "SM_veh_Car";
     OverReducedFinder.package_path := "/Game/City/Vehicles/SM_veh_Car";
     OverReducedFinder.triangle_count := 120;
     OverReducedFinder.percent_raw_before := 0.05;
     OverReducedFinder.asset := 0;
     OverReducedFinder.action := "FOUND";
     OverReducedFinder.percent_raw_after := None |}.

(** The claim C4 on a failed save, as the specification words it: the
    failure shows in the status of the candidate, so a mesh whose save calls
    raise is not reported as a success. *)
Definition persist_failure_is_reported (w : World) (sm : AssetRef) : Prop :=
  save_loaded_asset_raises (objects w sm) <> None ->
  save_packages_raises (objects w sm) <> None ->
  forall msg,
    fst (percenttriangles.process_mesh sm false w) <> Return (true, msg).

Definition unwritable (w : World) (sm : AssetRef) (v : float) : Prop :=
  Forall (fun o => o = Raised \/ o = Absent) (outcomes (write_strategies sm v) w).

Definition writable (w : World) (sm : AssetRef) (v : float) : Prop :=
  Exists (fun o => o = Present true) (outcomes (write_strategies sm v) w).

(** ** What a computation does to the world

    Four properties of a computation, each closed under the monad's
    operations: [total] (it never raises), [respects] (what it answers and
    what it does to the host do not depend on the calls recorded so far),
    [preserves] (it leaves the host as it found it) and [emits_only P] (every
    call it records satisfies [P]). *)

Definition same_host (w1 w2 : World) : Prop :=
  objects w1 = objects w2 /\ unreal w1 = unreal w2.

Definition respects {A} (m : M A) : Prop :=
  forall w1 w2, same_host w1 w2 ->
    fst (m w1) = fst (m w2) /\ same_host (snd (m w1)) (snd (m w2)).

Definition preserves {A} (m : M A) : Prop :=
  forall w, same_host (snd (m w)) w.

Definition emits_only (P : event -> bool) {A} (m : M A) : Prop :=
  forall w, exists evs,
    trace (snd (m w)) = (evs ++ trace w)%list /\ forallb P evs = true.

(** [total m]: [m] returns on every host; it never raises. *)
Definition total {A} (m : M A) : Prop :=
  forall w, exists a, fst (m w) = Return a.

(** An [observer] answers from the host and leaves it alone. *)
Definition observer {A} (m : M A) : Prop := respects m /\ preserves m.

(** A strategy that did not succeed has left the host as it found it. *)
Definition fails_clean {A} (s : strategy A) : Prop :=
  forall w, outcome_of s w = Raised \/ outcome_of s w = Absent ->
            same_host (snd (s w)) w.

Definition well_behaved {A} (s : strategy A) : Prop :=
  respects s /\ fails_clean s.

(** [returns_in m w0 Q]: run on the host of [w0], whatever the calls recorded
    so far, [m] returns a value that satisfies [Q] and leaves the host as it
    was. *)
Definition returns_in {A} (m : M A) (w0 : World) (Q : A -> Prop) : Prop :=
  forall w, same_host w w0 ->
    exists a, fst (m w) = Return a /\ Q a /\ same_host (snd (m w)) w0.

(** The claim C3 as the specification words it: a strategy succeeds exactly
    when it completes without raising, so [Write] returns [False] only when
    all strategies raise. *)
Definition write_false_only_when_all_raise (w : World) (sm : AssetRef)
    (v : float) : Prop :=
  fst (percenttriangles.set_percent_triangles_lod0 sm v w) = Return false ->
  Forall (fun o => o = Raised) (outcomes (write_strategies sm v) w).

(** ** The scans, as filters

    What the getters answer on the host of [w], and with them the test and
    the record of each scan as functions of the host. *)

(** The static meshes [iter_static_meshes] yields: the entries that load,
    and load a static mesh, in the order of the registry. *)
Definition yielded (assets : list AssetData) : list AssetRef :=
  flat_map (fun a => match get_asset a with
                     | Return (Some sm) => [sm]
                     | _ => []
                     end) assets.

Definition tri_count_of (w : World) (sm : AssetRef) : Z :=
  match fst (Shared.get_lod0_triangle_count sm w) with
  | Return n => n
  | Raise _ => (-1)%Z
  end.

Definition ratio_of (w : World) (sm : AssetRef) : option float :=
  match fst (Shared.get_percent_triangles_lod0 sm w) with
  | Return r => r
  | Raise _ => None
  end.

Definition nanite_state_of (w : World) (sm : AssetRef) : bool :=
  match fst (TrianglesListMaker.read_nanite_state sm w) with
  | Return b => b
  | Raise _ => false
  end.

(** The name and the path of a mesh whose [get_name()] and
    [get_path_name()] return. *)
Definition name_of (w : World) (sm : AssetRef) : string :=
  match obj_name (objects w sm) with
  | Return n => n
  | Raise _ => EmptyString
  end.

Definition path_of (w : World) (sm : AssetRef) : string :=
  match obj_path_name (objects w sm) with
  | Return p => p
  | Raise _ => EmptyString
  end.

Definition name_returns (w : World) (sm : AssetRef) : Prop :=
  exists n, obj_name (objects w sm) = Return n.

Definition path_name_returns (w : World) (sm : AssetRef) : Prop :=
  exists p, obj_path_name (objects w sm) = Return p.

Definition ORF_selects (str_lower : string -> string) (w : World)
    (thr : float) (tri : Z) (tok : string) (sm : AssetRef) : bool :=
  OverReducedFinder.has_building_token str_lower (path_of w sm) tok
  && negb (tri_count_of w sm <? 0)%Z
  && (OverReducedFinder.is_over_reduced (ratio_of w sm) thr
      && (tri_count_of w sm <? tri)%Z).

Definition ORF_record (w : World) (sm : AssetRef) : OverReducedFinder.MeshInfo :=
  {| OverReducedFinder.name := name_of w sm;
     OverReducedFinder.package_path := path_of w sm;
     OverReducedFinder.triangle_count := tri_count_of w sm;
     OverReducedFinder.percent_raw_before :=
       match ratio_of w sm with Some p => p | None => 0.0%float end;
     OverReducedFinder.asset := sm;
     OverReducedFinder.action := "FOUND";
     OverReducedFinder.percent_raw_after := None |}.

Definition TLM_selects (w : World) (tri : Z) (minraw : float) (sm : AssetRef)
    : bool :=
  negb ((tri_count_of w sm <? 0)%Z || (tri_count_of w sm <? tri)%Z)
  && TrianglesListMaker.is_unreduced (ratio_of w sm) minraw.

Definition TLM_record (w : World) (sm : AssetRef) : TrianglesListMaker.MeshInfo :=
  {| TrianglesListMaker.name := name_of w sm;
     TrianglesListMaker.package_path := path_of w sm;
     TrianglesListMaker.triangle_count := tri_count_of w sm;
     TrianglesListMaker.percent_raw :=
       match ratio_of w sm with Some p => p | None => 1.0%float end;
     TrianglesListMaker.nanite_enabled := nanite_state_of w sm;
     TrianglesListMaker.asset := sm |}.

(** ** percenttriangles.find_static_meshes_with_token

    The loop of [find_static_meshes_with_token]: the entries whose name holds
    the token are loaded, outside any [try]. *)
Fixpoint find_loop (token : string) (assets : list AssetData)
    (matches : list AssetRef) : M (list AssetRef) :=
  match assets with
  | [] => ret matches
  | a :: rest =>
      if contains token (asset_name a) then
        sm <- lift (get_asset a) ;;
        match sm with
        | Some sm => find_loop token rest (matches ++ [sm])%list
        | None => find_loop token rest matches
        end
      else find_loop token rest matches
  end.

Definition find_static_meshes_with_token (token : string) : M (list AssetRef) :=
  assets <- get_assets ;;
  find_loop token assets [].

Definition names_token (token : string) (a : AssetData) : bool :=
  contains token (asset_name a).

Definition loads (a : AssetData) : Prop :=
  exists x, get_asset a = Return x.

(** A registry of three vehicles; the second one fails to load. *)
Definition registry_with_broken_entry : list AssetData :=
  [ {| asset_name := "SM_veh_Car"; get_asset := Return (Some 0) |};
    {| asset_name := "SM_veh_Bus"; get_asset := Raise OtherException |};
    {| asset_name := "SM_veh_Van"; get_asset := Return (Some 2) |} ].

Definition world_with_registry (m : StaticMesh) (assets : list AssetData)
    : World :=
  {| objects := fun _ => m;
     unreal := {| editor_subsystem := editor_subsystem editor;
                  has_EditorLoadingAndSavingUtils :=
                    has_EditorLoadingAndSavingUtils editor;
                  log_raises := None;
                  registry_assets := Return assets |};
     trace := [] |}.

(** ** What a write touches *)

(** [only_touches sm w w']: from [w] to [w'] the [unreal] module and every
    object but [sm] are the same. *)
Definition only_touches (sm : AssetRef) (w w' : World) : Prop :=
  unreal w' = unreal w /\ forall r, r <> sm -> objects w' r = objects w r.

(** The position of the first strategy that hands back a value. *)
Fixpoint first_present {A} (outs : list (outcome A)) : option nat :=
  match outs with
  | [] => None
  | Present _ :: _ => Some 0
  | _ :: rest => option_map S (first_present rest)
  end.

(** ** What a dry run may call

    [quiet e]: [e] is no write of the reduction ratio, no build and no save
    call. *)
Definition quiet (e : event) : bool :=
  match e with
  | EvSetProperty _ prop =>
      negb (String.eqb prop "lods" || String.eqb prop "source_models")
  | EvStructSet _ prop =>
      negb (String.eqb prop "percent_triangles"
            || String.eqb prop "reduction_settings")
  | EvSubsystemCall _ method => String.eqb method "get_lod_reduction_settings"
  | EvLibraryCall _ _ => false
  | EvMethod _ method => negb (String.eqb method "build")
  | _ => true
  end.

Definition with_nanite_calls (o : StaticMesh) (answer : result bool)
    (set_raises : option exn) : StaticMesh :=
  {| obj_name := obj_name o; obj_path_name := obj_path_name o;
     has_get_editor_property := has_get_editor_property o;
     lods := lods o; lods_settable := lods_settable o;
     source_models := source_models o;
     source_models_settable := source_models_settable o;
     nanite_settings := nanite_settings o;
     nanite_settings_settable := nanite_settings_settable o;
     render_data := render_data o;
     get_num_triangles := get_num_triangles o;
     is_nanite_enabled := answer;
     set_nanite_enabled_raises := set_raises;
     build := build o; outer := outer o;
     lod_reduction_settings := lod_reduction_settings o;
     lod_reduction_settings_settable := lod_reduction_settings_settable o;
     rebuild_lods_raises := rebuild_lods_raises o;
     build_static_mesh_raises := build_static_mesh_raises o;
     save_loaded_asset_raises := save_loaded_asset_raises o;
     save_packages_raises := save_packages_raises o |}.

(** A readable mesh on which [is_nanite_enabled] raises a runtime error. *)
Definition mesh_nanite_raises : StaticMesh :=
  with_nanite_calls (open_mesh 1.0 80000 false) (Raise OtherException) None.

(** ** Build and save, as a function of the host *)

Definition no_exn (r : option exn) : bool :=
  match r with
  | None => true
  | Some _ => false
  end.

(** One of the three build calls exists and returns. *)
Definition build_succeeds (smes : option Subsystem) (o : StaticMesh) : bool :=
  (hasattr_rebuild_lods smes && no_exn (rebuild_lods_raises o))
  || (hasattr_build_static_mesh smes && no_exn (build_static_mesh_raises o))
  || match build o with
     | Some None => true
     | _ => false
     end.

(** [save_loaded_asset] returns, or else [get_outer] returns,
    [EditorLoadingAndSavingUtils] exists and [save_packages] returns. *)
Definition save_succeeds (u : Unreal) (o : StaticMesh) : bool :=
  no_exn (save_loaded_asset_raises o)
  || (match outer o with Return _ => true | Raise _ => false end
      && has_EditorLoadingAndSavingUtils u
      && no_exn (save_packages_raises o)).

Definition with_build_raises (o : StaticMesh) (e1 e2 : option exn)
    (b : option (option exn)) : StaticMesh :=
  {| obj_name := obj_name o; obj_path_name := obj_path_name o;
     has_get_editor_property := has_get_editor_property o;
     lods := lods o; lods_settable := lods_settable o;
     source_models := source_models o;
     source_models_settable := source_models_settable o;
     nanite_settings := nanite_settings o;
     nanite_settings_settable := nanite_settings_settable o;
     render_data := render_data o;
     get_num_triangles := get_num_triangles o;
     is_nanite_enabled := is_nanite_enabled o;
     set_nanite_enabled_raises := set_nanite_enabled_raises o;
     build := b; outer := outer o;
     lod_reduction_settings := lod_reduction_settings o;
     lod_reduction_settings_settable := lod_reduction_settings_settable o;
     rebuild_lods_raises := e1;
     build_static_mesh_raises := e2;
     save_loaded_asset_raises := save_loaded_asset_raises o;
     save_packages_raises := save_packages_raises o |}.

(** A mesh that can be written and saved, and cannot be rebuilt. *)
Definition mesh_build_fails : StaticMesh :=
  with_build_raises (open_mesh 0.05 120 false)
                    (Some OtherException) (Some OtherException) None.

(** An editor whose static-mesh subsystem cannot be looked up. *)
Definition editor_without_subsystem : Unreal :=
  {| editor_subsystem := Raise OtherException;
     has_EditorLoadingAndSavingUtils := has_EditorLoadingAndSavingUtils editor;
     log_raises := log_raises editor;
     registry_assets := registry_assets editor |}.

Definition world_without_subsystem (m : StaticMesh) : World :=
  {| objects := fun _ => m; unreal := editor_without_subsystem; trace := [] |}.

Definition with_outer (o : StaticMesh) (answer : result string) : StaticMesh :=
  {| obj_name := obj_name o; obj_path_name := obj_path_name o;
     has_get_editor_property := has_get_editor_property o;
     lods := lods o; lods_settable := lods_settable o;
     source_models := source_models o;
     source_models_settable := source_models_settable o;
     nanite_settings := nanite_settings o;
     nanite_settings_settable := nanite_settings_settable o;
     render_data := render_data o;
     get_num_triangles := get_num_triangles o;
     is_nanite_enabled := is_nanite_enabled o;
     set_nanite_enabled_raises := set_nanite_enabled_raises o;
     build := build o; outer := answer;
     lod_reduction_settings := lod_reduction_settings o;
     lod_reduction_settings_settable := lod_reduction_settings_settable o;
     rebuild_lods_raises := rebuild_lods_raises o;
     build_static_mesh_raises := build_static_mesh_raises o;
     save_loaded_asset_raises := save_loaded_asset_raises o;
     save_packages_raises := save_packages_raises o |}.

(** A full-resolution mesh whose package cannot be reached. *)
Definition mesh_without_outer : StaticMesh :=
  with_outer (open_mesh 1.0 80000 false) (Raise OtherException).

(** ** Chains, strategy by strategy *)

(** The world after the strategies of [chain] have been attempted in turn. *)
Definition after_attempts {A} (chain : list (strategy A)) (w : World) : World :=
  fold_left (fun w' s => snd (s w')) chain w.

(** Attempted in turn from [w], no strategy of [chain] hands back a value. *)
Fixpoint fail_in_turn {A} (chain : list (strategy A)) (w : World) : Prop :=
  match chain with
  | [] => True
  | s :: rest =>
      (outcome_of s w = Raised \/ outcome_of s w = Absent)
      /\ fail_in_turn rest (snd (s w))
  end.

(** The first host call of each access path of the reduction ratio tells the
    path: [get_editor_property("lods")] (position 0),
    [get_editor_property("source_models")] (position 1),
    [get_editor_subsystem] (position 2). *)
Definition stage_entered (e : event) : option nat :=
  match e with
  | EvGetProperty _ prop =>
      if String.eqb prop "lods" then Some 0
      else if String.eqb prop "source_models" then Some 1
      else None
  | EvGetEditorSubsystem => Some 2
  | _ => None
  end.

(** [within k e]: [e] does not enter a path after position [k]. *)
Definition within (k : nat) (e : event) : bool :=
  match stage_entered e with
  | Some j => (j <=? k)%nat
  | None => true
  end.

Definition within_and_no_log (k : nat) (e : event) : bool :=
  within k e && negb (is_log e).

(** [enters j e]: [e] is the first call of the path at position [j]. *)
Definition enters (j : nat) (e : event) : bool :=
  match stage_entered e with
  | Some i => Nat.eqb i j
  | None => false
  end.

(** ** Partial correctness on a host

    [ensures m w0 Q]: run on the host of [w0], whatever the calls recorded so
    far, if [m] returns then its value satisfies [Q] and the host is as it
    was. *)
Definition ensures {A} (m : M A) (w0 : World) (Q : A -> Prop) : Prop :=
  forall w, same_host w w0 ->
    forall a, fst (m w) = Return a -> Q a /\ same_host (snd (m w)) w0.

(** ** Hosts on which the failure message cannot be logged *)

Definition with_names (o : StaticMesh) (n p : result string) : StaticMesh :=
  {| obj_name := n; obj_path_name := p;
     has_get_editor_property := has_get_editor_property o;
     lods := lods o; lods_settable := lods_settable o;
     source_models := source_models o;
     source_models_settable := source_models_settable o;
     nanite_settings := nanite_settings o;
     nanite_settings_settable := nanite_settings_settable o;
     render_data := render_data o;
     get_num_triangles := get_num_triangles o;
     is_nanite_enabled := is_nanite_enabled o;
     set_nanite_enabled_raises := set_nanite_enabled_raises o;
     build := build o; outer := outer o;
     lod_reduction_settings := lod_reduction_settings o;
     lod_reduction_settings_settable := lod_reduction_settings_settable o;
     rebuild_lods_raises := rebuild_lods_raises o;
     build_static_mesh_raises := build_static_mesh_raises o;
     save_loaded_asset_raises := save_loaded_asset_raises o;
     save_packages_raises := save_packages_raises o |}.

(** 120 triangles at 5%, a name and no path: [get_path_name()] raises. *)
Definition mesh_pathless : StaticMesh :=
  with_names mesh_over_reduced (Return "SM_Building_A") (Raise OtherException).

(** [closed_mesh], with a [get_name()] that raises as well. *)
Definition mesh_closed_and_nameless : StaticMesh :=
  with_names closed_mesh (Raise OtherException) (Raise OtherException).

(** An editor whose [unreal.log] raises. *)
Definition editor_without_log : Unreal :=
  {| editor_subsystem := editor_subsystem editor;
     has_EditorLoadingAndSavingUtils := has_EditorLoadingAndSavingUtils editor;
     log_raises := Some OtherException;
     registry_assets := registry_assets editor |}.

Definition world_without_log (m : StaticMesh) : World :=
  {| objects := fun _ => m; unreal := editor_without_log; trace := [] |}.

(** The claim C2 on [Write], as the specification words it: when every
    strategy raises, the function returns [False]. *)
Definition write_reports_failure (w : World) (sm : AssetRef) (v : float)
    : Prop :=
  Forall (fun o => o = Raised) (outcomes (write_strategies sm v) w) ->
  fst (percenttriangles.set_percent_triangles_lod0 sm v w) = Return false.

(** What [log_no_writable_path] answers: [False] once the message is logged,
    or what [get_name()] or [unreal.log] raises. *)
Definition failure_log_result (w : World) (sm : AssetRef) : result bool :=
  match obj_name (objects w sm) with
  | Raise e => Raise e
  | Return _ =>
      match log_raises (unreal w) with
      | Some e => Raise e
      | None => Return false
      end
  end.

(** * Report tables

    [format_table] is the same function in [OverReducedFinder.py] and
    [TrianglesListMaker.py], over each file's own [COLS].  It measures its
    cells with [len] and pads them with [ljust], both of which count
    characters: a Python [str] is held here as the list of its code points.
    The function is pure code that can raise: [r[i]] on a row with too few
    cells raises [IndexError], an [Exception] that is not an
    [AttributeError]. *)

Definition text : Type := list N.




















(** * Properties *)

Lemma same_host_refl (w : World) : same_host w w.
Proof. split; reflexivity. Qed.

Lemma same_host_sym (w1 w2 : World) : same_host w1 w2 -> same_host w2 w1.
Proof. intros [H1 H2]; split; congruence. Qed.

Lemma same_host_trans (w1 w2 w3 : World) :
  same_host w1 w2 -> same_host w2 w3 -> same_host w1 w3.
Proof. intros [H1 H2] [H3 H4]; split; congruence. Qed.

Section Closure.

Context {A B : Type}.

Lemma respects_ret (a : A) : respects (ret a).
Proof. intros w1 w2 H; split; [reflexivity | exact H]. Qed.

Lemma respects_raise (e : exn) : respects (@raise A e).
Proof. intros w1 w2 H; split; [reflexivity | exact H]. Qed.

Lemma respects_lift (r : result A) : respects (lift r).
Proof. intros w1 w2 H; split; [reflexivity | exact H]. Qed.

Lemma respects_bind (m : M A) (k : A -> M B) :
  respects m -> (forall a, respects (k a)) -> respects (bind m k).
Proof.
  intros Hm Hk w1 w2 H. unfold bind.
  destruct (Hm w1 w2 H) as [Hr Hw].
  destruct (m w1) as [r1 w1'], (m w2) as [r2 w2']; simpl in *; subst r2.
  destruct r1 as [a | e].
  - apply Hk; exact Hw.
  - split; [reflexivity | exact Hw].
Qed.

Lemma respects_try_except (body : M A) (handler : exn -> M A) :
  respects body -> (forall e, respects (handler e)) ->
  respects (try_except body handler).
Proof.
  intros Hm Hk w1 w2 H. unfold try_except.
  destruct (Hm w1 w2 H) as [Hr Hw].
  destruct (body w1) as [r1 w1'], (body w2) as [r2 w2']; simpl in *; subst r2.
  destruct r1 as [a | e].
  - split; [reflexivity | exact Hw].
  - apply Hk; exact Hw.
Qed.

Lemma preserves_ret (a : A) : preserves (ret a).
Proof. intros w; apply same_host_refl. Qed.

Lemma preserves_raise (e : exn) : preserves (@raise A e).
Proof. intros w; apply same_host_refl. Qed.

Lemma preserves_lift (r : result A) : preserves (lift r).
Proof. intros w; apply same_host_refl. Qed.

Lemma preserves_bind (m : M A) (k : A -> M B) :
  preserves m -> (forall a, preserves (k a)) -> preserves (bind m k).
Proof.
  intros Hm Hk w. unfold bind. specialize (Hm w).
  destruct (m w) as [[a | e] w']; simpl in *.
  - eapply same_host_trans; [apply Hk | exact Hm].
  - exact Hm.
Qed.

Lemma preserves_try_except (body : M A) (handler : exn -> M A) :
  preserves body -> (forall e, preserves (handler e)) ->
  preserves (try_except body handler).
Proof.
  intros Hm Hk w. unfold try_except. specialize (Hm w).
  destruct (body w) as [[a | e] w']; simpl in *.
  - exact Hm.
  - eapply same_host_trans; [apply Hk | exact Hm].
Qed.

Lemma total_ret (a : A) : total (ret a).
Proof. intros w; exists a; reflexivity. Qed.

Lemma total_lift (a : A) : total (lift (Return a)).
Proof. intros w; exists a; reflexivity. Qed.

Lemma total_bind (m : M A) (k : A -> M B) :
  total m -> (forall a, total (k a)) -> total (bind m k).
Proof.
  intros Hm Hk w. unfold bind. destruct (Hm w) as [a Ha].
  destruct (m w) as [r w']; simpl in Ha; subst r. apply Hk.
Qed.

(** A [try] whose handlers all return never raises, whatever its body. *)
Lemma total_try_except (body : M A) (handler : exn -> M A) :
  (forall e, total (handler e)) -> total (try_except body handler).
Proof.
  intros Hk w. unfold try_except.
  destruct (body w) as [[a | e] w']; [exists a; reflexivity | apply Hk].
Qed.

Variable P : event -> bool.

Lemma emits_only_ret (a : A) : emits_only P (ret a).
Proof. intros w; exists []; split; reflexivity. Qed.

Lemma emits_only_raise (e : exn) : emits_only P (@raise A e).
Proof. intros w; exists []; split; reflexivity. Qed.

Lemma emits_only_lift (r : result A) : emits_only P (lift r).
Proof. intros w; exists []; split; reflexivity. Qed.

Lemma emits_only_bind (m : M A) (k : A -> M B) :
  emits_only P m -> (forall a, emits_only P (k a)) -> emits_only P (bind m k).
Proof.
  intros Hm Hk w. unfold bind. destruct (Hm w) as [evs [Ht Hp]].
  destruct (m w) as [[a | e] w']; simpl in *.
  - destruct (Hk a w') as [evs' [Ht' Hp']].
    exists (evs' ++ evs)%list. split.
    + rewrite Ht', Ht, app_assoc; reflexivity.
    + rewrite forallb_app, Hp, Hp'; reflexivity.
  - exists evs; split; assumption.
Qed.

Lemma emits_only_try_except (body : M A) (handler : exn -> M A) :
  emits_only P body -> (forall e, emits_only P (handler e)) ->
  emits_only P (try_except body handler).
Proof.
  intros Hm Hk w. unfold try_except. destruct (Hm w) as [evs [Ht Hp]].
  destruct (body w) as [[a | e] w']; simpl in *.
  - exists evs; split; assumption.
  - destruct (Hk e w') as [evs' [Ht' Hp']].
    exists (evs' ++ evs)%list. split.
    + rewrite Ht', Ht, app_assoc; reflexivity.
    + rewrite forallb_app, Hp, Hp'; reflexivity.
Qed.

End Closure.

Lemma total_emit (e : event) : total (emit e).
Proof. intros w; exists tt; reflexivity. Qed.

Lemma total_the_object (sm : AssetRef) : total (the_object sm).
Proof. intros w; eexists; reflexivity. Qed.

Lemma total_the_unreal : total the_unreal.
Proof. intros w; eexists; reflexivity. Qed.

Lemma total_store_object (sm : AssetRef) (o : StaticMesh) :
  total (store_object sm o).
Proof. intros w; exists tt; reflexivity. Qed.

Lemma respects_emit (e : event) : respects (emit e).
Proof.
  intros w1 w2 [H1 H2]; split; [reflexivity | split; simpl; assumption].
Qed.

Lemma respects_the_object (sm : AssetRef) : respects (the_object sm).
Proof.
  intros w1 w2 [H1 H2]; split; [simpl; rewrite H1; reflexivity | split; assumption].
Qed.

Lemma respects_the_unreal : respects the_unreal.
Proof.
  intros w1 w2 [H1 H2]; split; [simpl; rewrite H2; reflexivity | split; assumption].
Qed.

Lemma respects_store_object (sm : AssetRef) (o : StaticMesh) :
  respects (store_object sm o).
Proof.
  intros w1 w2 [H1 H2]; split; [reflexivity | split; simpl].
  - rewrite H1; reflexivity.
  - exact H2.
Qed.

Lemma preserves_emit (e : event) : preserves (emit e).
Proof. intros w; split; reflexivity. Qed.

Lemma preserves_the_object (sm : AssetRef) : preserves (the_object sm).
Proof. intros w; apply same_host_refl. Qed.

Lemma preserves_the_unreal : preserves the_unreal.
Proof. intros w; apply same_host_refl. Qed.

Lemma emits_only_emit (P : event -> bool) (e : event) :
  P e = true -> emits_only P (emit e).
Proof.
  intros H w; exists [e]; split; [reflexivity | simpl; rewrite H; reflexivity].
Qed.

Lemma emits_only_the_object (P : event -> bool) (sm : AssetRef) :
  emits_only P (the_object sm).
Proof. intros w; exists []; split; reflexivity. Qed.

Lemma emits_only_the_unreal (P : event -> bool) : emits_only P the_unreal.
Proof. intros w; exists []; split; reflexivity. Qed.

Lemma emits_only_store_object (P : event -> bool) (sm : AssetRef)
    (o : StaticMesh) : emits_only P (store_object sm o).
Proof. intros w; exists []; split; reflexivity. Qed.

Create HintDb host_calls.

#[export] Hint Unfold
  attempt or_else or_return reify raises get_name get_path_name
  get_editor_property set_editor_property get_reduction_settings
  float_percent_triangles set_percent_triangles set_reduction_settings
  get_editor_subsystem get_lod_reduction_settings set_lod_reduction_settings
  unreal_log call_get_num_triangles call_is_nanite_enabled
  call_set_nanite_enabled setattr_enabled call_rebuild_lods
  call_build_static_mesh call_build get_outer save_loaded_asset save_packages
  : host_calls.

(** One step of a proof by the structure of a computation. *)
Ltac mstep :=
  first
    [ apply respects_bind | apply respects_try_except | apply respects_ret
    | apply respects_raise | apply respects_lift | apply respects_emit
    | apply respects_the_object | apply respects_the_unreal
    | apply respects_store_object
    | apply preserves_bind | apply preserves_try_except | apply preserves_ret
    | apply preserves_raise | apply preserves_lift | apply preserves_emit
    | apply preserves_the_object | apply preserves_the_unreal
    | apply total_try_except | apply total_bind | apply total_ret
    | apply total_lift | apply total_emit | apply total_the_object
    | apply total_the_unreal | apply total_store_object
    | apply emits_only_bind | apply emits_only_try_except
    | apply emits_only_ret | apply emits_only_raise | apply emits_only_lift
    | apply emits_only_the_object | apply emits_only_the_unreal
    | apply emits_only_store_object
    | apply emits_only_emit; reflexivity
    | match goal with
      | |- respects (match ?x with _ => _ end) => destruct x
      | |- preserves (match ?x with _ => _ end) => destruct x
      | |- emits_only _ (match ?x with _ => _ end) => destruct x
      | |- total (match ?x with _ => _ end) => destruct x
      | |- forall _, _ => intro
      end
    | progress autounfold with host_calls ].

Ltac mauto := repeat mstep.

(** ** The accessors observe and do not change the host *)

Lemma read_via_lods_respects sm : respects (read_via_lods sm).
Proof. unfold read_via_lods; mauto. Qed.

Lemma read_via_lods_preserves sm : preserves (read_via_lods sm).
Proof. unfold read_via_lods; mauto. Qed.

Lemma read_via_source_models_respects sm : respects (read_via_source_models sm).
Proof. unfold read_via_source_models; mauto. Qed.

Lemma read_via_source_models_preserves sm : preserves (read_via_source_models sm).
Proof. unfold read_via_source_models; mauto. Qed.

Lemma read_via_subsystem_respects sm : respects (read_via_subsystem sm).
Proof. unfold read_via_subsystem; mauto. Qed.

Lemma read_via_subsystem_preserves sm : preserves (read_via_subsystem sm).
Proof. unfold read_via_subsystem; mauto. Qed.

Lemma outcome_of_respects {A} (s : strategy A) (w1 w2 : World) :
  respects s -> same_host w1 w2 -> outcome_of s w1 = outcome_of s w2.
Proof.
  intros Hs H. unfold outcome_of. destruct (Hs w1 w2 H) as [Hr _].
  rewrite Hr; reflexivity.
Qed.

Lemma attempt_preserves {A} (s : strategy A) : preserves s -> preserves (attempt s).
Proof. intros H; unfold attempt; mauto; exact H. Qed.

Lemma attempt_respects {A} (s : strategy A) : respects s -> respects (attempt s).
Proof. intros H; unfold attempt; mauto; exact H. Qed.

(** ** The chain, for strategies that observe the host *)

Lemma read_strategies_observe sm : Forall observer (read_strategies sm).
Proof.
  unfold read_strategies, observer.
  repeat (apply Forall_cons; [split |]); try apply Forall_nil;
    auto using read_via_lods_respects, read_via_lods_preserves,
      read_via_source_models_respects, read_via_source_models_preserves,
      read_via_subsystem_respects, read_via_subsystem_preserves.
Qed.

Lemma Read_step {A} (s : strategy A) (rest : list (strategy A)) (w : World) :
  Read (s :: rest) w =
  match outcome_of s w with
  | Present v => (Return (Some v), snd (s w))
  | _ => Read rest (snd (s w))
  end.
Proof.
  unfold outcome_of. simpl. unfold or_else, attempt, try_except, bind, ret.
  destruct (s w) as [[[v |] | e] w']; reflexivity.
Qed.

Lemma Fallback_step {A} (s : strategy A) (rest : list (strategy A))
    (otherwise : M A) (w : World) :
  Fallback (s :: rest) otherwise w =
  match outcome_of s w with
  | Present v => (Return v, snd (s w))
  | _ => Fallback rest otherwise (snd (s w))
  end.
Proof.
  unfold outcome_of. simpl. unfold or_return, attempt, try_except, bind, ret.
  destruct (s w) as [[[v |] | e] w']; reflexivity.
Qed.

Lemma Read_first_present {A} (chain : list (strategy A)) :
  Forall observer chain ->
  forall n s v w,
    nth_error chain n = Some s ->
    outcome_of s w = Present v ->
    (forall k s', k < n -> nth_error chain k = Some s' ->
                  outcome_of s' w = Raised \/ outcome_of s' w = Absent) ->
    fst (Read chain w) = Return (Some v).
Proof.
  induction 1 as [| s0 rest [Hres Hpre] Hrest IH]; intros n s v w Hn Hs Hbefore.
  - destruct n; discriminate.
  - rewrite Read_step. destruct n as [| n]; simpl in Hn.
    + injection Hn as ->. rewrite Hs. reflexivity.
    + assert (H0 : outcome_of s0 w = Raised \/ outcome_of s0 w = Absent)
        by (apply (Hbefore 0 s0); [lia | reflexivity]).
      assert (Hw : same_host (snd (s0 w)) w) by apply Hpre.
      assert (Hgo : fst (Read rest (snd (s0 w))) = Return (Some v)).
      { apply (IH n s v); [exact Hn | |].
        - rewrite <- Hs. apply outcome_of_respects; [| exact Hw].
          rewrite Forall_forall in Hrest.
          apply (Hrest s); eapply nth_error_In; exact Hn.
        - intros k s' Hk Hk'.
          assert (E : outcome_of s' (snd (s0 w)) = outcome_of s' w).
          { apply outcome_of_respects; [| exact Hw].
            rewrite Forall_forall in Hrest.
            apply (Hrest s'); eapply nth_error_In; exact Hk'. }
          rewrite E. apply (Hbefore (S k) s'); [lia | exact Hk']. }
      destruct H0 as [H0 | H0]; rewrite H0; exact Hgo.
Qed.

Lemma observer_well_behaved {A} (s : strategy A) :
  observer s -> well_behaved s.
Proof. intros [H1 H2]; split; [exact H1 | intros w _; apply H2]. Qed.

Lemma Read_outcomes {A} (chain : list (strategy A)) :
  Forall well_behaved chain ->
  forall w w', same_host w' w ->
    fst (Read chain w') = Return (chain_result (outcomes chain w)).
Proof.
  induction 1 as [| s rest [Hres Hclean] Hrest IH]; intros w w' Hw.
  - reflexivity.
  - rewrite Read_step. simpl.
    rewrite <- (outcome_of_respects Hres Hw).
    destruct (outcome_of s w') eqn:E; try reflexivity;
      apply IH; (eapply same_host_trans; [apply Hclean; auto | exact Hw]).
Qed.

Lemma Fallback_outcomes {A} (chain : list (strategy A)) (otherwise : M A) :
  Forall well_behaved chain -> respects otherwise ->
  forall w w', same_host w' w ->
    fst (Fallback chain otherwise w') =
    match chain_result (outcomes chain w) with
    | Some v => Return v
    | None => fst (otherwise w)
    end.
Proof.
  intros H Hother.
  induction H as [| s rest [Hres Hclean] Hrest IH]; intros w w' Hw.
  - simpl. apply Hother; exact Hw.
  - rewrite Fallback_step. simpl.
    rewrite <- (outcome_of_respects Hres Hw).
    destruct (outcome_of s w') eqn:E; try reflexivity;
      apply IH; (eapply same_host_trans; [apply Hclean; auto | exact Hw]).
Qed.

Lemma chain_result_all_raised {A} (outs : list (outcome A)) :
  Forall (fun o => o = Raised) outs -> chain_result outs = None.
Proof. induction 1 as [| o rest -> _ IH]; [reflexivity | exact IH]. Qed.

Lemma chain_result_none {A} (outs : list (outcome A)) :
  chain_result outs = None <->
  Forall (fun o => o = Raised \/ o = Absent) outs.
Proof.
  induction outs as [| o rest IH]; simpl.
  - split; [constructor | reflexivity].
  - destruct o; rewrite ?IH; split; intros H;
      try (constructor; [auto | exact H]);
      try (inversion H; assumption); try discriminate.
    inversion H as [| ? ? [K | K]]; discriminate.
Qed.

(** ** Read: [get_percent_triangles_lod0] *)

Lemma get_percent_triangles_lod0_is_Read sm :
  Shared.get_percent_triangles_lod0 sm = Read (read_strategies sm).
Proof. reflexivity. Qed.

Lemma get_percent_triangles_lod0_respects sm :
  respects (Shared.get_percent_triangles_lod0 sm).
Proof.
  unfold Shared.get_percent_triangles_lod0, or_else.
  mauto; apply attempt_respects;
    auto using read_via_lods_respects, read_via_source_models_respects,
      read_via_subsystem_respects.
Qed.

Lemma get_percent_triangles_lod0_preserves sm :
  preserves (Shared.get_percent_triangles_lod0 sm).
Proof.
  unfold Shared.get_percent_triangles_lod0, or_else.
  mauto; apply attempt_preserves;
    auto using read_via_lods_preserves, read_via_source_models_preserves,
      read_via_subsystem_preserves.
Qed.

(** C1.  Whatever the host, if the Nth access path of
    [get_percent_triangles_lod0] is the first that completes without raising
    and hands back a value, the function returns that value, whether the
    paths before it raised or found nothing.  When all three paths raise, as
    on [closed_mesh], the function returns [None]. *)
Theorem C1_read_returns_first_present_value :
  (forall (w : World) (sm : AssetRef) (n : nat) (s : strategy float) (v : float),
      nth_error (read_strategies sm) n = Some s ->
      outcome_of s w = Present v ->
      (forall k s', k < n -> nth_error (read_strategies sm) k = Some s' ->
                    outcome_of s' w = Raised \/ outcome_of s' w = Absent) ->
      fst (percenttriangles.get_percent_triangles_lod0 sm w) = Return (Some v)
      /\ fst (OverReducedFinder.get_percent_triangles_lod0 sm w) = Return (Some v))
  /\ (Forall (fun s => outcome_of s (world_of closed_mesh) = Raised)
             (read_strategies 0)
      /\ fst (percenttriangles.get_percent_triangles_lod0 0 (world_of closed_mesh))
         = Return None
      /\ fst (OverReducedFinder.get_percent_triangles_lod0 0 (world_of closed_mesh))
         = Return None).
Proof.
  split.
  - intros w sm n s v Hn Hs Hbefore.
    unfold percenttriangles.get_percent_triangles_lod0,
      OverReducedFinder.get_percent_triangles_lod0.
    rewrite get_percent_triangles_lod0_is_Read.
    split; eapply Read_first_present; eauto using read_strategies_observe.
  - split; [| split]; [repeat constructor | reflexivity | reflexivity].
Qed.

(** Strategies = [raises, returns 0.10, returns 0.25]: the second one is the
    first to hand back a value, and [Read] returns 0.10. *)
Lemma C1_example_raises_010_025 :
  outcome_of (read_via_lods 0) (world_of mesh_raises_010_025) = Raised
  /\ outcome_of (read_via_source_models 0) (world_of mesh_raises_010_025)
     = Present 0.10%float
  /\ outcome_of (read_via_subsystem 0) (world_of mesh_raises_010_025)
     = Present 0.25%float
  /\ fst (percenttriangles.get_percent_triangles_lod0 0
            (world_of mesh_raises_010_025)) = Return (Some 0.10%float)
  /\ fst (OverReducedFinder.get_percent_triangles_lod0 0
            (world_of mesh_raises_010_025)) = Return (Some 0.10%float).
Proof.
  split; [reflexivity |]. split; [reflexivity |]. split; [reflexivity |].
  apply (proj1 C1_read_returns_first_present_value
           (world_of mesh_raises_010_025) 0 1
           (read_via_source_models 0) 0.10%float).
  - reflexivity.
  - reflexivity.
  - intros k s' Hk Hs'.
    destruct k as [| k]; [| lia].
    injection Hs' as <-. left; reflexivity.
Defined.

(** ** Write: [set_percent_triangles_lod0] *)

Lemma write_via_lods_respects sm v : respects (write_via_lods sm v).
Proof. unfold write_via_lods; mauto. Qed.

Lemma write_via_source_models_respects sm v :
  respects (write_via_source_models sm v).
Proof. unfold write_via_source_models; mauto. Qed.

Lemma write_via_subsystem_respects sm v : respects (write_via_subsystem sm v).
Proof. unfold write_via_subsystem; mauto. Qed.

(** Case analysis on every host answer a computation looks at. *)
Ltac host_cases :=
  autounfold with host_calls;
  unfold bind, try_except, emit, the_object, the_unreal, lift, raise, ret,
    store_object;
  simpl;
  repeat (match goal with
          | |- context [match ?x with _ => _ end] =>
              lazymatch x with
              | context [match _ with _ => _ end] => fail
              | _ => destruct x eqn:?
              end
          end; simpl).

Lemma write_via_lods_fails_clean sm v : fails_clean (write_via_lods sm v).
Proof.
  intros w. unfold outcome_of, write_via_lods. host_cases;
    intros [H | H]; try discriminate H; split; reflexivity.
Qed.

Lemma write_via_source_models_fails_clean sm v :
  fails_clean (write_via_source_models sm v).
Proof.
  intros w. unfold outcome_of, write_via_source_models. host_cases;
    intros [H | H]; try discriminate H; split; reflexivity.
Qed.

Lemma write_via_subsystem_fails_clean sm v :
  fails_clean (write_via_subsystem sm v).
Proof.
  intros w. unfold outcome_of, write_via_subsystem. host_cases;
    intros [H | H]; try discriminate H; split; reflexivity.
Qed.

Lemma write_strategies_well_behaved sm v :
  Forall well_behaved (write_strategies sm v).
Proof.
  unfold write_strategies, well_behaved.
  repeat (apply Forall_cons; [split |]); try apply Forall_nil;
    auto using write_via_lods_respects, write_via_lods_fails_clean,
      write_via_source_models_respects, write_via_source_models_fails_clean,
      write_via_subsystem_respects, write_via_subsystem_fails_clean.
Qed.

Lemma read_strategies_well_behaved sm :
  Forall well_behaved (read_strategies sm).
Proof.
  eapply Forall_impl; [| apply read_strategies_observe].
  intros s; apply observer_well_behaved.
Qed.

(** A write strategy that hands back a value hands back [True]. *)
Lemma write_strategies_return_true sm v w :
  Forall (fun o => o = Raised \/ o = Absent \/ o = Present true)
         (outcomes (write_strategies sm v) w).
Proof.
  unfold outcomes, write_strategies, map, outcome_of.
  repeat (apply Forall_cons); try apply Forall_nil.
  - unfold write_via_lods. host_cases; auto.
  - unfold write_via_source_models. host_cases; auto.
  - unfold write_via_subsystem. host_cases; auto.
Qed.

Lemma ORF_set_percent_triangles_lod0_is_Write sm v :
  OverReducedFinder.set_percent_triangles_lod0 sm v =
  Write (write_strategies sm v) (ret false).
Proof. reflexivity. Qed.

Lemma pt_set_percent_triangles_lod0_is_Write sm v :
  percenttriangles.set_percent_triangles_lod0 sm v =
  Write (write_strategies sm v) (log_no_writable_path sm).
Proof. reflexivity. Qed.

Lemma log_no_writable_path_respects sm : respects (log_no_writable_path sm).
Proof. unfold log_no_writable_path, percenttriangles._log; mauto. Qed.

Lemma ORF_set_percent_triangles_lod0_result sm v w :
  fst (OverReducedFinder.set_percent_triangles_lod0 sm v w) =
  match chain_result (outcomes (write_strategies sm v) w) with
  | Some b => Return b
  | None => Return false
  end.
Proof.
  rewrite ORF_set_percent_triangles_lod0_is_Write.
  rewrite (@Fallback_outcomes _ _ _ (write_strategies_well_behaved sm v)
             (respects_ret false) w w (same_host_refl w)).
  reflexivity.
Qed.

Lemma log_no_writable_path_result sm w :
  fst (log_no_writable_path sm w) = failure_log_result w sm.
Proof.
  unfold log_no_writable_path, failure_log_result, percenttriangles._log.
  host_cases; reflexivity.
Qed.

Lemma failure_log_result_false w sm :
  failure_log_result w sm = Return false
  <-> (exists name, obj_name (objects w sm) = Return name)
      /\ log_raises (unreal w) = None.
Proof.
  unfold failure_log_result.
  destruct (obj_name (objects w sm)) as [n | e];
    destruct (log_raises (unreal w)) as [e' |]; split; intros H;
    try discriminate H;
    try (split; [eexists |]; reflexivity);
    try reflexivity;
    destruct H as [Hn Hl]; destruct Hn as [n0 Hn]; congruence.
Qed.

Lemma failure_log_result_raise w sm e :
  failure_log_result w sm = Raise e
  <-> obj_name (objects w sm) = Raise e
      \/ ((exists name, obj_name (objects w sm) = Return name)
          /\ log_raises (unreal w) = Some e).
Proof.
  unfold failure_log_result.
  destruct (obj_name (objects w sm)) as [n | e0];
    destruct (log_raises (unreal w)) as [e' |]; split; intros H;
    try discriminate H;
    try (injection H as ->;
         first [left; reflexivity
               | right; split; [eexists |]; reflexivity]);
    try (destruct H as [H | [Hn Hl]]; [| destruct Hn as [n0 Hn]];
         congruence).
Qed.

Lemma pt_set_percent_triangles_lod0_result sm v w :
  fst (percenttriangles.set_percent_triangles_lod0 sm v w) =
  match chain_result (outcomes (write_strategies sm v) w) with
  | Some b => Return b
  | None => failure_log_result w sm
  end.
Proof.
  rewrite pt_set_percent_triangles_lod0_is_Write.
  rewrite (@Fallback_outcomes _ _ _ (write_strategies_well_behaved sm v)
             (log_no_writable_path_respects sm) w w (same_host_refl w)).
  rewrite log_no_writable_path_result. reflexivity.
Qed.

Lemma get_percent_triangles_lod0_result sm w :
  fst (Shared.get_percent_triangles_lod0 sm w) =
  Return (chain_result (outcomes (read_strategies sm) w)).
Proof.
  rewrite get_percent_triangles_lod0_is_Read.
  apply Read_outcomes; [apply read_strategies_well_behaved | apply same_host_refl].
Qed.

Lemma chain_result_true (outs : list (outcome bool)) :
  Forall (fun o => o = Raised \/ o = Absent \/ o = Present true) outs ->
  (chain_result outs = Some true <-> Exists (fun o => o = Present true) outs)
  /\ (chain_result outs = Some true \/ chain_result outs = None).
Proof.
  induction 1 as [| o rest Ho Hrest [IH1 IH2]]; simpl.
  - split; [split; [discriminate | intros H; inversion H] | auto].
  - destruct Ho as [-> | [-> | ->]].
    + split; [| exact IH2]. rewrite IH1. split; intros H.
      * apply Exists_cons_tl; exact H.
      * inversion H; [discriminate | assumption].
    + split; [| exact IH2]. rewrite IH1. split; intros H.
      * apply Exists_cons_tl; exact H.
      * inversion H; [discriminate | assumption].
    + split; [| auto]. split; intros _; [apply Exists_cons_hd |]; reflexivity.
Qed.

(** On a mesh whose access paths all raise and whose [get_name()] raises
    too, [percenttriangles.set_percent_triangles_lod0] does not return
    [False]: the exception leaves the function from the line that logs the
    failure.  The same happens when it is [unreal.log] that raises. *)
Lemma C2_counterexample_failure_log_raises :
  Forall (fun o => o = Raised)
         (outcomes (write_strategies 0 0.10%float)
                   (world_of mesh_closed_and_nameless))
  /\ fst (percenttriangles.set_percent_triangles_lod0 0 0.10%float
            (world_of mesh_closed_and_nameless)) = Raise OtherException
  /\ fst (percenttriangles.set_percent_triangles_lod0 0 0.10%float
            (world_without_log closed_mesh)) = Raise OtherException
  /\ ~ write_reports_failure (world_of mesh_closed_and_nameless) 0 0.10%float.
Proof.
  assert (H : Forall (fun o : outcome bool => o = Raised)
                (outcomes (write_strategies 0 0.10%float)
                          (world_of mesh_closed_and_nameless)))
    by (repeat constructor).
  split; [exact H |]. split; [reflexivity |]. split; [reflexivity |].
  intros Hclaim. specialize (Hclaim H). discriminate Hclaim.
Qed.

(** C2, amended.  If every access path raises, [get_percent_triangles_lod0]
    returns [None], and it returns on every host.  If every access path
    raises, [percenttriangles.set_percent_triangles_lod0] returns [False]
    when the failure can be logged ([static_mesh.get_name()] and [unreal.log]
    return), and raises what [get_name()] or [unreal.log] raises otherwise:
    both are called after the last [try] block.  The function raises nowhere
    else. *)
Theorem C2_all_raise_gives_not_found_and_false :
  forall (w : World) (sm : AssetRef) (v : float),
    (Forall (fun o => o = Raised) (outcomes (read_strategies sm) w) ->
     fst (percenttriangles.get_percent_triangles_lod0 sm w) = Return None)
    /\ (exists r, fst (percenttriangles.get_percent_triangles_lod0 sm w) = Return r)
    /\ (Forall (fun o => o = Raised) (outcomes (write_strategies sm v) w) ->
        forall name,
          obj_name (objects w sm) = Return name ->
          log_raises (unreal w) = None ->
          fst (percenttriangles.set_percent_triangles_lod0 sm v w) = Return false)
    /\ (Forall (fun o => o = Raised) (outcomes (write_strategies sm v) w) ->
        forall e,
          obj_name (objects w sm) = Raise e
          \/ ((exists name, obj_name (objects w sm) = Return name)
              /\ log_raises (unreal w) = Some e) ->
          fst (percenttriangles.set_percent_triangles_lod0 sm v w) = Raise e)
    /\ (forall e,
          fst (percenttriangles.set_percent_triangles_lod0 sm v w) = Raise e ->
          Forall (fun o => o = Raised \/ o = Absent)
                 (outcomes (write_strategies sm v) w)
          /\ (obj_name (objects w sm) = Raise e
              \/ log_raises (unreal w) = Some e)).
Proof.
  intros w sm v.
  unfold percenttriangles.get_percent_triangles_lod0.
  rewrite get_percent_triangles_lod0_result, pt_set_percent_triangles_lod0_result.
  split; [| split; [| split; [| split]]].
  - intros H. rewrite (chain_result_all_raised H). reflexivity.
  - eexists; reflexivity.
  - intros H name Hn Hl. rewrite (chain_result_all_raised H).
    apply failure_log_result_false. split; [exists name |]; assumption.
  - intros H e He. rewrite (chain_result_all_raised H).
    apply failure_log_result_raise. exact He.
  - intros e He.
    destruct (chain_result (outcomes (write_strategies sm v) w)) eqn:E;
      [discriminate He |].
    split; [apply chain_result_none; exact E |].
    apply failure_log_result_raise in He.
    destruct He as [He | [_ He]]; [left | right]; exact He.
Qed.

(** On [closed_mesh] every path raises, and the failure is logged: [None]
    and [False]. *)
Lemma C2_example_closed_mesh :
  fst (percenttriangles.get_percent_triangles_lod0 0 (world_of closed_mesh))
  = Return None
  /\ fst (percenttriangles.set_percent_triangles_lod0 0 0.10%float
            (world_of closed_mesh)) = Return false.
Proof.
  pose (H := C2_all_raise_gives_not_found_and_false
               (world_of closed_mesh) 0 0.10%float).
  destruct H as [Hread [_ [Hwrite _]]].
  split.
  - apply Hread. repeat constructor.
  - apply (Hwrite ltac:(repeat constructor) "SM_Building_A");
      reflexivity.
Defined.

(** ** Where a chain stops *)

Lemma after_attempts_cons {A} (s : strategy A) (rest : list (strategy A)) w :
  after_attempts (s :: rest) w = after_attempts rest (snd (s w)).
Proof. reflexivity. Qed.

(** Any chain: when the strategies before [s] fail in turn and [s] hands
    back a value, the chain ends in the world [s] left. *)
Lemma Read_stops {A} (before : list (strategy A)) (s : strategy A)
    (after : list (strategy A)) (w : World) (v : A) :
  fail_in_turn before w ->
  outcome_of s (after_attempts before w) = Present v ->
  Read (before ++ s :: after) w
  = (Return (Some v), snd (s (after_attempts before w))).
Proof.
  revert w. induction before as [| s0 before IH]; intros w Hf Hs.
  - simpl app. rewrite Read_step. simpl in Hs. rewrite Hs. reflexivity.
  - destruct Hf as [H0 Hrest]. simpl app. rewrite Read_step.
    rewrite after_attempts_cons in *.
    destruct H0 as [-> | ->]; apply IH; assumption.
Qed.

Lemma Fallback_stops {A} (before : list (strategy A)) (s : strategy A)
    (after : list (strategy A)) (otherwise : M A) (w : World) (v : A) :
  fail_in_turn before w ->
  outcome_of s (after_attempts before w) = Present v ->
  Fallback (before ++ s :: after) otherwise w
  = (Return v, snd (s (after_attempts before w))).
Proof.
  revert w. induction before as [| s0 before IH]; intros w Hf Hs.
  - simpl app. rewrite Fallback_step. simpl in Hs. rewrite Hs. reflexivity.
  - destruct Hf as [H0 Hrest]. simpl app. rewrite Fallback_step.
    rewrite after_attempts_cons in *.
    destruct H0 as [-> | ->]; apply IH; assumption.
Qed.

(** Strategies that leave the host alone when they fail: the first one that
    hands back a value on the host of [w] is where the chain stops. *)
Lemma chain_first_present {A} (chain : list (strategy A)) (otherwise : M A) :
  Forall well_behaved chain ->
  forall k w w', same_host w' w ->
    first_present (outcomes chain w) = Some k ->
    exists v,
      nth_error (outcomes chain w) k = Some (Present v)
      /\ Read chain w'
         = (Return (Some v), after_attempts (firstn (S k) chain) w')
      /\ Fallback chain otherwise w'
         = (Return v, after_attempts (firstn (S k) chain) w').
Proof.
  induction 1 as [| s rest [Hres Hclean] Hrest IH]; intros k w w' Hw Hk.
  - discriminate Hk.
  - rewrite Fallback_step, Read_step.
    pose proof (outcome_of_respects Hres Hw) as E'.
    change (outcomes (s :: rest) w) with (outcome_of s w :: outcomes rest w)
      in *.
    assert (Hgo : outcome_of s w = Raised \/ outcome_of s w = Absent ->
                  exists k', k = S k'
                             /\ first_present (outcomes rest w) = Some k'
                             /\ same_host (snd (s w')) w).
    { intros H0. simpl in Hk.
      destruct (first_present (outcomes rest w)) as [k' |] eqn:Ek;
        [| destruct H0 as [H0 | H0]; rewrite H0 in Hk; discriminate Hk].
      exists k'. split.
      - destruct H0 as [H0 | H0]; rewrite H0 in Hk; simpl in Hk;
          injection Hk as <-; reflexivity.
      - split; [reflexivity |].
        eapply same_host_trans; [apply Hclean; rewrite E'; exact H0 | exact Hw]. }
    destruct (outcome_of s w) as [| | v] eqn:E.
    + destruct (Hgo (or_introl eq_refl)) as [k' [-> [Hk' Hw']]].
      destruct (IH k' w (snd (s w')) Hw' Hk') as [v [Hn [HR HF]]].
      exists v. rewrite E'. split; [exact Hn |].
      change (firstn (S (S k')) (s :: rest)) with (s :: firstn (S k') rest).
      rewrite after_attempts_cons. split; assumption.
    + destruct (Hgo (or_intror eq_refl)) as [k' [-> [Hk' Hw']]].
      destruct (IH k' w (snd (s w')) Hw' Hk') as [v [Hn [HR HF]]].
      exists v. rewrite E'. split; [exact Hn |].
      change (firstn (S (S k')) (s :: rest)) with (s :: firstn (S k') rest).
      rewrite after_attempts_cons. split; assumption.
    + simpl in Hk. injection Hk as <-. exists v. rewrite E'.
      split; [reflexivity |]. split; reflexivity.
Qed.

Lemma after_attempts_emits (P : event -> bool) {A} (chain : list (strategy A)) :
  Forall (emits_only P) chain ->
  forall w, exists evs,
    trace (after_attempts chain w) = (evs ++ trace w)%list
    /\ forallb P evs = true.
Proof.
  induction 1 as [| s rest Hs Hrest IH]; intros w.
  - exists []. split; reflexivity.
  - rewrite after_attempts_cons.
    destruct (Hs w) as [e1 [T1 P1]].
    destruct (IH (snd (s w))) as [e2 [T2 P2]].
    exists (e2 ++ e1)%list. split.
    + rewrite T2, T1, app_assoc. reflexivity.
    + rewrite forallb_app, P1, P2. reflexivity.
Qed.

(** The calls of each access path, by the position of the path. *)

Lemma read_via_lods_within sm k : emits_only (within k) (read_via_lods sm).
Proof. unfold read_via_lods; mauto. Qed.

Lemma read_via_source_models_within sm k :
  emits_only (within (S k)) (read_via_source_models sm).
Proof. unfold read_via_source_models; mauto. Qed.

Lemma read_via_subsystem_within sm k :
  emits_only (within (S (S k))) (read_via_subsystem sm).
Proof. unfold read_via_subsystem; mauto. Qed.

Lemma write_via_lods_within sm v k :
  emits_only (within_and_no_log k) (write_via_lods sm v).
Proof. unfold write_via_lods; mauto. Qed.

Lemma write_via_source_models_within sm v k :
  emits_only (within_and_no_log (S k)) (write_via_source_models sm v).
Proof. unfold write_via_source_models; mauto. Qed.

Lemma write_via_subsystem_within sm v k :
  emits_only (within_and_no_log (S (S k))) (write_via_subsystem sm v).
Proof. unfold write_via_subsystem; mauto. Qed.

Lemma read_strategies_within sm k :
  Forall (emits_only (within k)) (firstn (S k) (read_strategies sm)).
Proof.
  unfold read_strategies.
  destruct k as [| [| k]]; cbn [firstn]; rewrite ?firstn_nil;
    repeat (apply Forall_cons); try apply Forall_nil;
    first [apply read_via_lods_within | apply read_via_source_models_within
          | apply read_via_subsystem_within].
Qed.

Lemma write_strategies_within sm v k :
  Forall (emits_only (within_and_no_log k))
         (firstn (S k) (write_strategies sm v)).
Proof.
  unfold write_strategies.
  destruct k as [| [| k]]; cbn [firstn]; rewrite ?firstn_nil;
    repeat (apply Forall_cons); try apply Forall_nil;
    first [apply write_via_lods_within | apply write_via_source_models_within
          | apply write_via_subsystem_within].
Qed.

(** The calls a computation has recorded on top of those of [w]. *)
Ltac trace_prefix t w :=
  lazymatch t with
  | w => constr:(@nil event)
  | ?e :: ?t' => let r := trace_prefix t' w in constr:(e :: r)
  end.

Ltac show_entry :=
  host_cases;
  match goal with
  | |- exists evs, ?t = (evs ++ ?w)%list /\ _ =>
      let l := trace_prefix t w in
      exists l; split; [reflexivity |];
      simpl; rewrite ?orb_true_r; reflexivity
  end.

(** A path that is run records its first call. *)
Lemma strategies_enter sm v j w :
  (forall s, nth_error (read_strategies sm) j = Some s ->
     exists evs, trace (snd (s w)) = (evs ++ trace w)%list
                 /\ existsb (enters j) evs = true)
  /\ (forall s, nth_error (write_strategies sm v) j = Some s ->
        exists evs, trace (snd (s w)) = (evs ++ trace w)%list
                    /\ existsb (enters j) evs = true).
Proof.
  unfold read_strategies, write_strategies.
  split; intros s Hs;
    (destruct j as [| [| [| j]]]; simpl in Hs;
     [injection Hs as <- | injection Hs as <- | injection Hs as <-
     | destruct j; discriminate Hs]).
  - unfold read_via_lods. show_entry.
  - unfold read_via_source_models. show_entry.
  - unfold read_via_subsystem. show_entry.
  - unfold write_via_lods. show_entry.
  - unfold write_via_source_models. show_entry.
  - unfold write_via_subsystem. show_entry.
Qed.

Lemma within_enters k j e :
  within k e = true -> enters j e = true -> j <= k.
Proof.
  unfold within, enters. destruct (stage_entered e) as [i |];
    [| discriminate].
  intros H1 H2. apply Nat.leb_le in H1. apply Nat.eqb_eq in H2. lia.
Qed.

(** On [mesh_all_absent] the three containers are there and empty: every
    strategy completes without raising, none stops the chain, and both
    scripts' [set_percent_triangles_lod0] return [False]. *)
Lemma C3_counterexample_completes_without_success :
  outcomes (write_strategies 0 0.10%float) (world_of mesh_all_absent)
  = [Absent; Absent; Absent]
  /\ fst (percenttriangles.set_percent_triangles_lod0 0 0.10%float
            (world_of mesh_all_absent)) = Return false
  /\ fst (OverReducedFinder.set_percent_triangles_lod0 0 0.10%float
            (world_of mesh_all_absent)) = Return false
  /\ ~ write_false_only_when_all_raise (world_of mesh_all_absent) 0 0.10%float.
Proof.
  split; [reflexivity |]. split; [reflexivity |]. split; [reflexivity |].
  intros H. specialize (H eq_refl).
  inversion H as [| ? ? H1 _]. discriminate H1.
Qed.

(** C3, amended.  A write strategy succeeds when it completes without
    raising and has found its container; a strategy whose container is absent
    ([lods] or [source_models] empty, no settings from the subsystem)
    completes without raising, does not succeed and does not stop the chain.
    The first strategy that succeeds stops the chain:
    [set_percent_triangles_lod0] returns [True] in the world that strategy
    left, with no later strategy run and nothing logged.  It returns [True]
    exactly when some strategy succeeds.  [OverReducedFinder]'s returns
    [False] exactly when every strategy raises or finds its container absent.
    [percenttriangles]' then logs the failure: it returns [False] when
    [get_name()] and [unreal.log] return, and raises what they raise
    otherwise. *)
Theorem C3_write_true_iff_some_strategy_succeeds :
  forall (w : World) (sm : AssetRef) (v : float),
    let outs := outcomes (write_strategies sm v) w in
    (fst (percenttriangles.set_percent_triangles_lod0 sm v w) = Return true
     <-> Exists (fun o => o = Present true) outs)
    /\ (fst (percenttriangles.set_percent_triangles_lod0 sm v w) = Return false
        <-> Forall (fun o => o = Raised \/ o = Absent) outs
            /\ (exists name, obj_name (objects w sm) = Return name)
            /\ log_raises (unreal w) = None)
    /\ (forall e,
          fst (percenttriangles.set_percent_triangles_lod0 sm v w) = Raise e
          <-> Forall (fun o => o = Raised \/ o = Absent) outs
              /\ (obj_name (objects w sm) = Raise e
                  \/ ((exists name, obj_name (objects w sm) = Return name)
                      /\ log_raises (unreal w) = Some e)))
    /\ (fst (OverReducedFinder.set_percent_triangles_lod0 sm v w) = Return true
        <-> Exists (fun o => o = Present true) outs)
    /\ (fst (OverReducedFinder.set_percent_triangles_lod0 sm v w) = Return false
        <-> Forall (fun o => o = Raised \/ o = Absent) outs)
    /\ (forall k,
          first_present outs = Some k ->
          percenttriangles.set_percent_triangles_lod0 sm v w
          = (Return true,
             after_attempts (firstn (S k) (write_strategies sm v)) w)
          /\ OverReducedFinder.set_percent_triangles_lod0 sm v w
             = (Return true,
                after_attempts (firstn (S k) (write_strategies sm v)) w))
    /\ (outcome_of (write_via_lods sm v) w = Absent
        <-> has_get_editor_property (objects w sm) = true
            /\ lods (objects w sm) = Return [])
    /\ (outcome_of (write_via_source_models sm v) w = Absent
        <-> has_get_editor_property (objects w sm) = true
            /\ source_models (objects w sm) = Return [])
    /\ (outcome_of (write_via_subsystem sm v) w = Absent
        <-> (exists smes, editor_subsystem (unreal w) = Return (Some smes))
            /\ lod_reduction_settings (objects w sm) = Return None).
Proof.
  intros w sm v outs.
  rewrite ORF_set_percent_triangles_lod0_result,
    pt_set_percent_triangles_lod0_result.
  fold outs.
  destruct (chain_result_true (write_strategies_return_true sm v w))
    as [Htrue Hcases].
  fold outs in Htrue, Hcases.
  pose proof (chain_result_none outs) as Hnone.
  split.
  { rewrite <- Htrue. destruct Hcases as [-> | ->]; split; intros H;
      try reflexivity; try discriminate H.
    unfold failure_log_result in H.
    destruct (obj_name (objects w sm)); [| discriminate H].
    destruct (log_raises (unreal w)); discriminate H. }
  split.
  { rewrite <- Hnone, <- failure_log_result_false.
    destruct Hcases as [-> | ->]; split.
    - discriminate.
    - intros [H _]; discriminate H.
    - intros H; split; [reflexivity | exact H].
    - intros [_ H]; exact H. }
  split.
  { intros e. rewrite <- Hnone, <- failure_log_result_raise.
    destruct Hcases as [-> | ->]; split.
    - discriminate.
    - intros [H _]; discriminate H.
    - intros H; split; [reflexivity | exact H].
    - intros [_ H]; exact H. }
  split.
  { rewrite <- Htrue. destruct Hcases as [-> | ->]; split; intros H;
      try reflexivity; discriminate. }
  split.
  { rewrite <- Hnone. destruct Hcases as [-> | ->]; split; intros H;
      try reflexivity; discriminate. }
  split.
  { intros k Hk.
    assert (Hv : forall b, nth_error outs k = Some (Present b) -> b = true).
    { intros b Hb. apply nth_error_In in Hb.
      pose proof (write_strategies_return_true sm v w) as Hall.
      rewrite Forall_forall in Hall.
      destruct (Hall _ Hb) as [H | [H | H]]; congruence. }
    rewrite pt_set_percent_triangles_lod0_is_Write,
      ORF_set_percent_triangles_lod0_is_Write.
    destruct (@chain_first_present _ (write_strategies sm v)
                (log_no_writable_path sm)
                (write_strategies_well_behaved sm v) k w w
                (same_host_refl w) Hk) as [b1 [Hb1 [_ HF1]]].
    destruct (@chain_first_present _ (write_strategies sm v) (ret false)
                (write_strategies_well_behaved sm v) k w w
                (same_host_refl w) Hk) as [b2 [Hb2 [_ HF2]]].
    rewrite HF1, HF2, (Hv b1 Hb1), (Hv b2 Hb2). split; reflexivity. }
  unfold outcome_of, write_via_lods, write_via_source_models,
    write_via_subsystem.
  split; [| split].
  - host_cases; split; try discriminate; try (intros [? ?]; discriminate);
      try (intros _; split; reflexivity); try (intros [? ?]; congruence).
  - host_cases; split; try discriminate; try (intros [? ?]; discriminate);
      try (intros _; split; reflexivity); try (intros [? ?]; congruence).
  - host_cases; split; try discriminate;
      try (intros [[? ?] ?]; congruence);
      try (intros _; split; [eexists; reflexivity | reflexivity]).
Qed.

(** One successful strategy is enough: on a mesh whose [source_models] hold
    an entry, [Write] returns [True] although the first strategy raised, and
    it stops there: the subsystem is not asked. *)
Lemma C3_example_second_strategy_writes :
  fst (percenttriangles.set_percent_triangles_lod0 0 1.0%float
         (world_of mesh_raises_010_025)) = Return true
  /\ percenttriangles.set_percent_triangles_lod0 0 1.0%float
       (world_of mesh_raises_010_025)
     = (Return true,
        after_attempts [write_via_lods 0 1.0%float;
                        write_via_source_models 0 1.0%float]
                       (world_of mesh_raises_010_025)).
Proof.
  pose (H := C3_write_true_iff_some_strategy_succeeds
               (world_of mesh_raises_010_025) 0 1.0%float).
  destruct H as (Htrue & _ & _ & _ & _ & Hstop & _).
  split.
  - apply Htrue. apply Exists_cons_tl, Exists_cons_hd. reflexivity.
  - apply (Hstop 1). reflexivity.
Defined.

(** ** Short circuit *)

(** C5.  Strategies after the first successful one are not run.  In any
    chain, when the strategies before [s] fail in turn and [s] hands back a
    value, [Read] and [Write] return that value in the world [s] left,
    whatever strategies follow [s] and whatever [Write] would do after the
    last one.  In the scripts, whatever the host and whichever access path
    is the first to succeed, at position [k]: [get_percent_triangles_lod0]
    and [set_percent_triangles_lod0] end in the world left by the paths up to
    [k], the calls they have recorded enter no path after [k] (and the write
    has logged nothing), while every path that is run records the call that
    enters it. *)
Theorem C5_strategies_after_first_success_not_invoked :
  (forall (A : Type) (before : list (strategy A)) (s : strategy A)
          (after : list (strategy A)) (otherwise : M A) (w : World) (v : A),
      fail_in_turn before w ->
      outcome_of s (after_attempts before w) = Present v ->
      Read (before ++ s :: after) w
      = (Return (Some v), snd (s (after_attempts before w)))
      /\ Fallback (before ++ s :: after) otherwise w
         = (Return v, snd (s (after_attempts before w))))
  /\ (forall (w : World) (sm : AssetRef) (k : nat),
      first_present (outcomes (read_strategies sm) w) = Some k ->
      snd (OverReducedFinder.get_percent_triangles_lod0 sm w)
      = after_attempts (firstn (S k) (read_strategies sm)) w
      /\ snd (percenttriangles.get_percent_triangles_lod0 sm w)
         = after_attempts (firstn (S k) (read_strategies sm)) w
      /\ exists evs,
          trace (snd (OverReducedFinder.get_percent_triangles_lod0 sm w))
          = (evs ++ trace w)%list
          /\ forallb (within k) evs = true)
  /\ (forall (w : World) (sm : AssetRef) (x : float) (k : nat),
      first_present (outcomes (write_strategies sm x) w) = Some k ->
      snd (percenttriangles.set_percent_triangles_lod0 sm x w)
      = after_attempts (firstn (S k) (write_strategies sm x)) w
      /\ snd (OverReducedFinder.set_percent_triangles_lod0 sm x w)
         = after_attempts (firstn (S k) (write_strategies sm x)) w
      /\ exists evs,
          trace (snd (percenttriangles.set_percent_triangles_lod0 sm x w))
          = (evs ++ trace w)%list
          /\ forallb (within_and_no_log k) evs = true)
  /\ (forall (w : World) (sm : AssetRef) (x : float) (j : nat),
      (forall s, nth_error (read_strategies sm) j = Some s ->
         exists evs, trace (snd (s w)) = (evs ++ trace w)%list
                     /\ existsb (enters j) evs = true)
      /\ (forall s, nth_error (write_strategies sm x) j = Some s ->
            exists evs, trace (snd (s w)) = (evs ++ trace w)%list
                        /\ existsb (enters j) evs = true))
  /\ (forall (k j : nat) (e : event),
      within k e = true -> enters j e = true -> j <= k).
Proof.
  split; [| split; [| split; [| split]]].
  - intros A before s after otherwise w v Hf Hs.
    split; [apply Read_stops | apply Fallback_stops]; assumption.
  - intros w sm k Hk.
    unfold OverReducedFinder.get_percent_triangles_lod0,
      percenttriangles.get_percent_triangles_lod0.
    rewrite get_percent_triangles_lod0_is_Read.
    destruct (@chain_first_present _ (read_strategies sm) (ret 0%float)
                (read_strategies_well_behaved sm) k w w
                (same_host_refl w) Hk) as [v [_ [HR _]]].
    rewrite HR. cbn [snd].
    split; [reflexivity |]. split; [reflexivity |].
    apply after_attempts_emits, read_strategies_within.
  - intros w sm x k Hk.
    rewrite pt_set_percent_triangles_lod0_is_Write,
      ORF_set_percent_triangles_lod0_is_Write.
    destruct (@chain_first_present _ (write_strategies sm x)
                (log_no_writable_path sm)
                (write_strategies_well_behaved sm x) k w w
                (same_host_refl w) Hk) as [b1 [_ [_ HF1]]].
    destruct (@chain_first_present _ (write_strategies sm x) (ret false)
                (write_strategies_well_behaved sm x) k w w
                (same_host_refl w) Hk) as [b2 [_ [_ HF2]]].
    rewrite HF1, HF2. cbn [snd].
    split; [reflexivity |]. split; [reflexivity |].
    apply after_attempts_emits, write_strategies_within.
  - intros w sm x j. apply strategies_enter.
  - intros k j e. apply within_enters.
Qed.

(** On [mesh_raises_010_025] only the second path is open; the third is
    never asked, whether reading or writing. *)
Lemma C5_example_third_strategy_not_called :
  (snd (OverReducedFinder.get_percent_triangles_lod0 0
          (world_of mesh_raises_010_025))
   = after_attempts [read_via_lods 0; read_via_source_models 0]
                    (world_of mesh_raises_010_025)
   /\ exists evs,
       trace (snd (OverReducedFinder.get_percent_triangles_lod0 0
                     (world_of mesh_raises_010_025)))
       = (evs ++ [])%list
       /\ forallb (within 1) evs = true)
  /\ (snd (percenttriangles.set_percent_triangles_lod0 0 1.0%float
             (world_of mesh_raises_010_025))
      = after_attempts [write_via_lods 0 1.0%float;
                        write_via_source_models 0 1.0%float]
                       (world_of mesh_raises_010_025)
      /\ exists evs,
          trace (snd (percenttriangles.set_percent_triangles_lod0 0 1.0%float
                        (world_of mesh_raises_010_025)))
          = (evs ++ [])%list
          /\ forallb (within_and_no_log 1) evs = true).
Proof.
  destruct C5_strategies_after_first_success_not_invoked
    as [_ [Hread [Hwrite _]]].
  split.
  - destruct (Hread (world_of mesh_raises_010_025) 0 1 eq_refl)
      as [H1 [_ H2]].
    split; [exact H1 | exact H2].
  - destruct (Hwrite (world_of mesh_raises_010_025) 0 1.0%float 1 eq_refl)
      as [H1 [_ H2]].
    split; [exact H1 | exact H2].
Defined.

(** ** Reading twice *)

Lemma get_percent_triangles_lod0_total sm :
  total (Shared.get_percent_triangles_lod0 sm).
Proof. unfold Shared.get_percent_triangles_lod0; mauto. Qed.

(** C6.  [get_percent_triangles_lod0] leaves the host as it found it, and a
    second call right after the first returns what the first returned. *)
Theorem C6_read_twice_same_result :
  forall (w : World) (sm : AssetRef),
    same_host (snd (percenttriangles.get_percent_triangles_lod0 sm w)) w
    /\ fst (percenttriangles.get_percent_triangles_lod0 sm
              (snd (percenttriangles.get_percent_triangles_lod0 sm w)))
       = fst (percenttriangles.get_percent_triangles_lod0 sm w)
    /\ same_host (snd (TrianglesListMaker.get_percent_triangles_lod0 sm w)) w
    /\ fst (TrianglesListMaker.get_percent_triangles_lod0 sm
              (snd (TrianglesListMaker.get_percent_triangles_lod0 sm w)))
       = fst (TrianglesListMaker.get_percent_triangles_lod0 sm w)
    /\ exists r,
        fst ((r1 <- percenttriangles.get_percent_triangles_lod0 sm ;;
              r2 <- percenttriangles.get_percent_triangles_lod0 sm ;;
              ret (r1, r2)) w) = Return (r, r).
Proof.
  intros w sm.
  unfold percenttriangles.get_percent_triangles_lod0,
    TrianglesListMaker.get_percent_triangles_lod0.
  pose proof (get_percent_triangles_lod0_preserves sm w) as Hw.
  pose proof (proj1 (get_percent_triangles_lod0_respects sm Hw)) as Hr.
  repeat split; try exact Hr; try apply Hw.
  destruct (get_percent_triangles_lod0_total sm w) as [r E].
  exists r. unfold bind.
  destruct (Shared.get_percent_triangles_lod0 sm w) as [r1 w1] eqn:E1.
  simpl in E, Hr. rewrite E in Hr |- *.
  destruct (Shared.get_percent_triangles_lod0 sm w1) as [r2 w2] eqn:E2.
  simpl in Hr. rewrite Hr. reflexivity.
Qed.

(** ** The record's reduction ratio during processing *)

Lemma ORF_set_percent_triangles_lod0_emits sm v :
  emits_only not_percent_read (OverReducedFinder.set_percent_triangles_lod0 sm v).
Proof.
  unfold OverReducedFinder.set_percent_triangles_lod0,
    Shared.set_percent_triangles_lod0_then,
    write_via_lods, write_via_source_models, write_via_subsystem.
  mauto.
Qed.

Lemma ORF_build_and_save_emits sm :
  emits_only not_percent_read (OverReducedFinder.build_and_save sm).
Proof. unfold OverReducedFinder.build_and_save; mauto. Qed.

Lemma ORF_process_mesh_emits mi dry :
  emits_only not_percent_read (OverReducedFinder.process_mesh mi dry).
Proof.
  unfold OverReducedFinder.process_mesh.
  destruct dry; [apply emits_only_ret |].
  apply emits_only_bind; [apply ORF_set_percent_triangles_lod0_emits |].
  intros [|]; [| apply emits_only_ret].
  apply emits_only_bind; [apply ORF_build_and_save_emits |].
  intros [|]; apply emits_only_ret.
Qed.

(** Reading the ratio is a recorded call: the scan leaves it in the trace. *)
Lemma read_is_recorded :
  existsb reads_percent_triangles
    (trace (snd (OverReducedFinder.get_percent_triangles_lod0 0
                   (world_of mesh_raises_010_025)))) = true.
Proof. reflexivity. Qed.

(** C7.  [OverReducedFinder.process_mesh] works from the ratio stored in the
    record at scan time: none of the host calls it makes reads
    [percent_triangles], and it leaves the record's [percent_raw_before] (and
    its [asset], [name], [package_path] and [triangle_count]) as they were. *)
Theorem C7_process_mesh_never_rereads_ratio :
  forall (w : World) (mesh_info : OverReducedFinder.MeshInfo) (dry_run : bool),
    let run := OverReducedFinder.process_mesh mesh_info dry_run w in
    (exists evs, trace (snd run) = (evs ++ trace w)%list
                 /\ forallb not_percent_read evs = true)
    /\ OverReducedFinder.percent_raw_before (record_after mesh_info (fst run))
       = OverReducedFinder.percent_raw_before mesh_info
    /\ OverReducedFinder.asset (record_after mesh_info (fst run))
       = OverReducedFinder.asset mesh_info
    /\ OverReducedFinder.name (record_after mesh_info (fst run))
       = OverReducedFinder.name mesh_info
    /\ OverReducedFinder.package_path (record_after mesh_info (fst run))
       = OverReducedFinder.package_path mesh_info
    /\ OverReducedFinder.triangle_count (record_after mesh_info (fst run))
       = OverReducedFinder.triangle_count mesh_info.
Proof.
  intros w mi dry run. split; [apply ORF_process_mesh_emits |].
  subst run. unfold OverReducedFinder.process_mesh.
  destruct dry; [repeat split |].
  unfold bind.
  destruct (OverReducedFinder.set_percent_triangles_lod0 _ _ w)
    as [[[|] | e] w1]; try (repeat split; fail).
  destruct (OverReducedFinder.build_and_save _ w1)
    as [[[|] | e] w2]; repeat split.
Qed.

(** ** The scans *)

Lemma returns_in_ret {A} (a : A) (w0 : World) (Q : A -> Prop) :
  Q a -> returns_in (ret a) w0 Q.
Proof. intros H w Hw. exists a. repeat split; try apply Hw; exact H. Qed.

Lemma returns_in_bind {A B} (m : M A) (k : A -> M B) (w0 : World)
    (Q1 : A -> Prop) (Q : B -> Prop) :
  returns_in m w0 Q1 -> (forall a, Q1 a -> returns_in (k a) w0 Q) ->
  returns_in (bind m k) w0 Q.
Proof.
  intros Hm Hk w Hw. unfold bind.
  destruct (Hm w Hw) as [a [E [Ha Hw']]].
  destruct (m w) as [r w']; simpl in *; subst r.
  apply (Hk a Ha w' Hw').
Qed.

Lemma returns_in_observed {A} (m : M A) (w0 : World) :
  total m -> respects m -> preserves m ->
  returns_in m w0 (fun a => fst (m w0) = Return a).
Proof.
  intros Ht Hr Hp w Hw. destruct (Ht w) as [a E]. exists a.
  split; [exact E |]. split.
  - rewrite <- E. symmetry. apply Hr; exact Hw.
  - eapply same_host_trans; [apply Hp | exact Hw].
Qed.

Lemma returns_in_weaken {A} (m : M A) (w0 : World) (Q Q' : A -> Prop) :
  (forall a, Q a -> Q' a) -> returns_in m w0 Q -> returns_in m w0 Q'.
Proof.
  intros HQ Hm w Hw. destruct (Hm w Hw) as [a [E [Ha Hw']]].
  exists a. split; [exact E |]. split; [apply HQ; exact Ha | exact Hw'].
Qed.

Lemma returns_in_observer {A} (m : M A) (w0 : World) :
  total m -> respects m -> preserves m -> returns_in m w0 (fun _ => True).
Proof.
  intros Ht Hr Hp.
  apply returns_in_weaken with (Q := fun a => fst (m w0) = Return a);
    [trivial | apply returns_in_observed; assumption].
Qed.

(** A host call that answers [Return a] on the host of [w0]. *)
Lemma returns_in_lift {A} (m : M A) (w0 : World) (a : A) :
  respects m -> preserves m -> fst (m w0) = Return a ->
  returns_in m w0 (fun x => x = a).
Proof.
  intros Hr Hp Ha w Hw. exists a.
  split; [rewrite <- Ha; apply Hr; exact Hw |].
  split; [reflexivity |].
  eapply same_host_trans; [apply Hp | exact Hw].
Qed.

Lemma ensures_ret {A} (a : A) (w0 : World) (Q : A -> Prop) :
  Q a -> ensures (ret a) w0 Q.
Proof.
  intros H w Hw b Hb. injection Hb as <-. split; [exact H | exact Hw].
Qed.

Lemma ensures_bind {A B} (m : M A) (k : A -> M B) (w0 : World)
    (Q1 : A -> Prop) (Q : B -> Prop) :
  ensures m w0 Q1 -> (forall a, Q1 a -> ensures (k a) w0 Q) ->
  ensures (bind m k) w0 Q.
Proof.
  intros Hm Hk w Hw b Hb. unfold bind in *.
  specialize (Hm w Hw).
  destruct (m w) as [[a | e] w']; [| discriminate Hb].
  destruct (Hm a eq_refl) as [Ha Hw'].
  exact (Hk a Ha w' Hw' b Hb).
Qed.

Lemma returns_in_ensures {A} (m : M A) (w0 : World) (Q : A -> Prop) :
  returns_in m w0 Q -> ensures m w0 Q.
Proof.
  intros Hm w Hw a Ha. destruct (Hm w Hw) as [a' [E [Hq Hw']]].
  assert (a' = a) by congruence. subst a'. split; assumption.
Qed.

(** What an observer answers, when it answers. *)
Lemma ensures_observed {A} (m : M A) (w0 : World) :
  respects m -> preserves m ->
  ensures m w0 (fun a => fst (m w0) = Return a).
Proof.
  intros Hr Hp w Hw a Ha. split.
  - rewrite <- Ha. symmetry. apply Hr; exact Hw.
  - eapply same_host_trans; [apply Hp | exact Hw].
Qed.

Lemma ensures_weaken {A} (m : M A) (w0 : World) (Q Q' : A -> Prop) :
  (forall a, Q a -> Q' a) -> ensures m w0 Q -> ensures m w0 Q'.
Proof.
  intros HQ Hm w Hw a Ha. destruct (Hm w Hw a Ha) as [Hq Hw'].
  split; [apply HQ; exact Hq | exact Hw'].
Qed.

Lemma get_name_respects sm : respects (get_name sm).
Proof. unfold get_name; mauto. Qed.

Lemma get_name_preserves sm : preserves (get_name sm).
Proof. unfold get_name; mauto. Qed.

Lemma get_path_name_respects sm : respects (get_path_name sm).
Proof. unfold get_path_name; mauto. Qed.

Lemma get_path_name_preserves sm : preserves (get_path_name sm).
Proof. unfold get_path_name; mauto. Qed.

Lemma get_assets_respects : respects get_assets.
Proof. unfold get_assets; mauto. Qed.

Lemma get_assets_preserves : preserves get_assets.
Proof. unfold get_assets; mauto. Qed.

Lemma load_static_mesh_returned a w0 :
  returns_in (Shared.load_static_mesh a) w0
             (fun r => r = match get_asset a with
                           | Return x => x
                           | Raise _ => None
                           end).
Proof.
  intros w Hw. unfold Shared.load_static_mesh, try_except, lift, ret.
  destruct (get_asset a) as [x | e]; eexists; (split; [reflexivity |]);
    (split; [reflexivity | exact Hw]).
Qed.

(** The loop, when the body keeps an invariant whenever it returns. *)
Lemma for_assets_ensures {R} (Inv : R -> Prop)
    (body : AssetRef -> R -> M R) (w0 : World) (assets : list AssetData) :
  (forall sm res, Inv res -> ensures (body sm res) w0 Inv) ->
  forall res, Inv res ->
    ensures (Shared.for_assets assets body res) w0 Inv.
Proof.
  intros Hbody. induction assets as [| a rest IH]; intros res Hres; simpl.
  - apply ensures_ret; exact Hres.
  - eapply ensures_bind;
      [apply returns_in_ensures, load_static_mesh_returned |].
    intros [sm |] _; [| apply IH; exact Hres].
    apply ensures_bind with (Q1 := Inv); [apply Hbody; exact Hres |].
    intros res' Hres'. apply IH; exact Hres'.
Qed.

Lemma for_static_meshes_ensures {R} (Inv : R -> Prop)
    (body : AssetRef -> R -> M R) (w0 : World) :
  (forall sm res, Inv res -> ensures (body sm res) w0 Inv) ->
  forall res, Inv res ->
    ensures (Shared.for_static_meshes body res) w0 Inv.
Proof.
  intros Hbody res Hres. unfold Shared.for_static_meshes.
  eapply ensures_bind;
    [apply ensures_observed;
       [apply get_assets_respects | apply get_assets_preserves] |].
  intros assets _. apply for_assets_ensures; assumption.
Qed.

(** The loop, when the body returns on every mesh the registry yields. *)
Lemma for_assets_returns {R} (Inv : R -> Prop)
    (body : AssetRef -> R -> M R) (w0 : World) (assets : list AssetData) :
  (forall sm res, In sm (yielded assets) -> Inv res ->
     returns_in (body sm res) w0 Inv) ->
  forall res, Inv res ->
    returns_in (Shared.for_assets assets body res) w0 Inv.
Proof.
  induction assets as [| a rest IH]; intros Hbody res Hres; simpl.
  - apply returns_in_ret; exact Hres.
  - eapply returns_in_bind; [apply load_static_mesh_returned |].
    intros x ->.
    assert (Hrest : forall sm res0, In sm (yielded rest) -> Inv res0 ->
                      returns_in (body sm res0) w0 Inv).
    { intros sm res0 Hsm. apply Hbody. simpl. apply in_or_app. right.
      exact Hsm. }
    destruct (get_asset a) as [[sm |] | e] eqn:Ea;
      [| apply IH; assumption | apply IH; assumption].
    apply returns_in_bind with (Q1 := Inv).
    + apply Hbody; [| exact Hres]. simpl. rewrite Ea. left; reflexivity.
    + intros res' Hres'. apply IH; assumption.
Qed.

Lemma get_assets_returned w0 assets :
  registry_assets (unreal w0) = Return assets ->
  returns_in get_assets w0 (fun x => x = assets).
Proof.
  intros H. apply returns_in_lift;
    [apply get_assets_respects | apply get_assets_preserves |].
  unfold get_assets, bind, the_unreal, lift. simpl. exact H.
Qed.

Lemma for_static_meshes_returns {R} (Inv : R -> Prop)
    (body : AssetRef -> R -> M R) (w0 : World) (assets : list AssetData) :
  registry_assets (unreal w0) = Return assets ->
  (forall sm res, In sm (yielded assets) -> Inv res ->
     returns_in (body sm res) w0 Inv) ->
  forall res, Inv res ->
    returns_in (Shared.for_static_meshes body res) w0 Inv.
Proof.
  intros Hreg Hbody res Hres. unfold Shared.for_static_meshes.
  eapply returns_in_bind; [apply get_assets_returned; exact Hreg |].
  intros x ->. apply for_assets_returns; assumption.
Qed.

Lemma get_lod0_triangle_count_is_Fallback sm :
  Shared.get_lod0_triangle_count sm = Fallback (count_strategies sm) (ret (-1)%Z).
Proof. reflexivity. Qed.

Lemma count_strategies_well_behaved sm :
  Forall well_behaved (count_strategies sm).
Proof.
  unfold count_strategies.
  repeat (apply Forall_cons; [apply observer_well_behaved; split |]);
    try apply Forall_nil;
    unfold Shared.count_via_mesh, Shared.count_via_render_data; mauto.
Qed.

Lemma get_lod0_triangle_count_total sm :
  total (Shared.get_lod0_triangle_count sm).
Proof.
  unfold Shared.get_lod0_triangle_count, Shared.count_via_mesh,
    Shared.count_via_render_data; mauto.
Qed.

Lemma get_lod0_triangle_count_respects sm :
  respects (Shared.get_lod0_triangle_count sm).
Proof.
  unfold Shared.get_lod0_triangle_count, Shared.count_via_mesh,
    Shared.count_via_render_data; mauto.
Qed.

Lemma get_lod0_triangle_count_preserves sm :
  preserves (Shared.get_lod0_triangle_count sm).
Proof.
  unfold Shared.get_lod0_triangle_count, Shared.count_via_mesh,
    Shared.count_via_render_data; mauto.
Qed.

Lemma get_lod0_triangle_count_observed sm w0 :
  returns_in (Shared.get_lod0_triangle_count sm) w0 (fun _ => True).
Proof.
  apply returns_in_observer;
    auto using get_lod0_triangle_count_total,
      get_lod0_triangle_count_respects, get_lod0_triangle_count_preserves.
Qed.

Lemma get_percent_triangles_lod0_observed sm w0 :
  returns_in (Shared.get_percent_triangles_lod0 sm) w0
    (fun r => fst (Shared.get_percent_triangles_lod0 sm w0) = Return r).
Proof.
  apply returns_in_observed;
    auto using get_percent_triangles_lod0_total,
      get_percent_triangles_lod0_respects, get_percent_triangles_lod0_preserves.
Qed.

Lemma get_name_returned sm w0 :
  name_returns w0 sm ->
  returns_in (get_name sm) w0 (fun s => s = name_of w0 sm).
Proof.
  intros [n Hn]. apply returns_in_lift;
    [apply get_name_respects | apply get_name_preserves |].
  unfold get_name, name_of, bind, the_object, lift. simpl.
  rewrite Hn. reflexivity.
Qed.

Lemma get_path_name_returned sm w0 :
  path_name_returns w0 sm ->
  returns_in (get_path_name sm) w0 (fun s => s = path_of w0 sm).
Proof.
  intros [n Hn]. apply returns_in_lift;
    [apply get_path_name_respects | apply get_path_name_preserves |].
  unfold get_path_name, path_of, bind, the_object, lift. simpl.
  rewrite Hn. reflexivity.
Qed.

Lemma get_name_ensures sm w0 : ensures (get_name sm) w0 (fun _ => True).
Proof.
  eapply ensures_weaken;
    [| apply ensures_observed;
         [apply get_name_respects | apply get_name_preserves]].
  trivial.
Qed.

Lemma get_path_name_ensures sm w0 :
  ensures (get_path_name sm) w0 (fun _ => True).
Proof.
  eapply ensures_weaken;
    [| apply ensures_observed;
         [apply get_path_name_respects | apply get_path_name_preserves]].
  trivial.
Qed.

Lemma read_nanite_state_observed sm w0 :
  returns_in (TrianglesListMaker.read_nanite_state sm) w0 (fun _ => True).
Proof.
  apply returns_in_observer; unfold TrianglesListMaker.read_nanite_state; mauto.
Qed.

Section ScanIsSound.

Variable str_lower : string -> string.

(** Whenever the loop body of a scan returns, the records it holds are
    sound. *)
Lemma ORF_collect_one_sound thr tri tok sm res w0 :
  Forall (ORF_sound w0) res ->
  ensures (OverReducedFinder.collect_one str_lower thr tri tok sm res) w0
          (Forall (ORF_sound w0)).
Proof.
  intros Hres. unfold OverReducedFinder.collect_one.
  eapply ensures_bind; [apply get_name_ensures |]. intros name _.
  eapply ensures_bind; [apply get_path_name_ensures |]. intros path _.
  destruct (negb (OverReducedFinder.has_building_token str_lower path tok));
    [apply ensures_ret; exact Hres |].
  eapply ensures_bind;
    [apply returns_in_ensures, get_lod0_triangle_count_observed |].
  intros n _.
  eapply ensures_bind;
    [apply returns_in_ensures, get_percent_triangles_lod0_observed |].
  intros pct Hpct. simpl in Hpct.
  destruct (n <? 0)%Z eqn:Hn; [apply ensures_ret; exact Hres |].
  destruct (OverReducedFinder.is_over_reduced pct thr && (n <? tri)%Z) eqn:Hsel;
    [| apply ensures_ret; exact Hres].
  apply ensures_ret. apply Forall_app. split; [exact Hres |].
  constructor; [| constructor].
  apply andb_true_iff in Hsel. destruct Hsel as [Hover _].
  destruct pct as [p |]; [| discriminate Hover].
  split; simpl; [apply Z.ltb_ge; exact Hn | exact Hpct].
Qed.

Lemma ORF_collect_candidates_sound thr tri tok w results :
  fst (OverReducedFinder.collect_candidates str_lower thr tri tok w)
  = Return results ->
  Forall (ORF_sound w) results.
Proof.
  intros E. unfold OverReducedFinder.collect_candidates in E.
  apply (@for_static_meshes_ensures _ (Forall (ORF_sound w))
           (OverReducedFinder.collect_one str_lower thr tri tok) w
           (fun sm res H => ORF_collect_one_sound thr tri tok sm H)
           [] (Forall_nil _) w (same_host_refl w) results E).
Qed.

(** The loop body returns on a mesh whose name and path can be asked. *)
Lemma ORF_collect_one_returns thr tri tok sm res w0 :
  name_returns w0 sm -> path_name_returns w0 sm ->
  returns_in (OverReducedFinder.collect_one str_lower thr tri tok sm res) w0
             (fun _ => True).
Proof.
  intros Hn Hp. unfold OverReducedFinder.collect_one.
  eapply returns_in_bind; [apply get_name_returned; exact Hn |].
  intros name _.
  eapply returns_in_bind; [apply get_path_name_returned; exact Hp |].
  intros path _.
  destruct (negb (OverReducedFinder.has_building_token str_lower path tok));
    [apply returns_in_ret; exact I |].
  eapply returns_in_bind; [apply get_lod0_triangle_count_observed |].
  intros n _.
  eapply returns_in_bind; [apply get_percent_triangles_lod0_observed |].
  intros pct _.
  destruct (n <? 0)%Z; [apply returns_in_ret; exact I |].
  destruct (OverReducedFinder.is_over_reduced pct thr && (n <? tri)%Z);
    apply returns_in_ret; exact I.
Qed.

Lemma ORF_collect_candidates_returns thr tri tok w assets :
  registry_assets (unreal w) = Return assets ->
  (forall sm, In sm (yielded assets) ->
     name_returns w sm /\ path_name_returns w sm) ->
  exists results,
    fst (OverReducedFinder.collect_candidates str_lower thr tri tok w)
    = Return results.
Proof.
  intros Hreg Hnames. unfold OverReducedFinder.collect_candidates.
  destruct (@for_static_meshes_returns _ (fun _ => True)
              (OverReducedFinder.collect_one str_lower thr tri tok) w assets
              Hreg
              (fun sm res Hsm _ =>
                 @ORF_collect_one_returns thr tri tok sm res w
                   (proj1 (Hnames sm Hsm)) (proj2 (Hnames sm Hsm)))
              [] I w (same_host_refl w))
    as [results [E _]].
  exists results. exact E.
Qed.

End ScanIsSound.

Lemma TLM_collect_one_sound tri minraw sm res w0 :
  Forall (TLM_sound w0) res ->
  ensures (TrianglesListMaker.collect_one tri minraw sm res) w0
          (Forall (TLM_sound w0)).
Proof.
  intros Hres. unfold TrianglesListMaker.collect_one.
  eapply ensures_bind; [apply get_name_ensures |]. intros name _.
  eapply ensures_bind;
    [apply returns_in_ensures, get_lod0_triangle_count_observed |].
  intros n _.
  eapply ensures_bind;
    [apply returns_in_ensures, get_percent_triangles_lod0_observed |].
  intros pct Hpct. simpl in Hpct.
  eapply ensures_bind;
    [apply returns_in_ensures, read_nanite_state_observed |].
  intros nanite _.
  destruct ((n <? 0)%Z || (n <? tri)%Z) eqn:Hn;
    [apply ensures_ret; exact Hres |].
  apply orb_false_iff in Hn. destruct Hn as [Hn _].
  destruct (TrianglesListMaker.is_unreduced pct minraw) eqn:Hsel;
    [| apply ensures_ret; exact Hres].
  eapply ensures_bind; [apply get_path_name_ensures |]. intros path _.
  apply ensures_ret. apply Forall_app. split; [exact Hres |].
  constructor; [| constructor].
  destruct pct as [p |]; [| discriminate Hsel].
  split; simpl; [apply Z.ltb_ge; exact Hn | exact Hpct].
Qed.

Lemma TLM_collect_candidates_sound tri minraw w results :
  fst (TrianglesListMaker.collect_candidates tri minraw w) = Return results ->
  Forall (TLM_sound w) results.
Proof.
  intros E. unfold TrianglesListMaker.collect_candidates in E.
  apply (@for_static_meshes_ensures _ (Forall (TLM_sound w))
           (TrianglesListMaker.collect_one tri minraw) w
           (fun sm res H => TLM_collect_one_sound tri minraw sm H)
           [] (Forall_nil _) w (same_host_refl w) results E).
Qed.

Lemma TLM_collect_one_returns tri minraw sm res w0 :
  name_returns w0 sm -> path_name_returns w0 sm ->
  returns_in (TrianglesListMaker.collect_one tri minraw sm res) w0
             (fun _ => True).
Proof.
  intros Hn Hp. unfold TrianglesListMaker.collect_one.
  eapply returns_in_bind; [apply get_name_returned; exact Hn |].
  intros name _.
  eapply returns_in_bind; [apply get_lod0_triangle_count_observed |].
  intros n _.
  eapply returns_in_bind; [apply get_percent_triangles_lod0_observed |].
  intros pct _.
  eapply returns_in_bind; [apply read_nanite_state_observed |].
  intros nanite _.
  destruct ((n <? 0)%Z || (n <? tri)%Z); [apply returns_in_ret; exact I |].
  destruct (TrianglesListMaker.is_unreduced pct minraw);
    [| apply returns_in_ret; exact I].
  eapply returns_in_bind; [apply get_path_name_returned; exact Hp |].
  intros path _. apply returns_in_ret; exact I.
Qed.

Lemma TLM_collect_candidates_returns tri minraw w assets :
  registry_assets (unreal w) = Return assets ->
  (forall sm, In sm (yielded assets) ->
     name_returns w sm /\ path_name_returns w sm) ->
  exists results,
    fst (TrianglesListMaker.collect_candidates tri minraw w) = Return results.
Proof.
  intros Hreg Hnames. unfold TrianglesListMaker.collect_candidates.
  destruct (@for_static_meshes_returns _ (fun _ => True)
              (TrianglesListMaker.collect_one tri minraw) w assets
              Hreg
              (fun sm res Hsm _ =>
                 @TLM_collect_one_returns tri minraw sm res w
                   (proj1 (Hnames sm Hsm)) (proj2 (Hnames sm Hsm)))
              [] I w (same_host_refl w))
    as [results [E _]].
  exists results. exact E.
Qed.

(** C9.  Both selection predicates answer [False] on a ratio that could not
    be read, and every record either scan produces is of an asset whose ratio
    a read returns: an asset with an unreadable ratio is never selected.
    This holds on every host and for any [str.lower]; the scans do return
    when the registry hands out its entries and the meshes it yields answer
    [get_name()] and [get_path_name()]. *)
Theorem C9_unreadable_ratio_is_never_selected :
  (forall t : float, OverReducedFinder.is_over_reduced None t = false)
  /\ (forall m : float, TrianglesListMaker.is_unreduced None m = false)
  /\ (forall (str_lower : string -> string) (w : World) (thr : float)
             (tri : Z) (tok : string) (results : list OverReducedFinder.MeshInfo),
      fst (OverReducedFinder.collect_candidates str_lower thr tri tok w)
      = Return results ->
      Forall (fun m =>
                fst (OverReducedFinder.get_percent_triangles_lod0
                       (OverReducedFinder.asset m) w) <> Return None)
             results)
  /\ (forall (w : World) (tri : Z) (minraw : float)
             (results : list TrianglesListMaker.MeshInfo),
      fst (TrianglesListMaker.collect_candidates tri minraw w) = Return results ->
      Forall (fun m =>
                fst (TrianglesListMaker.get_percent_triangles_lod0
                       (TrianglesListMaker.asset m) w) <> Return None)
             results)
  /\ (forall (str_lower : string -> string) (w : World) (thr : float)
             (tri : Z) (tok : string) (assets : list AssetData),
      registry_assets (unreal w) = Return assets ->
      (forall sm, In sm (yielded assets) ->
         name_returns w sm /\ path_name_returns w sm) ->
      exists results,
        fst (OverReducedFinder.collect_candidates str_lower thr tri tok w)
        = Return results
        /\ Forall (fun m =>
                     fst (OverReducedFinder.get_percent_triangles_lod0
                            (OverReducedFinder.asset m) w) <> Return None)
                  results)
  /\ (forall (w : World) (tri : Z) (minraw : float) (assets : list AssetData),
      registry_assets (unreal w) = Return assets ->
      (forall sm, In sm (yielded assets) ->
         name_returns w sm /\ path_name_returns w sm) ->
      exists results,
        fst (TrianglesListMaker.collect_candidates tri minraw w) = Return results
        /\ Forall (fun m =>
                     fst (TrianglesListMaker.get_percent_triangles_lod0
                            (TrianglesListMaker.asset m) w) <> Return None)
                  results).
Proof.
  assert (HO : forall str_lower w thr tri tok results,
             fst (OverReducedFinder.collect_candidates str_lower thr tri tok w)
             = Return results ->
             Forall (fun m =>
                       fst (OverReducedFinder.get_percent_triangles_lod0
                              (OverReducedFinder.asset m) w) <> Return None)
                    results).
  { intros str_lower w thr tri tok results E.
    eapply Forall_impl; [| exact (ORF_collect_candidates_sound _ _ _ _ _ E)].
    intros m [_ Hm]. rewrite Hm. discriminate. }
  assert (HT : forall w tri minraw results,
             fst (TrianglesListMaker.collect_candidates tri minraw w)
             = Return results ->
             Forall (fun m =>
                       fst (TrianglesListMaker.get_percent_triangles_lod0
                              (TrianglesListMaker.asset m) w) <> Return None)
                    results).
  { intros w tri minraw results E.
    eapply Forall_impl; [| exact (TLM_collect_candidates_sound _ _ _ E)].
    intros m [_ Hm]. rewrite Hm. discriminate. }
  split; [reflexivity |]. split; [reflexivity |].
  split; [exact HO |]. split; [exact HT |]. split.
  - intros str_lower w thr tri tok assets Hreg Hnames.
    destruct (@ORF_collect_candidates_returns str_lower thr tri tok w assets
                Hreg Hnames) as [results E].
    exists results. split; [exact E | exact (HO _ _ _ _ _ _ E)].
  - intros w tri minraw assets Hreg Hnames.
    destruct (@TLM_collect_candidates_returns tri minraw w assets
                Hreg Hnames) as [results E].
    exists results. split; [exact E | exact (HT _ _ _ _ E)].
Qed.

(** The scans on sample hosts: the unreadable mesh is passed over, the
    readable one is selected with the ratio that was read. *)
Lemma scans_on_sample_hosts :
  fst (OverReducedFinder.collect_candidates ascii_lower
         OverReducedFinder.REDUCTION_THRESHOLD_RAW
         OverReducedFinder.TRIANGLE_THRESHOLD
         OverReducedFinder.BUILDING_TOKEN (world_of mesh_unreadable))
  = Return []
  /\ fst (OverReducedFinder.collect_candidates ascii_lower
            OverReducedFinder.REDUCTION_THRESHOLD_RAW
            OverReducedFinder.TRIANGLE_THRESHOLD
            OverReducedFinder.BUILDING_TOKEN (world_of mesh_over_reduced))
     = Return [ {| OverReducedFinder.name := "SM_Building_A";
                   OverReducedFinder.package_path :=
                     "/Game/City/Building/SM_Building_A";
                   OverReducedFinder.triangle_count := 120;
                   OverReducedFinder.percent_raw_before := 0.05;
                   OverReducedFinder.asset := 0;
                   OverReducedFinder.action := "FOUND";
                   OverReducedFinder.percent_raw_after := None |} ]
  /\ fst (TrianglesListMaker.collect_candidates
            TrianglesListMaker.TRIANGLE_THRESHOLD
            TrianglesListMaker.UNREDUCED_MIN_RAW (world_of mesh_big_unreadable))
     = Return []
  /\ fst (TrianglesListMaker.collect_candidates
            TrianglesListMaker.TRIANGLE_THRESHOLD
            TrianglesListMaker.UNREDUCED_MIN_RAW (world_of mesh_unreduced))
     = Return [ {| TrianglesListMaker.name := "SM_Building_A";
                   TrianglesListMaker.package_path :=
                     "/Game/City/Building/SM_Building_A";
                   TrianglesListMaker.triangle_count := 80000;
                   TrianglesListMaker.percent_raw := 1.0;
                   TrianglesListMaker.nanite_enabled := false;
                   TrianglesListMaker.asset := 0 |} ].
Proof. repeat split; vm_compute; reflexivity. Qed.

(** The over-reduced building of the sample host is selected, and its ratio
    is one a read returns. *)
Lemma C9_example_scans_return :
  exists results,
    fst (OverReducedFinder.collect_candidates ascii_lower
           OverReducedFinder.REDUCTION_THRESHOLD_RAW
           OverReducedFinder.TRIANGLE_THRESHOLD
           OverReducedFinder.BUILDING_TOKEN (world_of mesh_over_reduced))
    = Return results
    /\ Forall (fun m =>
                 fst (OverReducedFinder.get_percent_triangles_lod0
                        (OverReducedFinder.asset m)
                        (world_of mesh_over_reduced)) <> Return None)
              results.
Proof.
  destruct C9_unreadable_ratio_is_never_selected as (_ & _ & _ & _ & H & _).
  apply (H ascii_lower (world_of mesh_over_reduced)
           OverReducedFinder.REDUCTION_THRESHOLD_RAW
           OverReducedFinder.TRIANGLE_THRESHOLD
           OverReducedFinder.BUILDING_TOKEN
           [{| asset_name := "SM_Building_A"; get_asset := Return (Some 0) |}]).
  - reflexivity.
  - intros sm _. split; eexists; reflexivity.
Defined.

(** C10.  [get_lod0_triangle_count] returns -1 when neither of its paths
    yields a count, and every record either scan produces has a triangle
    count that is not negative: the sentinel never reaches a record.  This
    holds on every host; the scans do return when the registry hands out its
    entries and the meshes it yields answer [get_name()] and
    [get_path_name()]. *)
Theorem C10_candidates_have_known_triangle_count :
  (forall (w : World) (sm : AssetRef),
      Forall (fun o => o = Raised \/ o = Absent)
             (outcomes (count_strategies sm) w) ->
      fst (OverReducedFinder.get_lod0_triangle_count sm w) = Return (-1)%Z
      /\ fst (TrianglesListMaker.get_lod0_triangle_count sm w) = Return (-1)%Z)
  /\ (forall (str_lower : string -> string) (w : World) (thr : float)
             (tri : Z) (tok : string) (results : list OverReducedFinder.MeshInfo),
      fst (OverReducedFinder.collect_candidates str_lower thr tri tok w)
      = Return results ->
      Forall (fun m => (0 <= OverReducedFinder.triangle_count m)%Z) results)
  /\ (forall (w : World) (tri : Z) (minraw : float)
             (results : list TrianglesListMaker.MeshInfo),
      fst (TrianglesListMaker.collect_candidates tri minraw w) = Return results ->
      Forall (fun m => (0 <= TrianglesListMaker.triangle_count m)%Z) results)
  /\ (forall (str_lower : string -> string) (w : World) (thr : float)
             (tri : Z) (tok : string) (assets : list AssetData),
      registry_assets (unreal w) = Return assets ->
      (forall sm, In sm (yielded assets) ->
         name_returns w sm /\ path_name_returns w sm) ->
      exists results,
        fst (OverReducedFinder.collect_candidates str_lower thr tri tok w)
        = Return results
        /\ Forall (fun m => (0 <= OverReducedFinder.triangle_count m)%Z) results)
  /\ (forall (w : World) (tri : Z) (minraw : float) (assets : list AssetData),
      registry_assets (unreal w) = Return assets ->
      (forall sm, In sm (yielded assets) ->
         name_returns w sm /\ path_name_returns w sm) ->
      exists results,
        fst (TrianglesListMaker.collect_candidates tri minraw w) = Return results
        /\ Forall (fun m => (0 <= TrianglesListMaker.triangle_count m)%Z) results).
Proof.
  assert (HO : forall str_lower w thr tri tok results,
             fst (OverReducedFinder.collect_candidates str_lower thr tri tok w)
             = Return results ->
             Forall (fun m => (0 <= OverReducedFinder.triangle_count m)%Z)
                    results).
  { intros str_lower w thr tri tok results E.
    eapply Forall_impl; [| exact (ORF_collect_candidates_sound _ _ _ _ _ E)].
    intros m [Hm _]; exact Hm. }
  assert (HT : forall w tri minraw results,
             fst (TrianglesListMaker.collect_candidates tri minraw w)
             = Return results ->
             Forall (fun m => (0 <= TrianglesListMaker.triangle_count m)%Z)
                    results).
  { intros w tri minraw results E.
    eapply Forall_impl; [| exact (TLM_collect_candidates_sound _ _ _ E)].
    intros m [Hm _]; exact Hm. }
  split; [| split; [exact HO | split; [exact HT | split]]].
  - intros w sm H.
    unfold OverReducedFinder.get_lod0_triangle_count,
      TrianglesListMaker.get_lod0_triangle_count.
    rewrite get_lod0_triangle_count_is_Fallback.
    rewrite (@Fallback_outcomes _ _ _ (count_strategies_well_behaved sm)
               (respects_ret (-1)%Z) w w (same_host_refl w)).
    apply chain_result_none in H. rewrite H. split; reflexivity.
  - intros str_lower w thr tri tok assets Hreg Hnames.
    destruct (@ORF_collect_candidates_returns str_lower thr tri tok w assets
                Hreg Hnames) as [results E].
    exists results. split; [exact E | exact (HO _ _ _ _ _ _ E)].
  - intros w tri minraw assets Hreg Hnames.
    destruct (@TLM_collect_candidates_returns tri minraw w assets
                Hreg Hnames) as [results E].
    exists results. split; [exact E | exact (HT _ _ _ _ E)].
Qed.

(** On [closed_mesh] neither path yields a count: the answer is -1, and the
    scan passes the mesh over. *)
Lemma C10_example_unknown_count :
  fst (OverReducedFinder.get_lod0_triangle_count 0 (world_of closed_mesh))
  = Return (-1)%Z
  /\ fst (TrianglesListMaker.get_lod0_triangle_count 0 (world_of closed_mesh))
     = Return (-1)%Z.
Proof.
  apply (proj1 C10_candidates_have_known_triangle_count (world_of closed_mesh) 0).
  apply Forall_cons; [right; reflexivity |].
  apply Forall_cons; [left; reflexivity | apply Forall_nil].
Defined.

(** ** percenttriangles.process_mesh *)

Lemma bind_returns {A B} (m : M A) (k : A -> M B) (w w' : World) (a : A) :
  m w = (Return a, w') -> bind m k w = k a w'.
Proof. intros E; unfold bind; rewrite E; reflexivity. Qed.

Lemma bind_raises {A B} (m : M A) (k : A -> M B) (w w' : World) (e : exn) :
  m w = (Raise e, w') -> bind m k w = (Raise e, w').
Proof. intros E; unfold bind; rewrite E; reflexivity. Qed.

Lemma get_name_answer sm w :
  get_name sm w = (obj_name (objects w sm), w).
Proof. reflexivity. Qed.

Lemma read_tri_count_total sm : total (percenttriangles.read_tri_count sm).
Proof. unfold percenttriangles.read_tri_count; mauto. Qed.

Lemma read_tri_count_preserves sm :
  preserves (percenttriangles.read_tri_count sm).
Proof. unfold percenttriangles.read_tri_count; mauto. Qed.

Lemma ensure_nanite_disabled_when_enabled sm w :
  is_nanite_enabled (objects w sm) = Return true ->
  set_nanite_enabled_raises (objects w sm) = None ->
  fst (percenttriangles.ensure_nanite_disabled sm w) = Return (true, false, true)
  /\ is_nanite_enabled
       (objects (snd (percenttriangles.ensure_nanite_disabled sm w)) sm)
     = Return false.
Proof.
  intros H1 H2.
  unfold percenttriangles.ensure_nanite_disabled, reify,
    call_is_nanite_enabled, call_set_nanite_enabled, raises.
  unfold bind, try_except, emit, the_object, lift, ret, store_object. simpl.
  rewrite H1. simpl. rewrite H2. simpl. rewrite Nat.eqb_refl. simpl.
  split; [reflexivity |]. rewrite Nat.eqb_refl. reflexivity.
Qed.

(** [process_mesh] raises what [get_name()] raises: it is its first call. *)
Lemma pt_process_mesh_nameless sm dry w e :
  obj_name (objects w sm) = Raise e ->
  percenttriangles.process_mesh sm dry w = (Raise e, w).
Proof.
  intros Hn. unfold percenttriangles.process_mesh.
  apply bind_raises. rewrite get_name_answer, Hn. reflexivity.
Qed.

(** [process_mesh], once the name is known and the ratio has been read: the
    triangle count is read on the same host, then [ensure_nanite_disabled]
    runs, then [decide]. *)
Lemma pt_process_mesh_after_read sm dry w name p :
  obj_name (objects w sm) = Return name ->
  fst (percenttriangles.get_percent_triangles_lod0 sm w) = Return (Some p) ->
  exists n w2,
    same_host w2 w
    /\ percenttriangles.process_mesh sm dry w
       = (nanite <- percenttriangles.ensure_nanite_disabled sm ;;
          decide sm dry name p n nanite) w2.
Proof.
  intros Hname Hp. unfold percenttriangles.process_mesh.
  rewrite (@bind_returns _ _ (get_name sm) _ w w name)
    by (rewrite get_name_answer, Hname; reflexivity).
  pose proof (get_percent_triangles_lod0_preserves sm w) as Hw1.
  unfold percenttriangles.get_percent_triangles_lod0 in *.
  destruct (Shared.get_percent_triangles_lod0 sm w) as [r1 w1] eqn:E1.
  simpl in Hp, Hw1. subst r1.
  rewrite (@bind_returns _ _ _ _ _ _ _ E1).
  pose proof (read_tri_count_preserves sm w1) as Hw2.
  destruct (read_tri_count_total sm w1) as [n Hn].
  destruct (percenttriangles.read_tri_count sm w1) as [r2 w2] eqn:E2.
  simpl in Hn, Hw2. subst r2.
  rewrite (@bind_returns _ _ _ _ _ _ _ E2).
  exists n, w2. split; [eapply same_host_trans; eassumption |].
  reflexivity.
Qed.

(** When the ratio cannot be read, [process_mesh] reports it and stops. *)
Lemma pt_process_mesh_unreadable sm dry w name :
  obj_name (objects w sm) = Return name ->
  fst (percenttriangles.get_percent_triangles_lod0 sm w) = Return None ->
  fst (percenttriangles.process_mesh sm dry w)
  = Return (false, percenttriangles.Build_message percenttriangles.CouldNotRead
                     name None None None)
  /\ same_host (snd (percenttriangles.process_mesh sm dry w)) w.
Proof.
  intros Hname Hp. unfold percenttriangles.process_mesh.
  rewrite (@bind_returns _ _ (get_name sm) _ w w name)
    by (rewrite get_name_answer, Hname; reflexivity).
  pose proof (get_percent_triangles_lod0_preserves sm w) as Hw1.
  unfold percenttriangles.get_percent_triangles_lod0 in *.
  destruct (Shared.get_percent_triangles_lod0 sm w) as [r1 w1] eqn:E1.
  simpl in Hp, Hw1. subst r1.
  rewrite (@bind_returns _ _ _ _ _ _ _ E1). split; [reflexivity | exact Hw1].
Qed.

(** C8.  [percenttriangles.process_mesh] calls [ensure_nanite_disabled]
    before its skip tests and before it looks at [dry_run]: on a mesh that
    answers [get_name()], whose ratio can be read and whose Nanite flag is
    on, a dry run, and a run that skips the mesh, return without writing the
    ratio and leave the flag off. *)
Theorem C8_dry_run_and_skip_disable_nanite :
  forall (w : World) (sm : AssetRef) (dry_run : bool) (name : string)
         (p : float),
    obj_name (objects w sm) = Return name ->
    fst (percenttriangles.get_percent_triangles_lod0 sm w) = Return (Some p) ->
    is_nanite_enabled (objects w sm) = Return true ->
    set_nanite_enabled_raises (objects w sm) = None ->
    dry_run = true \/ skipped p = true ->
    (exists b msg,
        fst (percenttriangles.process_mesh sm dry_run w) = Return (b, msg)
        /\ percenttriangles.msg_kind msg
           = (if already_at_target p then percenttriangles.AlreadyAtTarget
              else if not_full_resolution p then percenttriangles.SkippedPercent
              else percenttriangles.WouldChange))
    /\ is_nanite_enabled
         (objects (snd (percenttriangles.process_mesh sm dry_run w)) sm)
       = Return false.
Proof.
  intros w sm dry name p Hname Hp Hon Hset Hcase.
  destruct (pt_process_mesh_after_read sm dry w Hname Hp)
    as [n [w2 [[Ho Hu] E]]].
  rewrite E. clear E.
  rewrite <- Ho in Hon, Hset.
  destruct (ensure_nanite_disabled_when_enabled sm w2 Hon Hset) as [Hr Hoff].
  destruct (percenttriangles.ensure_nanite_disabled sm w2) as [r3 w3] eqn:E3.
  simpl in Hr, Hoff. subst r3.
  rewrite (@bind_returns _ _ _ _ _ _ _ E3).
  unfold decide, skipped in *.
  destruct (already_at_target p); [split; [do 2 eexists; split |]; (reflexivity || exact Hoff) |].
  destruct (not_full_resolution p); [split; [do 2 eexists; split |]; (reflexivity || exact Hoff) |].
  destruct dry; [split; [do 2 eexists; split |]; (reflexivity || exact Hoff) |].
  destruct Hcase as [H | H]; discriminate H.
Qed.

(** A dry run over a mesh at 100% with Nanite on reports "would change" and
    has switched Nanite off; so has a run that skips a mesh already at the
    target ratio. *)
Lemma C8_example_dry_run_mutates :
  ((exists b msg,
       fst (percenttriangles.process_mesh 0 true
              (world_of (open_mesh 1.0 80000 true))) = Return (b, msg)
       /\ percenttriangles.msg_kind msg = percenttriangles.WouldChange)
   /\ is_nanite_enabled
        (objects (snd (percenttriangles.process_mesh 0 true
                         (world_of (open_mesh 1.0 80000 true)))) 0)
      = Return false)
  /\ ((exists b msg,
          fst (percenttriangles.process_mesh 0 false
                 (world_of (open_mesh 0.10 80000 true))) = Return (b, msg)
          /\ percenttriangles.msg_kind msg = percenttriangles.AlreadyAtTarget)
      /\ is_nanite_enabled
           (objects (snd (percenttriangles.process_mesh 0 false
                            (world_of (open_mesh 0.10 80000 true)))) 0)
         = Return false).
Proof.
  split.
  - apply (@C8_dry_run_and_skip_disable_nanite
             (world_of (open_mesh 1.0 80000 true)) 0 true "SM_veh_Car"
             1.0%float);
      [reflexivity | reflexivity | reflexivity | reflexivity
      | left; reflexivity].
  - apply (@C8_dry_run_and_skip_disable_nanite
             (world_of (open_mesh 0.10 80000 true)) 0 false "SM_veh_Car"
             0.10%float);
      [reflexivity | reflexivity | reflexivity | reflexivity
      | right; reflexivity].
Defined.

(** ** Frames of the writes *)

Lemma same_services_refl o : same_services o o.
Proof. repeat split. Qed.

Lemma same_services_trans o1 o2 o3 :
  same_services o1 o2 -> same_services o2 o3 -> same_services o1 o3.
Proof.
  unfold same_services. intros H1 H2.
  repeat match goal with H : _ /\ _ |- _ => destruct H end.
  repeat split; congruence.
Qed.

Lemma same_reduction_view_refl o : same_reduction_view o o.
Proof. repeat split. Qed.

Section Keeps.

Variable R : StaticMesh -> StaticMesh -> Prop.
Hypothesis R_refl : forall o, R o o.
Hypothesis R_trans : forall o1 o2 o3, R o1 o2 -> R o2 o3 -> R o1 o3.

Context {A B : Type}.

Lemma keeps_ret (a : A) : keeps R (ret a).
Proof. intros w; split; [reflexivity | intros r; apply R_refl]. Qed.

Lemma keeps_raise (e : exn) : keeps R (@raise A e).
Proof. intros w; split; [reflexivity | intros r; apply R_refl]. Qed.

Lemma keeps_lift (x : result A) : keeps R (lift x).
Proof. intros w; split; [reflexivity | intros r; apply R_refl]. Qed.

Lemma keeps_bind (m : M A) (k : A -> M B) :
  keeps R m -> (forall a, keeps R (k a)) -> keeps R (bind m k).
Proof.
  intros Hm Hk w. unfold bind. destruct (Hm w) as [Hu Ho].
  destruct (m w) as [[a | e] w']; simpl in *.
  - destruct (Hk a w') as [Hu' Ho']. split; [congruence |].
    intros r. eapply R_trans; [apply Ho | apply Ho'].
  - split; assumption.
Qed.

Lemma keeps_try_except (body : M A) (handler : exn -> M A) :
  keeps R body -> (forall e, keeps R (handler e)) ->
  keeps R (try_except body handler).
Proof.
  intros Hm Hk w. unfold try_except. destruct (Hm w) as [Hu Ho].
  destruct (body w) as [[a | e] w']; simpl in *.
  - split; assumption.
  - destruct (Hk e w') as [Hu' Ho']. split; [congruence |].
    intros r. eapply R_trans; [apply Ho | apply Ho'].
Qed.

End Keeps.

Lemma keeps_observer (R : StaticMesh -> StaticMesh -> Prop) {A} (m : M A) :
  (forall o, R o o) -> preserves m -> keeps R m.
Proof.
  intros Hrefl Hp w. destruct (Hp w) as [Ho Hu]. split; [exact Hu |].
  intros r. rewrite Ho. apply Hrefl.
Qed.

(** Case analysis on every host answer, for a goal about the objects a
    computation leaves. *)
Ltac keeps_cases :=
  intros ?w; host_cases;
  (split; [reflexivity |]);
  intros ?r; simpl;
  try apply same_services_refl; try apply same_reduction_view_refl;
  match goal with
  | |- context [Nat.eqb ?r ?sm] =>
      destruct (Nat.eqb_spec r sm);
      [subst; repeat split | first [apply same_services_refl
                                   | apply same_reduction_view_refl]]
  end.

Lemma write_via_lods_keeps sm v : keeps same_services (write_via_lods sm v).
Proof. unfold write_via_lods. keeps_cases. Qed.

Lemma write_via_source_models_keeps sm v :
  keeps same_services (write_via_source_models sm v).
Proof. unfold write_via_source_models. keeps_cases. Qed.

Lemma write_via_subsystem_keeps sm v :
  keeps same_services (write_via_subsystem sm v).
Proof. unfold write_via_subsystem. keeps_cases. Qed.

Lemma Fallback_keeps (R : StaticMesh -> StaticMesh -> Prop) {A}
    (chain : list (strategy A)) (otherwise : M A) :
  (forall o, R o o) -> (forall o1 o2 o3, R o1 o2 -> R o2 o3 -> R o1 o3) ->
  Forall (keeps R) chain -> keeps R otherwise ->
  keeps R (Fallback chain otherwise).
Proof.
  intros Hrefl Htrans Hchain Hother.
  induction Hchain as [| s rest Hs Hrest IH]; simpl; [exact Hother |].
  unfold or_return, attempt.
  apply keeps_bind; [assumption | |].
  - apply keeps_try_except; [assumption | exact Hs |].
    intros e; apply keeps_ret; assumption.
  - intros [v |]; [apply keeps_ret; assumption | exact IH].
Qed.

Lemma write_strategies_keep sm v :
  Forall (keeps same_services) (write_strategies sm v).
Proof.
  unfold write_strategies.
  repeat (apply Forall_cons); try apply Forall_nil;
    auto using write_via_lods_keeps, write_via_source_models_keeps,
      write_via_subsystem_keeps.
Qed.

Lemma ORF_set_percent_triangles_lod0_keeps sm v :
  keeps same_services (OverReducedFinder.set_percent_triangles_lod0 sm v).
Proof.
  rewrite ORF_set_percent_triangles_lod0_is_Write.
  apply Fallback_keeps;
    [apply same_services_refl | apply same_services_trans
    | apply write_strategies_keep
    | apply keeps_ret; apply same_services_refl].
Qed.

Lemma pt_set_percent_triangles_lod0_keeps sm v :
  keeps same_services (percenttriangles.set_percent_triangles_lod0 sm v).
Proof.
  rewrite pt_set_percent_triangles_lod0_is_Write.
  apply Fallback_keeps;
    [apply same_services_refl | apply same_services_trans
    | apply write_strategies_keep |].
  apply keeps_observer; [apply same_services_refl |].
  unfold log_no_writable_path, percenttriangles._log; mauto.
Qed.

(** ** Build and save *)

Lemma ORF_build_and_save_returns sm w smes :
  editor_subsystem (unreal w) = Return smes ->
  exists b, fst (OverReducedFinder.build_and_save sm w) = Return b.
Proof.
  intros H. unfold OverReducedFinder.build_and_save,
    hasattr_rebuild_lods, hasattr_build_static_mesh.
  host_cases; try congruence; eexists; reflexivity.
Qed.

(** When both save calls raise, [build_and_save] answers [False]. *)
Lemma ORF_build_and_save_save_fails sm w smes e1 e2 :
  editor_subsystem (unreal w) = Return smes ->
  save_loaded_asset_raises (objects w sm) = Some e1 ->
  save_packages_raises (objects w sm) = Some e2 ->
  fst (OverReducedFinder.build_and_save sm w) = Return false.
Proof.
  intros H H1 H2. unfold OverReducedFinder.build_and_save,
    hasattr_rebuild_lods, hasattr_build_static_mesh.
  host_cases; try congruence; reflexivity.
Qed.

(** ** OverReducedFinder.process_mesh *)

Lemma ORF_process_mesh_unwritable mi w :
  Forall (fun o => o = Raised \/ o = Absent)
         (outcomes (write_strategies (OverReducedFinder.asset mi)
                      OverReducedFinder.TARGET_PERCENT_RAW) w) ->
  fst (OverReducedFinder.process_mesh mi false w)
  = Return (false, OverReducedFinder.set_action mi "SET-FAIL").
Proof.
  intros H. unfold OverReducedFinder.process_mesh, bind.
  pose proof (ORF_set_percent_triangles_lod0_result
                (OverReducedFinder.asset mi)
                OverReducedFinder.TARGET_PERCENT_RAW w) as E.
  apply chain_result_none in H. rewrite H in E.
  destruct (OverReducedFinder.set_percent_triangles_lod0 _ _ w) as [r w1].
  simpl in E. subst r. reflexivity.
Qed.

Lemma ORF_process_mesh_writable mi w :
  Exists (fun o => o = Present true)
         (outcomes (write_strategies (OverReducedFinder.asset mi)
                      OverReducedFinder.TARGET_PERCENT_RAW) w) ->
  exists w1,
    unreal w1 = unreal w
    /\ same_services (objects w (OverReducedFinder.asset mi))
                     (objects w1 (OverReducedFinder.asset mi))
    /\ OverReducedFinder.process_mesh mi false w
       = (saved <- OverReducedFinder.build_and_save (OverReducedFinder.asset mi) ;;
          if saved
          then ret (true,
                    OverReducedFinder.set_percent_raw_after
                      (OverReducedFinder.set_action mi "FIXED")
                      OverReducedFinder.TARGET_PERCENT_RAW)
          else ret (false, OverReducedFinder.set_action mi "SAVE-FAIL")) w1.
Proof.
  intros H. unfold OverReducedFinder.process_mesh.
  pose proof (ORF_set_percent_triangles_lod0_result
                (OverReducedFinder.asset mi)
                OverReducedFinder.TARGET_PERCENT_RAW w) as E.
  apply (chain_result_true (write_strategies_return_true _ _ w)) in H.
  rewrite H in E.
  destruct (ORF_set_percent_triangles_lod0_keeps
              (OverReducedFinder.asset mi)
              OverReducedFinder.TARGET_PERCENT_RAW w) as [Hu Ho].
  destruct (OverReducedFinder.set_percent_triangles_lod0 _ _ w) as [r w1] eqn:E1.
  simpl in E, Hu, Ho. subst r.
  exists w1. split; [exact Hu |]. split; [apply Ho |].
  rewrite (@bind_returns _ _ _ _ _ _ _ E1). reflexivity.
Qed.

Lemma ORF_process_mesh_returns mi dry w smes :
  editor_subsystem (unreal w) = Return smes ->
  exists b mi',
    fst (OverReducedFinder.process_mesh mi dry w) = Return (b, mi')
    /\ (b = true /\ (OverReducedFinder.action mi' = "DRY-RUN"
                     \/ OverReducedFinder.action mi' = "FIXED")
        \/ b = false /\ (OverReducedFinder.action mi' = "SAVE-FAIL"
                         \/ OverReducedFinder.action mi' = "SET-FAIL")).
Proof.
  intros Hs. destruct dry.
  - do 2 eexists. split; [reflexivity |]. left; split; [reflexivity | left; reflexivity].
  - pose proof (ORF_set_percent_triangles_lod0_result
                  (OverReducedFinder.asset mi)
                  OverReducedFinder.TARGET_PERCENT_RAW w) as E.
    destruct (ORF_set_percent_triangles_lod0_keeps
                (OverReducedFinder.asset mi)
                OverReducedFinder.TARGET_PERCENT_RAW w) as [Hu _].
    unfold OverReducedFinder.process_mesh.
    destruct (OverReducedFinder.set_percent_triangles_lod0 _ _ w)
      as [r w1] eqn:E1.
    cbn [fst snd] in E, Hu.
    assert (Hr : exists ok, r = Return ok)
      by (rewrite E; destruct (chain_result _); eexists; reflexivity).
    destruct Hr as [ok ->].
    rewrite (@bind_returns _ _ _ _ _ _ _ E1).
    destruct ok.
    + rewrite <- Hu in Hs.
      destruct (ORF_build_and_save_returns (OverReducedFinder.asset mi) w1 Hs)
        as [saved Hsaved].
      unfold bind.
      destruct (OverReducedFinder.build_and_save _ w1) as [r2 w2].
      simpl in Hsaved. subst r2.
      destruct saved; do 2 eexists; (split; [reflexivity |]).
      * left; split; [reflexivity | right; reflexivity].
      * right; split; [reflexivity | left; reflexivity].
    + do 2 eexists. split; [reflexivity |].
      right; split; [reflexivity | right; reflexivity].
Qed.

Lemma ORF_process_mesh_save_fails mi w smes e1 e2 :
  editor_subsystem (unreal w) = Return smes ->
  Exists (fun o => o = Present true)
         (outcomes (write_strategies (OverReducedFinder.asset mi)
                      OverReducedFinder.TARGET_PERCENT_RAW) w) ->
  save_loaded_asset_raises (objects w (OverReducedFinder.asset mi)) = Some e1 ->
  save_packages_raises (objects w (OverReducedFinder.asset mi)) = Some e2 ->
  fst (OverReducedFinder.process_mesh mi false w)
  = Return (false, OverReducedFinder.set_action mi "SAVE-FAIL").
Proof.
  intros Hs Hw H1 H2.
  destruct (ORF_process_mesh_writable mi Hw) as [w1 [Hu [Ho E]]].
  rewrite E. unfold same_services in Ho.
  destruct Ho as (_ & _ & _ & _ & _ & Hl & Hp).
  rewrite <- Hu in Hs. rewrite <- Hl in H1. rewrite <- Hp in H2.
  pose proof (ORF_build_and_save_save_fails _ _ Hs H1 H2) as Hb.
  unfold bind.
  destruct (OverReducedFinder.build_and_save _ w1) as [r2 w2].
  simpl in Hb. subst r2. reflexivity.
Qed.

(** ** percenttriangles: Nanite, then the write, then build and save *)

Lemma ensure_nanite_disabled_keeps_services sm :
  keeps same_services (percenttriangles.ensure_nanite_disabled sm).
Proof.
  unfold percenttriangles.ensure_nanite_disabled,
    percenttriangles.nanite_fallback.
  keeps_cases.
Qed.

Lemma ensure_nanite_disabled_keeps_reduction_view sm :
  keeps same_reduction_view (percenttriangles.ensure_nanite_disabled sm).
Proof.
  unfold percenttriangles.ensure_nanite_disabled,
    percenttriangles.nanite_fallback.
  keeps_cases.
Qed.

(** [ensure_nanite_disabled] lets through what is not an [AttributeError];
    short of that it returns. *)
Lemma ensure_nanite_disabled_returns sm w :
  is_nanite_enabled (objects w sm) <> Raise OtherException ->
  set_nanite_enabled_raises (objects w sm) <> Some OtherException ->
  exists t, fst (percenttriangles.ensure_nanite_disabled sm w) = Return t.
Proof.
  intros H1 H2.
  unfold percenttriangles.ensure_nanite_disabled,
    percenttriangles.nanite_fallback.
  host_cases; try congruence; eexists; reflexivity.
Qed.

(** What the write strategies do depends on the [unreal] module and on the
    reduction fields of the mesh only. *)
Lemma write_outcomes_frame sm v w w' :
  unreal w' = unreal w ->
  same_reduction_view (objects w sm) (objects w' sm) ->
  outcomes (write_strategies sm v) w' = outcomes (write_strategies sm v) w.
Proof.
  intros Hu (H1 & H2 & H3 & H4 & H5 & H6 & H7).
  unfold outcomes, write_strategies, map, outcome_of,
    write_via_lods, write_via_source_models, write_via_subsystem.
  autounfold with host_calls.
  unfold bind, try_except, emit, the_object, the_unreal, lift, raise, ret,
    store_object.
  repeat (simpl; rewrite ?Hu, ?H1, ?H2, ?H3, ?H4, ?H5, ?H6, ?H7;
          try reflexivity;
          match goal with
          | |- context [match ?x with _ => _ end] =>
              lazymatch x with
              | context [match _ with _ => _ end] => fail
              | _ => destruct x eqn:?
              end
          end).
Qed.

Lemma pt_build_and_save_returns sm w smes pkg name :
  editor_subsystem (unreal w) = Return smes ->
  outer (objects w sm) = Return pkg ->
  obj_name (objects w sm) = Return name ->
  log_raises (unreal w) = None ->
  fst (percenttriangles.build_and_save sm w) = Return tt.
Proof.
  intros H1 H2 H3 H4.
  unfold percenttriangles.build_and_save, percenttriangles._log_warning,
    percenttriangles._log, hasattr_rebuild_lods, hasattr_build_static_mesh.
  host_cases; try congruence;
    repeat match goal with u : unit |- _ => destruct u end; reflexivity.
Qed.

(** [process_mesh] on a mesh that is read, is not skipped and is not a dry
    run: after [ensure_nanite_disabled] it goes on to the write, on a host
    whose services and reduction fields are as they were. *)
Lemma pt_process_mesh_reaches_write sm w name p :
  obj_name (objects w sm) = Return name ->
  fst (percenttriangles.get_percent_triangles_lod0 sm w) = Return (Some p) ->
  skipped p = false ->
  is_nanite_enabled (objects w sm) <> Raise OtherException ->
  set_nanite_enabled_raises (objects w sm) <> Some OtherException ->
  exists n nanite w3,
    unreal w3 = unreal w
    /\ same_services (objects w sm) (objects w3 sm)
    /\ same_reduction_view (objects w sm) (objects w3 sm)
    /\ percenttriangles.process_mesh sm false w
       = (ok <- percenttriangles.set_percent_triangles_lod0 sm
                  percenttriangles.TARGET_PERCENT_RAW ;;
          if ok then
            percenttriangles.build_and_save sm ;;;
            ret (true, percenttriangles.Build_message
                         percenttriangles.Changed name
                         (Some p) (Some n) (Some nanite))
          else ret (false, percenttriangles.Build_message
                             percenttriangles.FailedToApply
                             name (Some p) None None)) w3.
Proof.
  intros Hname Hp Hskip Hn1 Hn2.
  destruct (pt_process_mesh_after_read sm false w Hname Hp)
    as [n [w2 [[Ho Hu] E]]].
  rewrite E. clear E. rewrite <- Ho in Hn1, Hn2.
  destruct (ensure_nanite_disabled_returns sm w2 Hn1 Hn2) as [t Ht].
  destruct (ensure_nanite_disabled_keeps_services sm w2) as [Hu3 Hs3].
  destruct (ensure_nanite_disabled_keeps_reduction_view sm w2) as [_ Hr3].
  destruct (percenttriangles.ensure_nanite_disabled sm w2) as [r3 w3] eqn:E3.
  cbn [fst snd] in Ht, Hu3, Hs3, Hr3. subst r3.
  exists n, t, w3.
  split; [congruence |].
  split; [rewrite <- Ho; apply Hs3 |].
  split; [rewrite <- Ho; apply Hr3 |].
  rewrite (@bind_returns _ _ _ _ _ _ _ E3).
  unfold decide. unfold skipped in Hskip.
  apply orb_false_iff in Hskip. destruct Hskip as [-> ->]. reflexivity.
Qed.

Lemma failure_log_result_frame w w' sm :
  unreal w' = unreal w ->
  same_services (objects w sm) (objects w' sm) ->
  failure_log_result w' sm = failure_log_result w sm.
Proof.
  intros Hu (Hn & _). unfold failure_log_result. rewrite Hu, Hn. reflexivity.
Qed.

Lemma pt_process_mesh_unwritable sm w name p :
  obj_name (objects w sm) = Return name ->
  log_raises (unreal w) = None ->
  fst (percenttriangles.get_percent_triangles_lod0 sm w) = Return (Some p) ->
  skipped p = false ->
  is_nanite_enabled (objects w sm) <> Raise OtherException ->
  set_nanite_enabled_raises (objects w sm) <> Some OtherException ->
  unwritable w sm percenttriangles.TARGET_PERCENT_RAW ->
  fst (percenttriangles.process_mesh sm false w)
  = Return (false, percenttriangles.Build_message
                     percenttriangles.FailedToApply
                     name (Some p) None None).
Proof.
  intros Hname Hlog Hp Hskip Hn1 Hn2 Hw.
  destruct (pt_process_mesh_reaches_write sm w Hname Hp Hskip Hn1 Hn2)
    as [n [t [w3 [Hu [Hsv [Hr E]]]]]].
  rewrite E. clear E.
  pose proof (pt_set_percent_triangles_lod0_result sm
                percenttriangles.TARGET_PERCENT_RAW w3) as R.
  rewrite (write_outcomes_frame sm _ w w3 Hu Hr) in R.
  apply chain_result_none in Hw. rewrite Hw in R.
  rewrite (@failure_log_result_frame w w3 sm Hu Hsv) in R.
  assert (F : failure_log_result w sm = Return false)
    by (apply failure_log_result_false; split; [exists name |]; assumption).
  rewrite F in R.
  unfold bind.
  destruct (percenttriangles.set_percent_triangles_lod0 sm _ w3) as [r w4].
  cbn [fst] in R. subst r. reflexivity.
Qed.

(** Once the write has succeeded the mesh is reported as changed: what the
    build and save calls answer does not reach the result. *)
Lemma pt_process_mesh_changed sm w name p smes pkg :
  obj_name (objects w sm) = Return name ->
  log_raises (unreal w) = None ->
  fst (percenttriangles.get_percent_triangles_lod0 sm w) = Return (Some p) ->
  skipped p = false ->
  editor_subsystem (unreal w) = Return smes ->
  outer (objects w sm) = Return pkg ->
  is_nanite_enabled (objects w sm) <> Raise OtherException ->
  set_nanite_enabled_raises (objects w sm) <> Some OtherException ->
  writable w sm percenttriangles.TARGET_PERCENT_RAW ->
  exists n nanite,
    fst (percenttriangles.process_mesh sm false w)
    = Return (true, percenttriangles.Build_message
                      percenttriangles.Changed name
                      (Some p) (Some n) (Some nanite)).
Proof.
  intros Hname Hlog Hp Hskip Hs Hout Hn1 Hn2 Hw.
  destruct (pt_process_mesh_reaches_write sm w Hname Hp Hskip Hn1 Hn2)
    as [n [t [w3 [Hu [Hsv [Hr E]]]]]].
  exists n, t. rewrite E. clear E.
  pose proof (pt_set_percent_triangles_lod0_result sm
                percenttriangles.TARGET_PERCENT_RAW w3) as R.
  rewrite (write_outcomes_frame sm _ w w3 Hu Hr) in R.
  apply (chain_result_true (write_strategies_return_true _ _ w)) in Hw.
  rewrite Hw in R.
  destruct (pt_set_percent_triangles_lod0_keeps sm
              percenttriangles.TARGET_PERCENT_RAW w3) as [Hu4 Hs4].
  destruct (percenttriangles.set_percent_triangles_lod0 sm _ w3)
    as [r w4] eqn:E4.
  cbn [fst snd] in R, Hu4, Hs4. subst r.
  rewrite (@bind_returns _ _ _ _ _ _ _ E4).
  assert (Hs' : editor_subsystem (unreal w4) = Return smes) by congruence.
  assert (Hl' : log_raises (unreal w4) = None) by congruence.
  destruct Hsv as (N3 & O3 & _). destruct (Hs4 sm) as (N4 & O4 & _).
  assert (Hout' : outer (objects w4 sm) = Return pkg) by congruence.
  assert (Hname' : obj_name (objects w4 sm) = Return name) by congruence.
  pose proof (pt_build_and_save_returns sm w4 Hs' Hout' Hname' Hl') as B.
  unfold bind.
  destruct (percenttriangles.build_and_save sm w4) as [r5 w5].
  cbn [fst] in B. subst r5. reflexivity.
Qed.

Lemma writable_or_unwritable w sm v : writable w sm v \/ unwritable w sm v.
Proof.
  unfold writable, unwritable.
  destruct (chain_result_true (write_strategies_return_true sm v w))
    as [Ht [H | H]].
  - left. apply Ht; exact H.
  - right. apply chain_result_none; exact H.
Qed.

Lemma pt_process_mesh_returns sm dry w name smes pkg :
  obj_name (objects w sm) = Return name ->
  log_raises (unreal w) = None ->
  editor_subsystem (unreal w) = Return smes ->
  outer (objects w sm) = Return pkg ->
  is_nanite_enabled (objects w sm) <> Raise OtherException ->
  set_nanite_enabled_raises (objects w sm) <> Some OtherException ->
  exists b msg,
    fst (percenttriangles.process_mesh sm dry w) = Return (b, msg)
    /\ (b = true <-> percenttriangles.msg_kind msg = percenttriangles.WouldChange
                     \/ percenttriangles.msg_kind msg = percenttriangles.Changed).
Proof.
  intros Hname Hlog Hs Hout Hn1 Hn2.
  destruct (get_percent_triangles_lod0_total sm w) as [[p |] Hp].
  - destruct (skipped p) eqn:Hskip; [| destruct dry].
    + destruct (pt_process_mesh_after_read sm dry w Hname Hp)
        as [n [w2 [[Ho Hu] E]]].
      rewrite E. clear E. rewrite <- Ho in Hn1, Hn2.
      destruct (ensure_nanite_disabled_returns sm w2 Hn1 Hn2) as [t Ht].
      destruct (percenttriangles.ensure_nanite_disabled sm w2) as [r3 w3] eqn:E3.
      cbn [fst] in Ht. subst r3.
      rewrite (@bind_returns _ _ _ _ _ _ _ E3).
      unfold decide. unfold skipped in Hskip.
      destruct (already_at_target p);
        [do 2 eexists; split; [reflexivity |];
         split; [discriminate | intros [H | H]; discriminate H] |].
      destruct (not_full_resolution p); [| discriminate Hskip].
      do 2 eexists; split; [reflexivity |].
      split; [discriminate | intros [H | H]; discriminate H].
    + destruct (pt_process_mesh_after_read sm true w Hname Hp)
        as [n [w2 [[Ho Hu] E]]].
      rewrite E. clear E. rewrite <- Ho in Hn1, Hn2.
      destruct (ensure_nanite_disabled_returns sm w2 Hn1 Hn2) as [t Ht].
      destruct (percenttriangles.ensure_nanite_disabled sm w2) as [r3 w3] eqn:E3.
      cbn [fst] in Ht. subst r3.
      rewrite (@bind_returns _ _ _ _ _ _ _ E3).
      unfold decide. unfold skipped in Hskip.
      apply orb_false_iff in Hskip. destruct Hskip as [-> ->].
      do 2 eexists; split; [reflexivity |].
      split; [left; reflexivity | reflexivity].
    + destruct (writable_or_unwritable w sm percenttriangles.TARGET_PERCENT_RAW)
        as [Hw | Hw].
      * destruct (@pt_process_mesh_changed sm w name p smes pkg Hname Hlog Hp
                    Hskip Hs Hout Hn1 Hn2 Hw)
          as [n [t E]].
        rewrite E. do 2 eexists; split; [reflexivity |].
        split; [right; reflexivity | reflexivity].
      * rewrite (@pt_process_mesh_unwritable sm w name p Hname Hlog Hp Hskip
                   Hn1 Hn2 Hw).
        do 2 eexists; split; [reflexivity |].
        split; [discriminate | intros [H | H]; discriminate H].
  - destruct (pt_process_mesh_unreadable sm dry w Hname Hp) as [E _].
    rewrite E. do 2 eexists; split; [reflexivity |].
    split; [discriminate | intros [H | H]; discriminate H].
Qed.

(** On [mesh_save_fails] both save calls raise; [percenttriangles.process_mesh]
    logs two warnings and reports the mesh as changed, with the very result
    it gives when the save goes through. *)
Lemma C4_counterexample_failed_save_reported_changed :
  save_loaded_asset_raises (objects (world_of mesh_save_fails) 0)
  = Some OtherException
  /\ save_packages_raises (objects (world_of mesh_save_fails) 0)
     = Some OtherException
  /\ fst (percenttriangles.process_mesh 0 false (world_of mesh_save_fails))
     = Return (true, percenttriangles.Build_message percenttriangles.Changed
                       "SM_veh_Car" (Some 1.0%float) (Some 80000%Z)
                       (Some (false, false, false)))
  /\ fst (percenttriangles.process_mesh 0 false (world_of mesh_save_fails))
     = fst (percenttriangles.process_mesh 0 false
              (world_of (open_mesh 1.0 80000 false)))
  /\ In (EvLog (Warning "save_loaded_asset failed for" "SM_veh_Car"
                        OtherException))
        (trace (snd (percenttriangles.process_mesh 0 false
                       (world_of mesh_save_fails))))
  /\ ~ persist_failure_is_reported (world_of mesh_save_fails) 0.
Proof.
  split; [reflexivity |]. split; [reflexivity |].
  split; [vm_compute; reflexivity |]. split; [vm_compute; reflexivity |].
  split; [vm_compute; tauto |].
  intros H.
  apply (H ltac:(discriminate) ltac:(discriminate)
           (percenttriangles.Build_message percenttriangles.Changed
              "SM_veh_Car" (Some 1.0%float) (Some 80000%Z)
              (Some (false, false, false)))).
  vm_compute; reflexivity.
Qed.

(** C4, amended.  In [OverReducedFinder.process_mesh] an unwritable ratio is
    recorded as action SET-FAIL and a failed save as SAVE-FAIL, each with
    result [False].  In [percenttriangles.process_mesh] an unreadable ratio
    gives the result [False] with the could-not-read message and an
    unwritable one [False] with the failed-to-apply message; once the write
    has succeeded the mesh is reported as changed, whatever the build and
    save calls did.  [process_mesh] returns a status and raises nothing when
    the calls the scripts make outside any [try] return: the
    editor-subsystem lookup for both scripts and, for [percenttriangles],
    [get_name()], [get_outer()] and [unreal.log], with Nanite calls that raise
    nothing but [AttributeError]. *)
Theorem C4_read_and_write_failures_become_status :
  (forall (w : World) (mi : OverReducedFinder.MeshInfo) (dry_run : bool)
          (smes : option Subsystem),
      editor_subsystem (unreal w) = Return smes ->
      exists b mi',
        fst (OverReducedFinder.process_mesh mi dry_run w) = Return (b, mi')
        /\ (b = true /\ (OverReducedFinder.action mi' = "DRY-RUN"
                         \/ OverReducedFinder.action mi' = "FIXED")
            \/ b = false /\ (OverReducedFinder.action mi' = "SAVE-FAIL"
                             \/ OverReducedFinder.action mi' = "SET-FAIL")))
  /\ (forall (w : World) (mi : OverReducedFinder.MeshInfo),
      unwritable w (OverReducedFinder.asset mi)
                 OverReducedFinder.TARGET_PERCENT_RAW ->
      fst (OverReducedFinder.process_mesh mi false w)
      = Return (false, OverReducedFinder.set_action mi "SET-FAIL"))
  /\ (forall (w : World) (mi : OverReducedFinder.MeshInfo)
             (smes : option Subsystem) (e1 e2 : exn),
      editor_subsystem (unreal w) = Return smes ->
      writable w (OverReducedFinder.asset mi)
               OverReducedFinder.TARGET_PERCENT_RAW ->
      save_loaded_asset_raises (objects w (OverReducedFinder.asset mi)) = Some e1 ->
      save_packages_raises (objects w (OverReducedFinder.asset mi)) = Some e2 ->
      fst (OverReducedFinder.process_mesh mi false w)
      = Return (false, OverReducedFinder.set_action mi "SAVE-FAIL"))
  /\ (forall (w : World) (sm : AssetRef) (dry_run : bool) (name : string)
             (smes : option Subsystem) (pkg : string),
      obj_name (objects w sm) = Return name ->
      log_raises (unreal w) = None ->
      editor_subsystem (unreal w) = Return smes ->
      outer (objects w sm) = Return pkg ->
      is_nanite_enabled (objects w sm) <> Raise OtherException ->
      set_nanite_enabled_raises (objects w sm) <> Some OtherException ->
      exists b msg,
        fst (percenttriangles.process_mesh sm dry_run w) = Return (b, msg)
        /\ (b = true <->
            percenttriangles.msg_kind msg = percenttriangles.WouldChange
            \/ percenttriangles.msg_kind msg = percenttriangles.Changed))
  /\ (forall (w : World) (sm : AssetRef) (dry_run : bool) (name : string),
      obj_name (objects w sm) = Return name ->
      fst (percenttriangles.get_percent_triangles_lod0 sm w) = Return None ->
      fst (percenttriangles.process_mesh sm dry_run w)
      = Return (false, percenttriangles.Build_message
                         percenttriangles.CouldNotRead
                         name None None None))
  /\ (forall (w : World) (sm : AssetRef) (name : string) (p : float),
      obj_name (objects w sm) = Return name ->
      log_raises (unreal w) = None ->
      fst (percenttriangles.get_percent_triangles_lod0 sm w) = Return (Some p) ->
      skipped p = false ->
      is_nanite_enabled (objects w sm) <> Raise OtherException ->
      set_nanite_enabled_raises (objects w sm) <> Some OtherException ->
      unwritable w sm percenttriangles.TARGET_PERCENT_RAW ->
      fst (percenttriangles.process_mesh sm false w)
      = Return (false, percenttriangles.Build_message
                         percenttriangles.FailedToApply
                         name (Some p) None None))
  /\ (forall (w : World) (sm : AssetRef) (name : string) (p : float)
             (smes : option Subsystem) (pkg : string),
      obj_name (objects w sm) = Return name ->
      log_raises (unreal w) = None ->
      fst (percenttriangles.get_percent_triangles_lod0 sm w) = Return (Some p) ->
      skipped p = false ->
      editor_subsystem (unreal w) = Return smes ->
      outer (objects w sm) = Return pkg ->
      is_nanite_enabled (objects w sm) <> Raise OtherException ->
      set_nanite_enabled_raises (objects w sm) <> Some OtherException ->
      writable w sm percenttriangles.TARGET_PERCENT_RAW ->
      exists n nanite,
        fst (percenttriangles.process_mesh sm false w)
        = Return (true, percenttriangles.Build_message
                          percenttriangles.Changed name
                          (Some p) (Some n) (Some nanite)))
  /\ (forall (w : World) (sm : AssetRef) (dry_run : bool) (e : exn),
      obj_name (objects w sm) = Raise e ->
      fst (percenttriangles.process_mesh sm dry_run w) = Raise e).
Proof.
  split; [intros w mi dry smes; apply ORF_process_mesh_returns |].
  split; [intros w mi; apply ORF_process_mesh_unwritable |].
  split; [intros w mi smes e1 e2; apply ORF_process_mesh_save_fails |].
  split; [intros w sm dry name smes pkg; apply pt_process_mesh_returns |].
  split; [intros w sm dry name Hn H;
          apply (pt_process_mesh_unreadable sm dry w Hn H) |].
  split; [intros w sm name p; apply pt_process_mesh_unwritable |].
  split; [intros w sm name p smes pkg; apply pt_process_mesh_changed |].
  intros w sm dry e He. rewrite (pt_process_mesh_nameless sm dry w He).
  reflexivity.
Qed.

(** The three failures on sample hosts: the mesh that cannot be saved is
    recorded SAVE-FAIL by [OverReducedFinder]; the mesh with no open path is
    recorded SET-FAIL, and [percenttriangles] reports it as unreadable. *)
Lemma C4_example_status_codes :
  fst (OverReducedFinder.process_mesh sample_record false
         (world_of mesh_save_fails))
  = Return (false, OverReducedFinder.set_action sample_record "SAVE-FAIL")
  /\ fst (OverReducedFinder.process_mesh sample_record false
            (world_of closed_mesh))
     = Return (false, OverReducedFinder.set_action sample_record "SET-FAIL")
  /\ fst (percenttriangles.process_mesh 0 false (world_of closed_mesh))
     = Return (false, percenttriangles.Build_message
                        percenttriangles.CouldNotRead "SM_Building_A"
                        None None None).
Proof.
  destruct C4_read_and_write_failures_become_status
    as (_ & Hset & Hsave & _ & Hread & _).
  split; [| split].
  - apply (Hsave (world_of mesh_save_fails) sample_record
             (Some {| has_rebuild_lods := true; has_build_static_mesh := true |})
             OtherException OtherException); try reflexivity.
    apply Exists_cons_tl, Exists_cons_hd. reflexivity.
  - apply (Hset (world_of closed_mesh) sample_record).
    repeat (apply Forall_cons; [left; reflexivity |]). apply Forall_nil.
  - apply (Hread (world_of closed_mesh) 0 false "SM_Building_A");
      reflexivity.
Defined.

(** * Further properties *)

(** ** The scans are filters over the registry *)

Lemma returns_in_value {A} (m : M A) (w0 : World) (v : A) :
  total m -> respects m -> preserves m ->
  fst (m w0) = Return v ->
  returns_in m w0 (fun a => a = v).
Proof.
  intros Ht Hr Hp Hv.
  apply returns_in_weaken with (Q := fun a => fst (m w0) = Return a);
    [| apply returns_in_observed; assumption].
  intros a Ha. congruence.
Qed.

Lemma tri_count_of_returned sm w0 :
  returns_in (Shared.get_lod0_triangle_count sm) w0
             (fun n => n = tri_count_of w0 sm).
Proof.
  apply returns_in_value;
    auto using get_lod0_triangle_count_total, get_lod0_triangle_count_respects,
      get_lod0_triangle_count_preserves.
  unfold tri_count_of.
  destruct (get_lod0_triangle_count_total sm w0) as [n ->]. reflexivity.
Qed.

Lemma ratio_of_returned sm w0 :
  returns_in (Shared.get_percent_triangles_lod0 sm) w0
             (fun r => r = ratio_of w0 sm).
Proof.
  apply returns_in_value;
    auto using get_percent_triangles_lod0_total,
      get_percent_triangles_lod0_respects, get_percent_triangles_lod0_preserves.
  unfold ratio_of.
  destruct (get_percent_triangles_lod0_total sm w0) as [n ->]. reflexivity.
Qed.

Lemma nanite_state_of_returned sm w0 :
  returns_in (TrianglesListMaker.read_nanite_state sm) w0
             (fun b => b = nanite_state_of w0 sm).
Proof.
  assert (Ht : total (TrianglesListMaker.read_nanite_state sm))
    by (unfold TrianglesListMaker.read_nanite_state; mauto).
  assert (Hr : respects (TrianglesListMaker.read_nanite_state sm))
    by (unfold TrianglesListMaker.read_nanite_state; mauto).
  assert (Hp : preserves (TrianglesListMaker.read_nanite_state sm))
    by (unfold TrianglesListMaker.read_nanite_state; mauto).
  apply returns_in_value; [exact Ht | exact Hr | exact Hp |].
  unfold nanite_state_of. destruct (Ht w0) as [n ->]. reflexivity.
Qed.

(** The loop over the generator, when the body is a function of the host on
    every mesh the registry yields. *)
Lemma for_assets_fold {R} (body : AssetRef -> R -> M R) (w0 : World)
    (f : AssetRef -> R -> R) (assets : list AssetData) :
  (forall sm res, In sm (yielded assets) ->
     returns_in (body sm res) w0 (fun r => r = f sm res)) ->
  forall res,
    returns_in (Shared.for_assets assets body res) w0
               (fun r => r = fold_left (fun acc sm => f sm acc)
                                       (yielded assets) res).
Proof.
  induction assets as [| a rest IH]; intros Hbody res; simpl.
  - apply returns_in_ret; reflexivity.
  - eapply returns_in_bind; [apply load_static_mesh_returned |].
    intros x ->.
    assert (Hrest : forall sm res0, In sm (yielded rest) ->
                      returns_in (body sm res0) w0 (fun r => r = f sm res0)).
    { intros sm res0 Hsm. apply Hbody. simpl. apply in_or_app. right.
      exact Hsm. }
    destruct (get_asset a) as [[sm |] | e] eqn:Ea; simpl;
      [| apply IH; exact Hrest | apply IH; exact Hrest].
    eapply returns_in_bind.
    + apply Hbody. simpl. rewrite Ea. left; reflexivity.
    + intros r ->. apply IH; exact Hrest.
Qed.

(** The loop stops at the first yielded mesh on which the body raises. *)
Lemma for_assets_aborts {R} (body : AssetRef -> R -> M R) (w0 : World)
    (e : exn) (sm : AssetRef) (assets : list AssetData) :
  (forall res w, same_host w w0 -> fst (body sm res w) = Raise e) ->
  forall pre post,
    yielded assets = (pre ++ sm :: post)%list ->
    (forall x res, In x pre -> returns_in (body x res) w0 (fun _ => True)) ->
    forall res w, same_host w w0 ->
      fst (Shared.for_assets assets body res w) = Raise e.
Proof.
  intros Hraise.
  induction assets as [| a rest IH]; intros pre post Hy Hpre res w Hw;
    simpl in Hy.
  - destruct pre; discriminate Hy.
  - simpl. unfold bind at 1.
    destruct (load_static_mesh_returned a Hw) as [x [Ex [-> Hw1]]].
    destruct (Shared.load_static_mesh a w) as [r1 w1]. simpl in Ex, Hw1.
    subst r1.
    destruct (get_asset a) as [[x |] | e'] eqn:Ea; simpl in Hy;
      [| apply (IH pre post Hy Hpre); exact Hw1
       | apply (IH pre post Hy Hpre); exact Hw1].
    destruct pre as [| x' pre']; simpl in Hy; injection Hy as Hx Hy.
    + subst x. unfold bind.
      pose proof (Hraise res w1 Hw1) as Hb.
      destruct (body sm res w1) as [r2 w2]. simpl in Hb. subst r2.
      reflexivity.
    + subst x'. unfold bind.
      destruct (Hpre x res (or_introl eq_refl) w1 Hw1) as [res' [Eb [_ Hw2]]].
      destruct (body x res w1) as [r2 w2]. simpl in Eb, Hw2. subst r2.
      apply (IH pre' post Hy); [| exact Hw2].
      intros y res0 Hin. apply Hpre. right; exact Hin.
Qed.

Lemma fold_left_select {X Y} (sel : X -> bool) (rec : X -> Y) (l : list X)
    (res : list Y) :
  fold_left (fun acc x => (acc ++ (if sel x then [rec x] else []))%list) l res
  = (res ++ map rec (filter sel l))%list.
Proof.
  revert res. induction l as [| x l IH]; intros res; simpl.
  - rewrite app_nil_r; reflexivity.
  - rewrite IH. destruct (sel x); simpl.
    + rewrite <- app_assoc; reflexivity.
    + rewrite app_nil_r; reflexivity.
Qed.

Lemma get_assets_raises w e :
  registry_assets (unreal w) = Raise e ->
  forall {R} (body : AssetRef -> R -> M R) (res : R),
    Shared.for_static_meshes body res w = (Raise e, w).
Proof.
  intros H R body res.
  unfold Shared.for_static_meshes, get_assets, bind, the_unreal, lift.
  simpl. rewrite H. reflexivity.
Qed.

Lemma for_static_meshes_on_assets {R} (body : AssetRef -> R -> M R)
    (res : R) w assets :
  registry_assets (unreal w) = Return assets ->
  Shared.for_static_meshes body res w = Shared.for_assets assets body res w.
Proof.
  intros H.
  unfold Shared.for_static_meshes, get_assets, bind, the_unreal, lift.
  simpl. rewrite H. reflexivity.
Qed.

Section ScanIsAFilter.

Variable str_lower : string -> string.

Lemma ORF_collect_one_selects thr tri tok sm res w0 :
  name_returns w0 sm -> path_name_returns w0 sm ->
  returns_in (OverReducedFinder.collect_one str_lower thr tri tok sm res) w0
    (fun r => r = (res ++ (if ORF_selects str_lower w0 thr tri tok sm
                           then [ORF_record w0 sm] else []))%list).
Proof.
  intros Hn Hp.
  unfold OverReducedFinder.collect_one, ORF_selects, ORF_record.
  eapply returns_in_bind; [apply get_name_returned; exact Hn |].
  intros name ->.
  eapply returns_in_bind; [apply get_path_name_returned; exact Hp |].
  intros path ->.
  destruct (OverReducedFinder.has_building_token str_lower _ tok); simpl;
    [| apply returns_in_ret; rewrite app_nil_r; reflexivity].
  eapply returns_in_bind; [apply tri_count_of_returned |]. intros n ->.
  eapply returns_in_bind; [apply ratio_of_returned |]. intros r ->.
  destruct (tri_count_of w0 sm <? 0)%Z; simpl;
    [apply returns_in_ret; rewrite app_nil_r; reflexivity |].
  destruct (OverReducedFinder.is_over_reduced (ratio_of w0 sm) thr
            && (tri_count_of w0 sm <? tri)%Z);
    apply returns_in_ret; [reflexivity | rewrite app_nil_r; reflexivity].
Qed.

Lemma ORF_collect_one_nameless thr tri tok sm res w0 e :
  obj_name (objects w0 sm) = Raise e ->
  forall w, same_host w w0 ->
    fst (OverReducedFinder.collect_one str_lower thr tri tok sm res w)
    = Raise e.
Proof.
  intros Hn w [Ho _]. unfold OverReducedFinder.collect_one.
  rewrite (@bind_raises _ _ (get_name sm) _ w w e);
    [reflexivity |].
  rewrite get_name_answer, Ho, Hn. reflexivity.
Qed.

End ScanIsAFilter.

(** X1.  [OverReducedFinder.collect_candidates], for any [str.lower].  When
    the registry hands out its entries and every static mesh it yields
    answers [get_name()] and [get_path_name()], the scan leaves the host as
    it found it and returns, in the order of the registry, one record for
    each yielded mesh that passes the filter (token in the path, triangle
    count known and under the threshold, ratio read and under the
    threshold); entries that fail to load or are no static mesh are passed
    over.  When the registry raises, or [get_name()] raises on a yielded
    mesh before which every mesh answered, the scan raises that exception:
    both calls are made outside any [try]. *)
Theorem X1_ORF_scan_is_a_filter :
  forall (str_lower : string -> string) (w : World) (thr : float) (tri : Z)
         (tok : string),
    (forall assets,
        registry_assets (unreal w) = Return assets ->
        (forall sm, In sm (yielded assets) ->
           name_returns w sm /\ path_name_returns w sm) ->
        fst (OverReducedFinder.collect_candidates str_lower thr tri tok w)
        = Return (map (ORF_record w)
                      (filter (ORF_selects str_lower w thr tri tok)
                              (yielded assets)))
        /\ same_host
             (snd (OverReducedFinder.collect_candidates str_lower thr tri tok w))
             w)
    /\ (forall e,
          registry_assets (unreal w) = Raise e ->
          fst (OverReducedFinder.collect_candidates str_lower thr tri tok w)
          = Raise e)
    /\ (forall assets pre sm post e,
          registry_assets (unreal w) = Return assets ->
          yielded assets = (pre ++ sm :: post)%list ->
          (forall x, In x pre -> name_returns w x /\ path_name_returns w x) ->
          obj_name (objects w sm) = Raise e ->
          fst (OverReducedFinder.collect_candidates str_lower thr tri tok w)
          = Raise e).
Proof.
  intros str_lower w thr tri tok.
  unfold OverReducedFinder.collect_candidates.
  split; [| split].
  - intros assets Hreg Hnames.
    rewrite (for_static_meshes_on_assets _ _ w Hreg).
    destruct (@for_assets_fold _
                (OverReducedFinder.collect_one str_lower thr tri tok) w
                (fun sm res =>
                   (res ++ (if ORF_selects str_lower w thr tri tok sm
                            then [ORF_record w sm] else []))%list)
                assets
                (fun sm res Hsm =>
                   @ORF_collect_one_selects str_lower thr tri tok sm res w
                     (proj1 (Hnames sm Hsm)) (proj2 (Hnames sm Hsm)))
                [] w (same_host_refl w))
      as [r [E [Hr Hw]]].
    rewrite fold_left_select in Hr. simpl in Hr. subst r.
    split; assumption.
  - intros e Hreg. rewrite (get_assets_raises w Hreg). reflexivity.
  - intros assets pre sm post e Hreg Hy Hpre Hn.
    rewrite (for_static_meshes_on_assets _ _ w Hreg).
    apply (@for_assets_aborts _
             (OverReducedFinder.collect_one str_lower thr tri tok) w e sm
             assets
             (fun res w' =>
                @ORF_collect_one_nameless str_lower thr tri tok sm res w e Hn
                  w')
             pre post Hy);
      [| apply same_host_refl].
    intros x res Hx. destruct (Hpre x Hx) as [H1 H2].
    eapply returns_in_weaken;
      [| apply (@ORF_collect_one_selects str_lower thr tri tok x res w H1 H2)].
    trivial.
Qed.

(** On the sample host the over-reduced building is the one record; on a
    host whose mesh does not answer [get_name()] the scan raises. *)
Lemma X1_example_scan_and_abort :
  fst (OverReducedFinder.collect_candidates ascii_lower
         OverReducedFinder.REDUCTION_THRESHOLD_RAW
         OverReducedFinder.TRIANGLE_THRESHOLD
         OverReducedFinder.BUILDING_TOKEN (world_of mesh_over_reduced))
  = Return [ORF_record (world_of mesh_over_reduced) 0]
  /\ fst (OverReducedFinder.collect_candidates ascii_lower
            OverReducedFinder.REDUCTION_THRESHOLD_RAW
            OverReducedFinder.TRIANGLE_THRESHOLD
            OverReducedFinder.BUILDING_TOKEN
            (world_of mesh_closed_and_nameless))
     = Raise OtherException.
Proof.
  split.
  - apply (proj1 (@X1_ORF_scan_is_a_filter ascii_lower
                    (world_of mesh_over_reduced)
                    OverReducedFinder.REDUCTION_THRESHOLD_RAW
                    OverReducedFinder.TRIANGLE_THRESHOLD
                    OverReducedFinder.BUILDING_TOKEN)
             [{| asset_name := "SM_Building_A";
                 get_asset := Return (Some 0) |}]).
    + reflexivity.
    + intros sm _. split; eexists; reflexivity.
  - apply (proj2 (proj2 (@X1_ORF_scan_is_a_filter ascii_lower
                           (world_of mesh_closed_and_nameless)
                           OverReducedFinder.REDUCTION_THRESHOLD_RAW
                           OverReducedFinder.TRIANGLE_THRESHOLD
                           OverReducedFinder.BUILDING_TOKEN))
             [{| asset_name := "SM_Building_A";
                 get_asset := Return (Some 0) |}]
             [] 0 [] OtherException).
    + reflexivity.
    + reflexivity.
    + intros x [].
    + reflexivity.
Defined.

Lemma TLM_collect_one_selects tri minraw sm res w0 :
  name_returns w0 sm ->
  (TLM_selects w0 tri minraw sm = true -> path_name_returns w0 sm) ->
  returns_in (TrianglesListMaker.collect_one tri minraw sm res) w0
    (fun r => r = (res ++ (if TLM_selects w0 tri minraw sm
                           then [TLM_record w0 sm] else []))%list).
Proof.
  intros Hn Hp.
  unfold TrianglesListMaker.collect_one, TLM_selects, TLM_record in *.
  eapply returns_in_bind; [apply get_name_returned; exact Hn |].
  intros name ->.
  eapply returns_in_bind; [apply tri_count_of_returned |]. intros n ->.
  eapply returns_in_bind; [apply ratio_of_returned |]. intros r ->.
  eapply returns_in_bind; [apply nanite_state_of_returned |]. intros b ->.
  destruct ((tri_count_of w0 sm <? 0)%Z || (tri_count_of w0 sm <? tri)%Z);
    simpl in *; [apply returns_in_ret; rewrite app_nil_r; reflexivity |].
  destruct (TrianglesListMaker.is_unreduced (ratio_of w0 sm) minraw);
    [| apply returns_in_ret; rewrite app_nil_r; reflexivity].
  eapply returns_in_bind; [apply get_path_name_returned, Hp; reflexivity |].
  intros path ->.
  apply returns_in_ret; reflexivity.
Qed.

Lemma TLM_collect_one_nameless tri minraw sm res w0 e :
  obj_name (objects w0 sm) = Raise e ->
  forall w, same_host w w0 ->
    fst (TrianglesListMaker.collect_one tri minraw sm res w) = Raise e.
Proof.
  intros Hn w [Ho _]. unfold TrianglesListMaker.collect_one.
  rewrite (@bind_raises _ _ (get_name sm) _ w w e);
    [reflexivity |].
  rewrite get_name_answer, Ho, Hn. reflexivity.
Qed.

(** X2.  [TrianglesListMaker.collect_candidates].  When the registry hands
    out its entries, every static mesh it yields answers [get_name()] and
    every mesh that is selected answers [get_path_name()] (the script asks
    for the path of selected meshes only), the scan leaves the host as it
    found it (the script does not modify assets) and returns, in the order
    of the registry, one record for each yielded mesh whose triangle count
    is known and at least the threshold and whose ratio is read and counts
    as unreduced.  When the registry raises, or [get_name()] raises on a
    yielded mesh before which every mesh answered, the scan raises that
    exception. *)
Theorem X2_TLM_scan_is_a_filter :
  forall (w : World) (tri : Z) (minraw : float),
    (forall assets,
        registry_assets (unreal w) = Return assets ->
        (forall sm, In sm (yielded assets) ->
           name_returns w sm
           /\ (TLM_selects w tri minraw sm = true -> path_name_returns w sm)) ->
        fst (TrianglesListMaker.collect_candidates tri minraw w)
        = Return (map (TLM_record w)
                      (filter (TLM_selects w tri minraw) (yielded assets)))
        /\ same_host (snd (TrianglesListMaker.collect_candidates tri minraw w))
                     w)
    /\ (forall e,
          registry_assets (unreal w) = Raise e ->
          fst (TrianglesListMaker.collect_candidates tri minraw w) = Raise e)
    /\ (forall assets pre sm post e,
          registry_assets (unreal w) = Return assets ->
          yielded assets = (pre ++ sm :: post)%list ->
          (forall x, In x pre ->
             name_returns w x
             /\ (TLM_selects w tri minraw x = true -> path_name_returns w x)) ->
          obj_name (objects w sm) = Raise e ->
          fst (TrianglesListMaker.collect_candidates tri minraw w) = Raise e).
Proof.
  intros w tri minraw. unfold TrianglesListMaker.collect_candidates.
  split; [| split].
  - intros assets Hreg Hnames.
    rewrite (for_static_meshes_on_assets _ _ w Hreg).
    destruct (@for_assets_fold _
                (TrianglesListMaker.collect_one tri minraw) w
                (fun sm res =>
                   (res ++ (if TLM_selects w tri minraw sm
                            then [TLM_record w sm] else []))%list)
                assets
                (fun sm res Hsm =>
                   @TLM_collect_one_selects tri minraw sm res w
                     (proj1 (Hnames sm Hsm)) (proj2 (Hnames sm Hsm)))
                [] w (same_host_refl w))
      as [r [E [Hr Hw]]].
    rewrite fold_left_select in Hr. simpl in Hr. subst r.
    split; assumption.
  - intros e Hreg. rewrite (get_assets_raises w Hreg). reflexivity.
  - intros assets pre sm post e Hreg Hy Hpre Hn.
    rewrite (for_static_meshes_on_assets _ _ w Hreg).
    apply (@for_assets_aborts _
             (TrianglesListMaker.collect_one tri minraw) w e sm assets
             (fun res w' => @TLM_collect_one_nameless tri minraw sm res w e Hn w')
             pre post Hy);
      [| apply same_host_refl].
    intros x res Hx. destruct (Hpre x Hx) as [H1 H2].
    eapply returns_in_weaken;
      [| apply (@TLM_collect_one_selects tri minraw x res w H1 H2)].
    trivial.
Qed.

(** On the sample host the unreduced mesh is the one record; a mesh that
    gives no path and is not selected does not stop the scan. *)
Lemma X2_example_scan_without_path :
  fst (TrianglesListMaker.collect_candidates
         TrianglesListMaker.TRIANGLE_THRESHOLD
         TrianglesListMaker.UNREDUCED_MIN_RAW (world_of mesh_unreduced))
  = Return [TLM_record (world_of mesh_unreduced) 0]
  /\ fst (TrianglesListMaker.collect_candidates
            TrianglesListMaker.TRIANGLE_THRESHOLD
            TrianglesListMaker.UNREDUCED_MIN_RAW (world_of mesh_pathless))
     = Return [].
Proof.
  split.
  - apply (proj1 (@X2_TLM_scan_is_a_filter (world_of mesh_unreduced)
                    TrianglesListMaker.TRIANGLE_THRESHOLD
                    TrianglesListMaker.UNREDUCED_MIN_RAW)
             [{| asset_name := "SM_Building_A";
                 get_asset := Return (Some 0) |}]).
    + reflexivity.
    + intros sm _. split; [| intros _]; eexists; reflexivity.
  - apply (proj1 (@X2_TLM_scan_is_a_filter (world_of mesh_pathless)
                    TrianglesListMaker.TRIANGLE_THRESHOLD
                    TrianglesListMaker.UNREDUCED_MIN_RAW)
             [{| asset_name := "SM_Building_A";
                 get_asset := Return (Some 0) |}]).
    + reflexivity.
    + intros sm _. split; [eexists; reflexivity |].
      intros H. vm_compute in H. discriminate H.
Defined.

(** ** percenttriangles: finding the meshes *)

Lemma find_loop_all_load token assets :
  Forall (fun a => names_token token a = true -> loads a) assets ->
  forall matches w,
    find_loop token assets matches w
    = (Return (matches ++ yielded (filter (names_token token) assets))%list, w).
Proof.
  induction 1 as [| a rest Ha Hrest IH]; intros matches w; simpl.
  - rewrite app_nil_r. reflexivity.
  - unfold names_token in *. destruct (contains token (asset_name a)).
    + destruct (Ha eq_refl) as [x Hx]. unfold bind, lift. rewrite Hx.
      simpl. rewrite Hx. destruct x as [sm |]; rewrite IH.
      * rewrite <- app_assoc. reflexivity.
      * reflexivity.
    + apply IH.
Qed.

Lemma find_loop_raises token pre a post e :
  Forall (fun a => names_token token a = true -> loads a) pre ->
  names_token token a = true ->
  get_asset a = Raise e ->
  forall matches w,
    find_loop token (pre ++ a :: post) matches w = (Raise e, w).
Proof.
  intros Hpre Ha He. induction Hpre as [| b rest Hb Hrest IH];
    intros matches w; simpl.
  - unfold names_token in Ha. rewrite Ha. unfold bind, lift. rewrite He.
    reflexivity.
  - unfold names_token in Hb. destruct (contains token (asset_name b)).
    + destruct (Hb eq_refl) as [x Hx]. unfold bind, lift. rewrite Hx.
      destruct x as [sm |]; apply IH.
    + apply IH.
Qed.

(** X4.  [percenttriangles.find_static_meshes_with_token] loads the entries
    whose name holds the token (case matters) outside any [try].  When the
    registry hands out its entries and they all load, it returns, in registry
    order, the static meshes among them and leaves the world as it was; the
    first one that fails to load aborts the scan with its exception, where
    [iter_static_meshes] of the two other scripts passes such an entry over;
    and a registry that raises aborts it as well. *)
Theorem X4_find_static_meshes_with_token_loads_or_aborts :
  (forall (w : World) (token : string) (assets : list AssetData),
      registry_assets (unreal w) = Return assets ->
      Forall (fun a => names_token token a = true -> loads a) assets ->
      find_static_meshes_with_token token w
      = (Return (yielded (filter (names_token token) assets)), w))
  /\ (forall (w : World) (token : string) pre a post e,
      registry_assets (unreal w) = Return (pre ++ a :: post)%list ->
      Forall (fun a => names_token token a = true -> loads a) pre ->
      names_token token a = true ->
      get_asset a = Raise e ->
      find_static_meshes_with_token token w = (Raise e, w))
  /\ (forall (w : World) (token : string) e,
      registry_assets (unreal w) = Raise e ->
      find_static_meshes_with_token token w = (Raise e, w)).
Proof.
  split; [| split].
  - intros w token assets Hreg H.
    unfold find_static_meshes_with_token, get_assets, bind, the_unreal, lift.
    simpl. rewrite Hreg.
    rewrite (@find_loop_all_load token _ H). reflexivity.
  - intros w token pre a post e Hreg Hpre Ha He.
    unfold find_static_meshes_with_token, get_assets, bind, the_unreal, lift.
    simpl. rewrite Hreg. apply find_loop_raises; assumption.
  - intros w token e Hreg.
    unfold find_static_meshes_with_token, get_assets, bind, the_unreal, lift.
    simpl. rewrite Hreg. reflexivity.
Qed.

(** One entry that fails to load aborts [find_static_meshes_with_token];
    with a token the entry does not hold, the other matches are returned. *)
Lemma X4_example_broken_entry :
  fst (find_static_meshes_with_token "_veh"
         (world_with_registry (open_mesh 1.0 80000 false)
                              registry_with_broken_entry))
  = Raise OtherException
  /\ fst (find_static_meshes_with_token "Car"
            (world_with_registry (open_mesh 1.0 80000 false)
                                 registry_with_broken_entry))
     = Return [0].
Proof.
  destruct X4_find_static_meshes_with_token_loads_or_aborts
    as [Hall [Hraise _]].
  split.
  - rewrite (Hraise (world_with_registry (open_mesh 1.0 80000 false)
                                         registry_with_broken_entry)
               "_veh"
               [ {| asset_name := "SM_veh_Car"; get_asset := Return (Some 0) |} ]
               {| asset_name := "SM_veh_Bus"; get_asset := Raise OtherException |}
               [ {| asset_name := "SM_veh_Van"; get_asset := Return (Some 2) |} ]
               OtherException); try reflexivity.
    repeat constructor. intros _. eexists; reflexivity.
  - rewrite (Hall (world_with_registry (open_mesh 1.0 80000 false)
                                       registry_with_broken_entry)
               "Car" registry_with_broken_entry eq_refl);
      [reflexivity |].
    repeat constructor; intros H; try discriminate H; eexists; reflexivity.
Defined.

(** ** The frame of a write *)

Lemma only_touches_refl sm w : only_touches sm w w.
Proof. split; [reflexivity | intros; reflexivity]. Qed.

Lemma only_touches_trans sm w1 w2 w3 :
  only_touches sm w1 w2 -> only_touches sm w2 w3 -> only_touches sm w1 w3.
Proof.
  intros [U1 O1] [U2 O2]. split; [congruence |].
  intros r Hr. rewrite O2, O1; auto.
Qed.

Lemma only_touches_same_host sm w w' : same_host w' w -> only_touches sm w w'.
Proof. intros [Ho Hu]. split; [exact Hu | intros r _; rewrite Ho; reflexivity]. Qed.

(** Case analysis on every host answer, for a goal about the objects other
    than the one written. *)
Ltac touch_cases :=
  intros ?w; host_cases;
  (split; [reflexivity |]);
  intros ?r ?Hr; simpl; try reflexivity;
  match goal with
  | H : ?r <> ?sm |- context [Nat.eqb ?r ?sm] =>
      apply Nat.eqb_neq in H; rewrite H; reflexivity
  end.

Lemma write_via_lods_touches sm v w :
  only_touches sm w (snd (write_via_lods sm v w)).
Proof. revert w. unfold write_via_lods. touch_cases. Qed.

Lemma write_via_source_models_touches sm v w :
  only_touches sm w (snd (write_via_source_models sm v w)).
Proof. revert w. unfold write_via_source_models. touch_cases. Qed.

Lemma write_via_subsystem_touches sm v w :
  only_touches sm w (snd (write_via_subsystem sm v w)).
Proof. revert w. unfold write_via_subsystem. touch_cases. Qed.

Lemma Fallback_touches sm {A} (chain : list (strategy A)) (otherwise : M A) :
  Forall (fun s : strategy A => forall w, only_touches sm w (snd (s w))) chain ->
  (forall w, only_touches sm w (snd (otherwise w))) ->
  forall w, only_touches sm w (snd (Fallback chain otherwise w)).
Proof.
  intros Hchain Hother.
  induction Hchain as [| s rest Hs Hrest IH]; intros w; [apply Hother |].
  rewrite Fallback_step.
  destruct (outcome_of s w); simpl; try apply Hs;
    (eapply only_touches_trans; [apply Hs | apply IH]).
Qed.

Lemma Fallback_fails_host {A} (chain : list (strategy A)) (otherwise : M A) :
  Forall well_behaved chain -> preserves otherwise ->
  forall w w', same_host w' w ->
    chain_result (outcomes chain w) = None ->
    same_host (snd (Fallback chain otherwise w')) w.
Proof.
  intros H Hother.
  induction H as [| s rest [Hres Hclean] Hrest IH]; intros w w' Hw Hnone.
  - simpl. eapply same_host_trans; [apply Hother | exact Hw].
  - rewrite Fallback_step. simpl in Hnone.
    rewrite <- (outcome_of_respects Hres Hw) in Hnone.
    destruct (outcome_of s w') eqn:E; try discriminate Hnone;
      apply IH; try exact Hnone;
      (eapply same_host_trans; [apply Hclean; auto | exact Hw]).
Qed.

Lemma write_strategies_touch sm v :
  Forall (fun s : strategy bool => forall w, only_touches sm w (snd (s w)))
         (write_strategies sm v).
Proof.
  unfold write_strategies.
  repeat (apply Forall_cons); try apply Forall_nil; intros w;
    auto using write_via_lods_touches, write_via_source_models_touches,
      write_via_subsystem_touches.
Qed.

Lemma log_no_writable_path_preserves sm : preserves (log_no_writable_path sm).
Proof. unfold log_no_writable_path, percenttriangles._log; mauto. Qed.

(** X5.  [set_percent_triangles_lod0] touches the mesh it is given and
    nothing else: the [unreal] module and every other object stay as they
    were.  When it returns [False] it has changed nothing at all. *)
Theorem X5_write_touches_only_its_mesh :
  forall (w : World) (sm : AssetRef) (v : float),
    only_touches sm w (snd (OverReducedFinder.set_percent_triangles_lod0 sm v w))
    /\ only_touches sm w (snd (percenttriangles.set_percent_triangles_lod0 sm v w))
    /\ (fst (OverReducedFinder.set_percent_triangles_lod0 sm v w) = Return false ->
        same_host (snd (OverReducedFinder.set_percent_triangles_lod0 sm v w)) w)
    /\ (fst (percenttriangles.set_percent_triangles_lod0 sm v w) = Return false ->
        same_host (snd (percenttriangles.set_percent_triangles_lod0 sm v w)) w).
Proof.
  intros w sm v.
  destruct (chain_result_true (write_strategies_return_true sm v w))
    as [_ Hcases].
  split; [| split; [| split]].
  - rewrite ORF_set_percent_triangles_lod0_is_Write.
    apply Fallback_touches; [apply write_strategies_touch |].
    intros w0; apply only_touches_refl.
  - rewrite pt_set_percent_triangles_lod0_is_Write.
    apply Fallback_touches; [apply write_strategies_touch |].
    intros w0. apply only_touches_same_host, log_no_writable_path_preserves.
  - rewrite ORF_set_percent_triangles_lod0_result.
    destruct Hcases as [H | H]; rewrite H; [discriminate |]. intros _.
    rewrite ORF_set_percent_triangles_lod0_is_Write.
    apply Fallback_fails_host;
      [apply write_strategies_well_behaved | apply preserves_ret
      | apply same_host_refl | exact H].
  - rewrite pt_set_percent_triangles_lod0_result.
    destruct Hcases as [H | H]; rewrite H; [discriminate |]. intros _.
    rewrite pt_set_percent_triangles_lod0_is_Write.
    apply Fallback_fails_host;
      [apply write_strategies_well_behaved
      | apply log_no_writable_path_preserves
      | apply same_host_refl | exact H].
Qed.

(** ** percenttriangles: what a dry run does and does not do *)

Lemma ensure_nanite_disabled_quiet sm :
  emits_only quiet (percenttriangles.ensure_nanite_disabled sm).
Proof.
  unfold percenttriangles.ensure_nanite_disabled,
    percenttriangles.nanite_fallback.
  mauto.
Qed.

Lemma pt_process_mesh_dry_run_quiet sm :
  emits_only quiet (percenttriangles.process_mesh sm true).
Proof.
  unfold percenttriangles.process_mesh.
  apply emits_only_bind; [mauto |]. intros name.
  apply emits_only_bind;
    [unfold percenttriangles.get_percent_triangles_lod0,
       Shared.get_percent_triangles_lod0, read_via_lods,
       read_via_source_models, read_via_subsystem; mauto |].
  intros [p |]; [| apply emits_only_ret].
  apply emits_only_bind; [unfold percenttriangles.read_tri_count; mauto |].
  intros n.
  apply emits_only_bind; [apply ensure_nanite_disabled_quiet |].
  intros nanite.
  repeat match goal with
         | |- emits_only _ (if ?c then _ else _) =>
             destruct c; [apply emits_only_ret |]
         end.
  apply emits_only_ret.
Qed.

Lemma same_reduction_view_trans o1 o2 o3 :
  same_reduction_view o1 o2 -> same_reduction_view o2 o3 ->
  same_reduction_view o1 o3.
Proof.
  unfold same_reduction_view. intros H1 H2.
  repeat match goal with H : _ /\ _ |- _ => destruct H end.
  repeat split; congruence.
Qed.

Lemma pt_process_mesh_dry_run_keeps_reduction_view sm :
  keeps same_reduction_view (percenttriangles.process_mesh sm true).
Proof.
  pose proof same_reduction_view_refl as Hrefl.
  pose proof same_reduction_view_trans as Htrans.
  unfold percenttriangles.process_mesh.
  apply keeps_bind; try assumption;
    [apply keeps_observer; [assumption | mauto] |]. intros name.
  apply keeps_bind; try assumption;
    [apply keeps_observer;
       [assumption | apply get_percent_triangles_lod0_preserves] |].
  intros [p |]; [| apply keeps_ret; assumption].
  apply keeps_bind; try assumption;
    [apply keeps_observer; [assumption | apply read_tri_count_preserves] |].
  intros n.
  apply keeps_bind; try assumption;
    [apply ensure_nanite_disabled_keeps_reduction_view |].
  intros nanite.
  repeat match goal with
         | |- keeps _ (if ?c then _ else _) =>
             destruct c; [apply keeps_ret; assumption |]
         end.
  apply keeps_ret; assumption.
Qed.

(** A mesh that is skipped is treated as in a dry run. *)
Lemma pt_process_mesh_skip_ignores_dry_run sm w p :
  fst (percenttriangles.get_percent_triangles_lod0 sm w) = Return (Some p) ->
  skipped p = true ->
  percenttriangles.process_mesh sm false w
  = percenttriangles.process_mesh sm true w.
Proof.
  intros Hp Hskip.
  unfold percenttriangles.process_mesh, bind.
  rewrite get_name_answer.
  destruct (obj_name (objects w sm)) as [name | e0]; [| reflexivity].
  destruct (percenttriangles.get_percent_triangles_lod0 sm w)
    as [[[p' |] | e] w1]; simpl in Hp; try discriminate Hp.
  injection Hp as ->.
  destruct (percenttriangles.read_tri_count sm w1) as [[m | e] w3];
    [| reflexivity].
  destruct (percenttriangles.ensure_nanite_disabled sm w3) as [[t | e] w4];
    [| reflexivity].
  unfold skipped, already_at_target, not_full_resolution in Hskip.
  destruct (percenttriangles.SKIP_IF_ALREADY_BELOW_TARGET
            && (abs (p - percenttriangles.TARGET_PERCENT_RAW)
                <=? percenttriangles.EPS_RAW)%float); [reflexivity |].
  change ((0 <? percenttriangles.TRIANGLE_CUTOFF)%Z) with false.
  cbn [andb].
  destruct (percenttriangles.APPLY_IF_PERCENT_EQ_FULL
            && (percenttriangles.EPS_RAW
                <? abs (p - percenttriangles.ONLY_WHEN_EQUALS_RAW))%float);
    [reflexivity | discriminate Hskip].
Qed.

(** X7.  A dry run of [percenttriangles.process_mesh] makes no write of the
    reduction ratio, no build call and no save call, and leaves the [unreal]
    module and the reduction fields of every mesh as they were (the Nanite
    flag is the one thing it may change).  A run over a mesh that is skipped
    does exactly what the dry run does. *)
Theorem X7_dry_run_writes_no_ratio :
  forall (w : World) (sm : AssetRef),
    (exists evs,
        trace (snd (percenttriangles.process_mesh sm true w))
        = (evs ++ trace w)%list
        /\ forallb quiet evs = true)
    /\ unreal (snd (percenttriangles.process_mesh sm true w)) = unreal w
    /\ (forall r,
          same_reduction_view
            (objects w r)
            (objects (snd (percenttriangles.process_mesh sm true w)) r))
    /\ (forall p,
          fst (percenttriangles.get_percent_triangles_lod0 sm w)
          = Return (Some p) ->
          skipped p = true ->
          percenttriangles.process_mesh sm false w
          = percenttriangles.process_mesh sm true w).
Proof.
  intros w sm.
  destruct (pt_process_mesh_dry_run_keeps_reduction_view sm w) as [Hu Ho].
  split; [apply pt_process_mesh_dry_run_quiet |].
  split; [exact Hu |]. split; [exact Ho |].
  intros p. apply pt_process_mesh_skip_ignores_dry_run.
Qed.

(** A write of the ratio is a call that is not [quiet]: the run that applies
    the change records one. *)
Lemma applying_run_is_not_quiet :
  forallb quiet
    (trace (snd (percenttriangles.process_mesh 0 false
                   (world_of (open_mesh 1.0 80000 false))))) = false.
Proof. vm_compute. reflexivity. Qed.

(** ** percenttriangles: what [ensure_nanite_disabled] lets through *)

Lemma ensure_nanite_disabled_lets_through sm w :
  is_nanite_enabled (objects w sm) = Raise OtherException
  \/ (is_nanite_enabled (objects w sm) = Return true
      /\ set_nanite_enabled_raises (objects w sm) = Some OtherException) ->
  fst (percenttriangles.ensure_nanite_disabled sm w) = Raise OtherException.
Proof.
  unfold percenttriangles.ensure_nanite_disabled, reify,
    call_is_nanite_enabled, call_set_nanite_enabled, raises.
  unfold bind, try_except, emit, the_object, lift, ret, raise. simpl.
  intros [H | [H1 H2]].
  - rewrite H. reflexivity.
  - rewrite H1. simpl. rewrite H2. reflexivity.
Qed.

(** X8.  [ensure_nanite_disabled] catches [AttributeError] only.  When the
    mesh answers [get_name()], its ratio can be read and
    [is_nanite_enabled], or [set_nanite_enabled] on a mesh with Nanite on,
    raises another exception, [process_mesh] raises it to its caller, in a
    dry run as well. *)
Theorem X8_nanite_error_escapes_process_mesh :
  forall (w : World) (sm : AssetRef) (dry_run : bool) (name : string)
         (p : float),
    obj_name (objects w sm) = Return name ->
    fst (percenttriangles.get_percent_triangles_lod0 sm w) = Return (Some p) ->
    is_nanite_enabled (objects w sm) = Raise OtherException
    \/ (is_nanite_enabled (objects w sm) = Return true
        /\ set_nanite_enabled_raises (objects w sm) = Some OtherException) ->
    fst (percenttriangles.ensure_nanite_disabled sm w) = Raise OtherException
    /\ fst (percenttriangles.process_mesh sm dry_run w) = Raise OtherException.
Proof.
  intros w sm dry name p Hn Hp H.
  split; [apply ensure_nanite_disabled_lets_through; exact H |].
  destruct (pt_process_mesh_after_read sm dry w Hn Hp)
    as [n [w2 [[Ho Hu] E]]].
  rewrite E. rewrite <- Ho in H.
  pose proof (ensure_nanite_disabled_lets_through sm w2 H) as R.
  unfold bind.
  destruct (percenttriangles.ensure_nanite_disabled sm w2) as [r w3].
  simpl in R. subst r. reflexivity.
Qed.

(** A mesh whose [is_nanite_enabled] raises: the dry run raises too. *)
Lemma X8_example_dry_run_raises :
  fst (percenttriangles.ensure_nanite_disabled 0 (world_of mesh_nanite_raises))
  = Raise OtherException
  /\ fst (percenttriangles.process_mesh 0 true (world_of mesh_nanite_raises))
     = Raise OtherException.
Proof.
  apply (@X8_nanite_error_escapes_process_mesh
           (world_of mesh_nanite_raises) 0 true
           (name_of (world_of mesh_nanite_raises) 0) 1.0%float).
  - reflexivity.
  - reflexivity.
  - left; reflexivity.
Defined.

(** ** OverReducedFinder: what build_and_save answers *)

Lemma ORF_build_and_save_preserves sm :
  preserves (OverReducedFinder.build_and_save sm).
Proof. unfold OverReducedFinder.build_and_save; mauto. Qed.

Lemma ORF_build_and_save_answer sm w smes :
  editor_subsystem (unreal w) = Return smes ->
  fst (OverReducedFinder.build_and_save sm w)
  = Return (build_succeeds smes (objects w sm)
            && save_succeeds (unreal w) (objects w sm)).
Proof.
  intros H.
  unfold OverReducedFinder.build_and_save, build_succeeds, save_succeeds,
    no_exn, hasattr_rebuild_lods, hasattr_build_static_mesh.
  autounfold with host_calls.
  unfold bind, try_except, emit, the_object, the_unreal, lift, raise, ret.
  simpl. rewrite H.
  host_cases; try congruence; reflexivity.
Qed.

Lemma build_save_succeed_frame smes u u' o o' :
  u' = u -> same_services o o' ->
  build_succeeds smes o' && save_succeeds u' o'
  = build_succeeds smes o && save_succeeds u o.
Proof.
  intros -> (_ & H1 & H2 & H3 & H4 & H5 & H6).
  unfold build_succeeds, save_succeeds.
  rewrite H1, H2, H3, H4, H5, H6. reflexivity.
Qed.

(** X9.  What [OverReducedFinder.build_and_save] answers: [True] exactly
    when one of its three build calls and one of its two save calls goes
    through.  So on a mesh the write succeeds on, [process_mesh] records
    FIXED when both go through and SAVE-FAIL otherwise: SAVE-FAIL is also
    what a mesh gets that was saved but could not be rebuilt. *)
Theorem X9_build_and_save_needs_a_build_and_a_save :
  forall (w : World) (smes : option Subsystem),
    editor_subsystem (unreal w) = Return smes ->
    (forall sm,
        fst (OverReducedFinder.build_and_save sm w)
        = Return (build_succeeds smes (objects w sm)
                  && save_succeeds (unreal w) (objects w sm)))
    /\ (forall mi,
          writable w (OverReducedFinder.asset mi)
                   OverReducedFinder.TARGET_PERCENT_RAW ->
          fst (OverReducedFinder.process_mesh mi false w)
          = Return
              (if build_succeeds smes (objects w (OverReducedFinder.asset mi))
                  && save_succeeds (unreal w)
                                   (objects w (OverReducedFinder.asset mi))
               then (true,
                     OverReducedFinder.set_percent_raw_after
                       (OverReducedFinder.set_action mi "FIXED")
                       OverReducedFinder.TARGET_PERCENT_RAW)
               else (false, OverReducedFinder.set_action mi "SAVE-FAIL"))).
Proof.
  intros w smes Hs. split.
  - intros sm. apply ORF_build_and_save_answer; exact Hs.
  - intros mi Hw.
    destruct (ORF_process_mesh_writable mi Hw) as [w1 [Hu [Ho E]]].
    rewrite E. clear E.
    assert (Hs1 : editor_subsystem (unreal w1) = Return smes) by congruence.
    pose proof (ORF_build_and_save_answer (OverReducedFinder.asset mi) w1 Hs1)
      as B.
    rewrite (build_save_succeed_frame smes Hu Ho) in B.
    unfold bind.
    destruct (OverReducedFinder.build_and_save _ w1) as [r w2].
    simpl in B. subst r.
    destruct (build_succeeds smes _ && save_succeeds _ _); reflexivity.
Qed.

(** On [mesh_build_fails] the write and the save go through and no build
    call does: the mesh is recorded SAVE-FAIL. *)
Lemma X9_example_saved_but_not_rebuilt :
  save_succeeds editor mesh_build_fails = true
  /\ fst (OverReducedFinder.process_mesh sample_record false
            (world_of mesh_build_fails))
     = Return (false, OverReducedFinder.set_action sample_record "SAVE-FAIL").
Proof.
  split; [reflexivity |].
  destruct (@X9_build_and_save_needs_a_build_and_a_save
              (world_of mesh_build_fails)
              (Some {| has_rebuild_lods := true; has_build_static_mesh := true |})
              eq_refl) as [_ H].
  rewrite (H sample_record); [reflexivity |].
  apply Exists_cons_tl, Exists_cons_hd. reflexivity.
Defined.

(** ** What escapes the build-and-save step *)

Lemma ORF_build_and_save_lookup_raises sm w e :
  editor_subsystem (unreal w) = Raise e ->
  fst (OverReducedFinder.build_and_save sm w) = Raise e
  /\ same_host (snd (OverReducedFinder.build_and_save sm w)) w.
Proof.
  intros H. split; [| apply ORF_build_and_save_preserves].
  unfold OverReducedFinder.build_and_save, get_editor_subsystem.
  unfold bind, emit, the_unreal, lift. simpl. rewrite H. reflexivity.
Qed.

(** X10.  [OverReducedFinder.build_and_save] looks the editor subsystem up
    outside any [try].  When that lookup raises, [process_mesh] on a mesh the
    write succeeds on raises the same exception: the ratio has been written
    (the host is the one the write left), nothing is saved and the record is
    not updated. *)
Theorem X10_lookup_error_escapes_after_the_write :
  forall (w : World) (mi : OverReducedFinder.MeshInfo) (e : exn),
    editor_subsystem (unreal w) = Raise e ->
    writable w (OverReducedFinder.asset mi)
             OverReducedFinder.TARGET_PERCENT_RAW ->
    fst (OverReducedFinder.process_mesh mi false w) = Raise e
    /\ same_host
         (snd (OverReducedFinder.process_mesh mi false w))
         (snd (OverReducedFinder.set_percent_triangles_lod0
                 (OverReducedFinder.asset mi)
                 OverReducedFinder.TARGET_PERCENT_RAW w))
    /\ fst (OverReducedFinder.set_percent_triangles_lod0
              (OverReducedFinder.asset mi)
              OverReducedFinder.TARGET_PERCENT_RAW w) = Return true.
Proof.
  intros w mi e Hs Hw.
  pose proof (ORF_set_percent_triangles_lod0_result
                (OverReducedFinder.asset mi)
                OverReducedFinder.TARGET_PERCENT_RAW w) as R.
  apply (chain_result_true (write_strategies_return_true _ _ w)) in Hw.
  rewrite Hw in R.
  destruct (ORF_set_percent_triangles_lod0_keeps
              (OverReducedFinder.asset mi)
              OverReducedFinder.TARGET_PERCENT_RAW w) as [Hu _].
  unfold OverReducedFinder.process_mesh, bind.
  destruct (OverReducedFinder.set_percent_triangles_lod0 _ _ w) as [r w1].
  cbn [fst snd] in *. subst r.
  assert (Hs1 : editor_subsystem (unreal w1) = Raise e) by congruence.
  destruct (ORF_build_and_save_lookup_raises (OverReducedFinder.asset mi) w1 Hs1)
    as [B Hh].
  destruct (OverReducedFinder.build_and_save _ w1) as [r2 w2].
  cbn [fst snd] in *. subst r2.
  split; [reflexivity |]. split; [exact Hh | reflexivity].
Qed.

Lemma pt_build_and_save_raises sm w name e :
  obj_name (objects w sm) = Return name ->
  log_raises (unreal w) = None ->
  editor_subsystem (unreal w) = Raise e
  \/ (exists smes, editor_subsystem (unreal w) = Return smes
                   /\ outer (objects w sm) = Raise e) ->
  fst (percenttriangles.build_and_save sm w) = Raise e.
Proof.
  intros Hname Hlog [H | [smes [H1 H2]]].
  - unfold percenttriangles.build_and_save, get_editor_subsystem.
    unfold bind, emit, the_unreal, lift. simpl. rewrite H. reflexivity.
  - unfold percenttriangles.build_and_save, percenttriangles._log_warning,
      percenttriangles._log, hasattr_rebuild_lods, hasattr_build_static_mesh.
    autounfold with host_calls.
    unfold bind, try_except, emit, the_object, the_unreal, lift, raise, ret.
    simpl. rewrite H1.
    host_cases; simpl; rewrite ?H2; try congruence; try reflexivity.
Qed.

(** X11.  [percenttriangles.build_and_save] calls [get_editor_subsystem] and
    [static_mesh.get_outer()] outside any [try].  On a host where the mesh
    answers [get_name()] and [unreal.log] returns: when the write of the
    ratio has succeeded and one of the two raises, [process_mesh] raises the
    same exception instead of returning its "Changed" message: the caller
    gets no result for a mesh whose ratio has been written. *)
Theorem X11_build_and_save_error_escapes_after_the_write :
  forall (w : World) (sm : AssetRef) (name : string) (p : float) (e : exn),
    obj_name (objects w sm) = Return name ->
    log_raises (unreal w) = None ->
    fst (percenttriangles.get_percent_triangles_lod0 sm w) = Return (Some p) ->
    skipped p = false ->
    is_nanite_enabled (objects w sm) <> Raise OtherException ->
    set_nanite_enabled_raises (objects w sm) <> Some OtherException ->
    writable w sm percenttriangles.TARGET_PERCENT_RAW ->
    editor_subsystem (unreal w) = Raise e
    \/ (exists smes, editor_subsystem (unreal w) = Return smes
                     /\ outer (objects w sm) = Raise e) ->
    fst (percenttriangles.process_mesh sm false w) = Raise e.
Proof.
  intros w sm name p e Hname Hlog Hp Hskip Hn1 Hn2 Hw Hraise.
  destruct (pt_process_mesh_reaches_write sm w Hname Hp Hskip Hn1 Hn2)
    as [n [t [w3 [Hu [Hsv [Hr E]]]]]].
  rewrite E. clear E.
  pose proof (pt_set_percent_triangles_lod0_result sm
                percenttriangles.TARGET_PERCENT_RAW w3) as R.
  rewrite (write_outcomes_frame sm _ w w3 Hu Hr) in R.
  apply (chain_result_true (write_strategies_return_true _ _ w)) in Hw.
  rewrite Hw in R.
  destruct (pt_set_percent_triangles_lod0_keeps sm
              percenttriangles.TARGET_PERCENT_RAW w3) as [Hu4 Hs4].
  destruct (percenttriangles.set_percent_triangles_lod0 sm _ w3)
    as [r w4] eqn:E4.
  cbn [fst snd] in R, Hu4, Hs4. subst r.
  rewrite (@bind_returns _ _ _ _ _ _ _ E4).
  assert (Hraise' :
            editor_subsystem (unreal w4) = Raise e
            \/ (exists smes, editor_subsystem (unreal w4) = Return smes
                             /\ outer (objects w4 sm) = Raise e)).
  { destruct Hsv as (_ & O3 & _). destruct (Hs4 sm) as (_ & O4 & _).
    destruct Hraise as [H | [smes [H1 H2]]]; [left | right; exists smes; split];
      congruence. }
  assert (Hlog' : log_raises (unreal w4) = None) by congruence.
  assert (Hname' : obj_name (objects w4 sm) = Return name).
  { destruct Hsv as (N3 & _). destruct (Hs4 sm) as (N4 & _). congruence. }
  pose proof (@pt_build_and_save_raises sm w4 name e Hname' Hlog' Hraise')
    as B.
  unfold bind.
  destruct (percenttriangles.build_and_save sm w4) as [r5 w5].
  cbn [fst] in B. subst r5. reflexivity.
Qed.

(** With no subsystem to look up, the over-reduced mesh of [sample_record]
    has its ratio written and [process_mesh] raises. *)
Lemma X10_example_no_subsystem :
  fst (OverReducedFinder.process_mesh sample_record false
         (world_without_subsystem (open_mesh 0.05 120 false)))
  = Raise OtherException
  /\ fst (OverReducedFinder.get_percent_triangles_lod0 0
            (snd (OverReducedFinder.process_mesh sample_record false
                    (world_without_subsystem (open_mesh 0.05 120 false)))))
     = Return (Some OverReducedFinder.TARGET_PERCENT_RAW).
Proof.
  destruct (@X10_lookup_error_escapes_after_the_write
              (world_without_subsystem (open_mesh 0.05 120 false))
              sample_record OtherException eq_refl) as [H _].
  - apply Exists_cons_tl, Exists_cons_hd. reflexivity.
  - split; [exact H | reflexivity].
Defined.

(** On [mesh_without_outer] the ratio is written and [process_mesh] raises
    what [get_outer] raised. *)
Lemma X11_example_no_package :
  fst (percenttriangles.process_mesh 0 false (world_of mesh_without_outer))
  = Raise OtherException.
Proof.
  apply (@X11_build_and_save_error_escapes_after_the_write
           (world_of mesh_without_outer) 0
           (name_of (world_of mesh_without_outer) 0) 1.0%float
           OtherException).
  - reflexivity.
  - reflexivity.
  - reflexivity.
  - reflexivity.
  - discriminate.
  - discriminate.
  - apply Exists_cons_tl, Exists_cons_hd. reflexivity.
  - right. eexists. split; reflexivity.
Defined.

(** ** Report tables *)
























